(** * A catalog REST API (products and categories): model and properties

    The development follows the layers of the program: the JavaScript
    primitives the code relies on ([trim], [parseFloat], [Number]), the
    response helpers of [utils/response.ts], the central error handler of
    [middlewares.ts], the tables behind the ORM client, the validation
    schemas of the two [types.ts] files, and the services and controllers,
    each a module named as in the sources.  Requests are handled one at a
    time: a controller is a function from the request and the database to
    a response and the next database; an exception is a value of its
    own, so that what is thrown, caught and forwarded can be followed. *)

From Stdlib Require Import ZArith QArith Qround Qabs List String Ascii Bool Lia.
From Stdlib Require Import Sorting.Sorted Sorting.Permutation.
Import ListNotations.

Local Open Scope Z_scope.

(* ================================================================== *)
(** ** JavaScript primitives *)
(* ================================================================== *)

Module Js.

(** A JavaScript number: a double.  A finite value is held as the rational
    it stands for; [double], below, rounds a rational to the nearest one. *)
Inductive num : Type :=
| NaN
| Inf (negative : bool)
| Fin (q : Q).

(** A value as it arrives in a parsed request body. *)
Inductive value : Type :=
| Undefined
| Null
| Bool (b : bool)
| Num (n : num)
| Str (s : string)
| Other.                      (* arrays and nested objects *)

Definition isNaN (n : num) : bool :=
  match n with NaN => true | _ => false end.

(** Truthiness of a string: only the empty string is falsy. *)
Definition truthy (s : string) : bool :=
  match s with EmptyString => false | String _ _ => true end.

(** *** Texts

    A text is held as the bytes of its UTF-8 encoding.  The length the
    code measures, [s.length], counts UTF-16 code units: one for a
    character of the basic plane (one, two or three bytes), two for a
    character beyond it (four bytes). *)

Definition code (c : ascii) : Z := Z.of_nat (nat_of_ascii c).

Definition units (c : ascii) : nat :=
  let n := code c in
  if n <? 128 then 1%nat          (* a character of one byte *)
  else if n <? 192 then 0%nat     (* a continuation byte *)
  else if n <? 240 then 1%nat     (* the first of two or three bytes *)
  else 2%nat.                     (* the first of four: a surrogate pair *)

Fixpoint lengthList (l : list ascii) : nat :=
  match l with
  | [] => 0%nat
  | c :: r => (units c + lengthList r)%nat
  end.

Definition length (s : string) : nat := lengthList (list_ascii_of_string s).

(** White space and line terminators: U+0009 to U+000D and U+0020, of one
    byte; U+00A0, of two; U+1680, U+2000 to U+200A, U+2028, U+2029,
    U+202F, U+205F, U+3000 and U+FEFF, of three. *)
Definition narrowSpace (x : Z) : bool :=
  (x =? 32) || ((9 <=? x) && (x <=? 13)).

Definition wideSpace (x y z : Z) : bool :=
  ((x =? 225) && (y =? 154) && (z =? 128))
  || ((x =? 226) && (y =? 128)
      && (((128 <=? z) && (z <=? 138)) || (z =? 168) || (z =? 169)
          || (z =? 175)))
  || ((x =? 226) && (y =? 129) && (z =? 159))
  || ((x =? 227) && (y =? 128) && (z =? 128))
  || ((x =? 239) && (y =? 187) && (z =? 191)).

(** How many bytes the white space character at the head of [l] takes; 0
    when [l] does not start with one. *)
Definition whiteSpaceAhead (l : list ascii) : nat :=
  match l with
  | a :: r =>
      if narrowSpace (code a) then 1%nat
      else
        match r with
        | b :: r' =>
            if (code a =? 194) && (code b =? 160) then 2%nat
            else
              match r' with
              | c :: _ =>
                  if wideSpace (code a) (code b) (code c) then 3%nat
                  else 0%nat
              | [] => 0%nat
              end
        | [] => 0%nat
        end
  | [] => 0%nat
  end.

(** The same at the end of a text, read on the reversed bytes. *)
Definition whiteSpaceBehind (l : list ascii) : nat :=
  match l with
  | a :: r =>
      if narrowSpace (code a) then 1%nat
      else
        match r with
        | b :: r' =>
            if (code b =? 194) && (code a =? 160) then 2%nat
            else
              match r' with
              | c :: _ =>
                  if wideSpace (code c) (code b) (code a) then 3%nat
                  else 0%nat
              | [] => 0%nat
              end
        | [] => 0%nat
        end
  | [] => 0%nat
  end.

(** Characters are dropped as long as [ahead] finds one; no more than
    [fuel] of them, and a text has fewer characters than bytes. *)
Fixpoint dropSpaces (ahead : list ascii -> nat) (fuel : nat)
    (l : list ascii) : list ascii :=
  match fuel with
  | O => l
  | S k =>
      match ahead l with
      | O => l
      | S n => dropSpaces ahead k (skipn (S n) l)
      end
  end.

Definition dropWhiteSpace (l : list ascii) : list ascii :=
  dropSpaces whiteSpaceAhead (List.length l) l.

Definition trimList (l : list ascii) : list ascii :=
  let r := rev (dropWhiteSpace l) in
  rev (dropSpaces whiteSpaceBehind (List.length r) r).

(** [String.prototype.trim]. *)
Definition trim (s : string) : string :=
  string_of_list_ascii (trimList (list_ascii_of_string s)).

Fixpoint startsWith (p l : list ascii) : bool :=
  match p, l with
  | [], _ => true
  | _ :: _, [] => false
  | a :: p', b :: l' => (Ascii.eqb a b && startsWith p' l')%bool
  end.

(** *** Doubles *)

Definition pow2 (e : Z) : Q :=
  if 0 <=? e then inject_Z (2 ^ e) else (1 / inject_Z (2 ^ (- e)))%Q.

(** The integer nearest to [q], the even one of two that are as near. *)
Definition nearestEven (q : Q) : Z :=
  let f := Qfloor q in
  match Qcompare (q - inject_Z f) (1 # 2) with
  | Lt => f
  | Gt => f + 1
  | Eq => if Z.even f then f else f + 1
  end.

(** The double nearest to [q]: 53 significant bits, exponents down to
    -1022 (below, the spacing stays that of the smallest normal numbers),
    and an infinity from [2 ^ 1024] on. *)
Definition double (q : Q) : num :=
  if Qeq_bool q 0 then Fin 0
  else
    let a := Qabs q in
    let e0 := Z.log2 (Qnum a) - Z.log2 (Zpos (Qden a)) in
    let e1 := if Qle_bool (pow2 e0) a then e0 else e0 - 1 in
    let e := Z.max e1 (- 1022) in
    let ulp := pow2 (e - 52) in
    let r := Qred (inject_Z (nearestEven (a / ulp)) * ulp) in
    if Qle_bool (pow2 1024) r then Inf (Qnum q <? 0)
    else Fin (if Qnum q <? 0 then Qred (- r) else r).

(** A number read from a request body is a double already; this is the
    identity on doubles. *)
Definition asDouble (n : num) : num :=
  match n with
  | Fin q => double q
  | _ => n
  end.

(** *** Numeric literals *)

Definition digitIn (base : Z) (c : ascii) : option Z :=
  let n := Z.of_nat (nat_of_ascii c) in
  let d :=
    if (48 <=? n) && (n <=? 57) then n - 48
    else if (97 <=? n) && (n <=? 102) then n - 87
    else if (65 <=? n) && (n <=? 70) then n - 55
    else 99 in
  if d <? base then Some d else None.

(** Longest run of digits of the base at the head of [l], as its value, the
    number of digits and what follows. *)
Fixpoint takeDigits (base : Z) (acc : Z) (count : nat) (l : list ascii)
  : Z * nat * list ascii :=
  match l with
  | c :: r =>
      match digitIn base c with
      | Some d => takeDigits base (base * acc + d) (S count) r
      | None => (acc, count, l)
      end
  | [] => (acc, count, [])
  end.

Definition pow10 (e : Z) : Q :=
  if 0 <=? e then inject_Z (10 ^ e) else (1 / inject_Z (10 ^ (- e)))%Q.

(** An exponent part, taken only when at least one digit follows. *)
Definition scanExponent (l : list ascii) : Z * list ascii :=
  match l with
  | c :: r =>
      if (Ascii.eqb c "e" || Ascii.eqb c "E")%bool then
        let '(sgn, r1) :=
          match r with
          | s :: r' =>
              if Ascii.eqb s "+" then (1, r')
              else if Ascii.eqb s "-" then (-1, r')
              else (1, r)
          | [] => (1, r)
          end in
        let '(v, n, r2) := takeDigits 10 0 0 r1 in
        match n with
        | O => (0, l)
        | S _ => (sgn * v, r2)
        end
      else (0, l)
  | [] => (0, l)
  end.

(** Longest unsigned decimal literal at the head of [l]: digits, an
    optional fraction, an optional exponent.  [None] when no digit is
    found. *)
Definition scanDecimal (l : list ascii) : option (Q * list ascii) :=
  let '(iv, ic, r) := takeDigits 10 0 0 l in
  let '(fv, fc, r1, dot) :=
    match r with
    | c :: r' =>
        if Ascii.eqb c "." then
          let '(fv, fc, r'') := takeDigits 10 0 0 r' in (fv, fc, r'', true)
        else (0, O, r, false)
    | [] => (0, O, r, false)
    end in
  match ic, fc with
  | O, O => None
  | _, _ =>
      let '(e, r2) := scanExponent r1 in
      let mant := (inject_Z iv + inject_Z fv * pow10 (- Z.of_nat fc))%Q in
      Some (Qred (mant * pow10 e), r2)
  end.

Definition infinityLit : list ascii := list_ascii_of_string "Infinity".

(** Longest signed literal ([Infinity] included) at the head of [l]. *)
Definition scanSigned (l : list ascii) : option (num * list ascii) :=
  let '(neg, r) :=
    match l with
    | c :: r' =>
        if Ascii.eqb c "+" then (false, r')
        else if Ascii.eqb c "-" then (true, r')
        else (false, l)
    | [] => (false, l)
    end in
  if startsWith infinityLit r then
    Some (Inf neg, skipn (List.length infinityLit) r)
  else
    match scanDecimal r with
    | Some (q, r') => Some (double (if neg then (- q)%Q else q), r')
    | None => None
    end.

(** [parseFloat]: leading white space is skipped, the longest numeric
    prefix is read and rounded to a double, and the rest is ignored; [NaN]
    when there is no such prefix. *)
Definition parseFloat (s : string) : num :=
  match scanSigned (dropWhiteSpace (list_ascii_of_string s)) with
  | Some (n, _) => n
  | None => NaN
  end.

Definition scanRadix (base : Z) (l : list ascii) : num :=
  match takeDigits base 0 0 l with
  | (v, S _, []) => double (inject_Z v)
  | _ => NaN
  end.

(** [Number(s)] on a string: the whole trimmed string must be a numeric
    literal; the empty string is 0. *)
Definition toNumber (s : string) : num :=
  match trimList (list_ascii_of_string s) with
  | [] => Fin 0
  | l =>
      match l with
      | z :: x :: r =>
          if (Ascii.eqb z "0" && (Ascii.eqb x "x" || Ascii.eqb x "X"))%bool
          then scanRadix 16 r
          else if (Ascii.eqb z "0" && (Ascii.eqb x "o" || Ascii.eqb x "O"))%bool
          then scanRadix 8 r
          else if (Ascii.eqb z "0" && (Ascii.eqb x "b" || Ascii.eqb x "B"))%bool
          then scanRadix 2 r
          else
            match scanSigned l with
            | Some (n, []) => n
            | _ => NaN
            end
      | _ =>
          match scanSigned l with
          | Some (n, []) => n
          | _ => NaN
          end
      end
  end.

(** *** Numbers as decimals

    What [Number.prototype.toString] writes, which is what reaches the
    database for a number: the decimal of the fewest digits that reads back
    as the same double and, of those, the nearest to it. *)

Definition readsAs (c a : Q) : bool :=
  match double c with
  | Fin x => Qeq_bool x a
  | _ => false
  end.

(** The exponent [e] with [10 ^ e <= a < 10 ^ (e + 1)], from an estimate. *)
Fixpoint settle (fuel : nat) (a : Q) (e : Z) : Z :=
  match fuel with
  | O => e
  | S k =>
      if negb (Qle_bool (pow10 e) a) then settle k a (e - 1)
      else if Qle_bool (pow10 (e + 1)) a then settle k a (e + 1)
      else e
  end.

Definition decimalExponent (a : Q) : Z :=
  settle 4 a (((Z.log2 (Qnum a) - Z.log2 (Zpos (Qden a))) * 30103) / 100000).

(** With [k] digits, then [k + 1], ...: the multiples of [10 ^ (e - k + 1)]
    on either side of [a] are tried. *)
Fixpoint shortest (fuel : nat) (k e : Z) (a : Q) : Q :=
  match fuel with
  | O => a
  | S f =>
      let step := pow10 (e - k + 1) in
      let n := Qfloor (a / step) in
      let lo := Qred (inject_Z n * step) in
      let hi := Qred (inject_Z (n + 1) * step) in
      match readsAs lo a, readsAs hi a with
      | true, true =>
          match Qcompare (a - lo) (hi - a) with
          | Lt => lo
          | Gt => hi
          | Eq => if Z.even n then lo else hi
          end
      | true, false => lo
      | false, true => hi
      | false, false => shortest f (k + 1) e a
      end
  end.

Definition toDecimal (q : Q) : Q :=
  if Qeq_bool q 0 then 0%Q
  else
    let a := Qabs q in
    let d := shortest 17 1 (decimalExponent a) a in
    if Qnum q <? 0 then Qred (- d) else d.

(** Comparisons of numbers, false whenever [NaN] is involved. *)
Definition gtb (a b : num) : bool :=
  match a, b with
  | NaN, _ | _, NaN => false
  | Inf false, Inf false => false
  | Inf false, _ => true
  | _, Inf false => false
  | Inf true, _ => false
  | Fin _, Inf true => true
  | Fin x, Fin y => negb (Qle_bool x y)
  end.

Definition leb (a b : num) : bool :=
  match a, b with
  | NaN, _ | _, NaN => false
  | _, _ => negb (gtb a b)
  end.

(** [Number.isInteger]. *)
Definition isInteger (n : num) : bool :=
  match n with
  | Fin q => Qeq_bool q (inject_Z (Qfloor q))
  | _ => false
  end.

(** Between [Number.MIN_SAFE_INTEGER] and [Number.MAX_SAFE_INTEGER]. *)
Definition isSafe (n : num) : bool :=
  match n with
  | Fin q => Qle_bool (Qabs q) (inject_Z (2 ^ 53 - 1))
  | _ => false
  end.

End Js.

(* ================================================================== *)
(** ** Rows, tables and what the ORM returns *)
(* ================================================================== *)

(** Timestamps are milliseconds since the epoch. *)
Definition Date := Z.

Record Category : Type := mkCategory {
  c_id : string;
  c_name : string;
  c_description : option string;
  c_createdAt : Date;
  c_updatedAt : Date
}.

Record Product : Type := mkProduct {
  p_id : string;
  p_name : string;
  p_description : option string;
  p_price : Q;
  p_stock : Z;
  p_sku : string;
  p_isActive : bool;
  p_categoryId : string;
  p_createdAt : Date;
  p_updatedAt : Date
}.

(** The two tables, in insertion order. *)
Record Db : Type := mkDb {
  categories : list Category;
  products : list Product
}.

(** [include: { _count: { select: { products: true } } }] *)
Record CategoryWithProductCount : Type := mkCategoryWithProductCount {
  cwc_category : Category;
  cwc_count_products : Z
}.

(** [include: { category: { select: { id: true, name: true } } }] *)
Record CategoryRef : Type := mkCategoryRef {
  ref_id : string;
  ref_name : string
}.

Record ProductWithCategory : Type := mkProductWithCategory {
  pwc_product : Product;
  pwc_category : option CategoryRef
}.

(* ================================================================== *)
(** ** utils/response.ts *)
(* ================================================================== *)

(** The text carried by an error: a plain string, or the message of a
    validation error, kept as the list of its issues. *)
Inductive ErrorText : Type :=
| Text (s : string)
| Issues (l : list string).

Definition textTruthy (t : ErrorText) : bool :=
  match t with
  | Text s => Js.truthy s
  | Issues _ => true
  end.

Record Meta : Type := mkMeta {
  page : Z;
  limit : Z;
  total : Z;
  totalPages : Z
}.

Record ApiResponse (T : Type) : Type := mkApiResponse {
  success : bool;
  message : string;
  data : option T;
  error : option ErrorText;
  meta : option Meta
}.
Arguments mkApiResponse {T}.
Arguments success {T}.
Arguments message {T}.
Arguments data {T}.
Arguments error {T}.
Arguments meta {T}.

(** What [res.status(code).json(body)] or [res.status(code).send()] sends. *)
Record Response (T : Type) : Type := mkResponse {
  statusCode : Z;
  body : option (ApiResponse T)
}.
Arguments mkResponse {T}.
Arguments statusCode {T}.
Arguments body {T}.

Definition sendSuccess {T} (d : T) (msg : string) (status : Z)
    (m : option Meta) : Response T :=
  mkResponse status
    (Some {| success := true; message := msg; data := Some d;
             error := None; meta := m |}).

Definition sendCreated {T} (d : T) (msg : string) : Response T :=
  sendSuccess d msg 201 None.

Definition sendNoContent {T} : Response T :=
  mkResponse 204 None.

Definition sendError {T} (msg : string) (status : Z)
    (err : option ErrorText) : Response T :=
  mkResponse status
    (Some {| success := false; message := msg; data := None;
             error := match err with
                      | Some e => if textTruthy e then Some e else None
                      | None => None
                      end;
             meta := None |}).

Definition sendBadRequest {T} (msg : string) (err : option ErrorText)
  : Response T :=
  sendError msg 400 err.

Definition sendNotFound {T} (msg : string) : Response T :=
  sendError msg 404 None.

Definition sendConflict {T} (msg : string) : Response T :=
  sendError msg 409 None.

Definition sendInternalError {T} (err : option ErrorText) : Response T :=
  sendError "Internal server error" 500 err.

(* ================================================================== *)
(** ** Exceptions and middlewares.ts *)
(* ================================================================== *)

(** A thrown JavaScript error, with the properties the handler inspects. *)
Record JsError : Type := mkJsError {
  isZodError : bool;                     (* err instanceof ZodError *)
  e_name : string;                       (* err.name *)
  e_message : ErrorText;                 (* err.message *)
  e_code : option string;                (* err.code *)
  e_metaTarget : option (list string)    (* err.meta?.target *)
}.

Definition plainError (msg : string) : JsError :=
  mkJsError false "Error" (Text msg) None None.

Definition knownRequestError (code : string) (target : option (list string))
  : JsError :=
  mkJsError false "PrismaClientKnownRequestError" (Text "") (Some code) target.

(** The result of running code that may throw. *)
Inductive Outcome (A : Type) : Type :=
| Returned (a : A)
| Thrown (e : JsError).
Arguments Returned {A}.
Arguments Thrown {A}.

(** The verdict of a schema on one value: the normalized value, or the
    messages of the issues found. *)
Inductive Parsed (A : Type) : Type :=
| Valid (a : A)
| Invalid (issues : list string).
Arguments Valid {A}.
Arguments Invalid {A}.

(** The result of [schema.safeParse(..)]. *)
Inductive SafeParse (A : Type) : Type :=
| ParseSuccess (d : A)
| ParseFailure (issues : list string).
Arguments ParseSuccess {A}.
Arguments ParseFailure {A}.

(** [prismaError.meta?.target?.[0] || 'field'] *)
Definition offendingField (err : JsError) : string :=
  match e_metaTarget err with
  | Some (f :: _) => if Js.truthy f then f else "field"
  | _ => "field"
  end%string.

(** What a request sees of its surroundings.  The validation library and
    the schema file of the ORM are not part of the sources, so what the code
    takes from them is a parameter: which strings [z.string().uuid()]
    accepts, whether [z.number()] refuses the infinities and [.int()] the
    integers that are not safe, whether the schema marks [updatedAt] as
    [@updatedAt], what the column of the price keeps of the decimal it is
    sent.  So is what the database
    decides by itself: whether a text contains a search term
    ([contains] with [mode: 'insensitive'], which it settles by a pattern
    match of its own, folding case by its locale), how its collation orders
    two texts, and in which order it returns two rows whose sort keys are
    equal, which it may choose anew for every query.  The rest is the
    process: the [NODE_ENV] variable, the clock, and the identifier the
    next row is given. *)
Class Env : Type := mkEnv {
  uuid : string -> bool;
  finiteOnly : bool;
  safeIntegers : bool;
  updatedAtAuto : bool;
  priceKept : Q -> Q;
  contains : string -> string -> bool;          (* the term, the text *)
  textLe : string -> string -> bool;
  categoryTies : Category -> Category -> bool;
  productTies : Product -> Product -> bool;
  nodeEnv : option string;
  now : Date;
  newId : string
}.

Section Model.
Context {env : Env}.

Definition errorHandler {T} (err : JsError) : Response T :=
  if isZodError err then
    sendBadRequest "Validation error" (Some (e_message err))
  else if String.eqb (e_name err) "PrismaClientKnownRequestError" then
    match e_code err with
    | Some code =>
        if String.eqb code "P2002" then
          sendBadRequest
            ("A record with this " ++ offendingField err ++ " already exists")
            None
        else if String.eqb code "P2025" then
          sendNotFound "Record not found"
        else if String.eqb code "P2003" then
          sendBadRequest "Referenced record does not exist" None
        else
          sendInternalError (Some (Text "Database error occurred"))
    | None => sendInternalError (Some (Text "Database error occurred"))
    end
  else if String.eqb (e_name err) "PrismaClientValidationError" then
    sendBadRequest "Invalid data provided" None
  else
    sendInternalError
      (match nodeEnv with
       | Some v => if String.eqb v "development"
                   then Some (e_message err) else None
       | None => None
       end).

Definition notFoundHandler {T} : Response T :=
  sendNotFound "Endpoint not found".

(** A controller's [catch (error) { next(error) }]: the error reaches the
    central handler, and nothing was written. *)
Definition next {T} (e : JsError) (db : Db) : Response T * Db :=
  (errorHandler e, db).

(* ================================================================== *)
(** ** The ORM client over the two tables *)
(* ================================================================== *)

(** The column [id] is the primary key of both tables; [Product.sku] and
    [Category.name] are unique columns (the code looks rows up by them with
    [findUnique], which the ORM offers on unique columns only);
    [Product.categoryId] is a foreign key to [Category]; [Product.stock]
    is an integer column, which holds 32 bits.  A write that would break
    one of these throws the ORM's known request error and writes nothing.
    The client of [config/database.ts] runs on a driver adapter: its
    unique-constraint error names the constraint under
    [meta.driverAdapterError] and carries no [meta.target].  A number
    reaches the database as the decimal it is written as.  Failures of the
    connection are not modelled. *)

(** What an integer column holds. *)
Definition fitsInt (n : Z) : bool :=
  (- 2147483648 <=? n) && (n <=? 2147483647).

(** The error for a value a column cannot hold. *)
Definition valueOutOfRange : JsError := knownRequestError "P2020" None.

(** A number as the database receives it. *)
Definition sentNumber (n : Js.num) : Js.num :=
  match n with
  | Js.Fin q => Js.Fin (Js.toDecimal q)
  | _ => n
  end.

(** The price a row holds, for the number the client was given. *)
Definition storedPrice (q : Q) : Q := priceKept (Js.toDecimal q).

Definition category_findUnique_id (id : string) (db : Db) : option Category :=
  find (fun c => String.eqb (c_id c) id) (categories db).

Definition category_findUnique_name (name : string) (db : Db)
  : option Category :=
  find (fun c => String.eqb (c_name c) name) (categories db).

Definition product_findUnique_id (id : string) (db : Db) : option Product :=
  find (fun p => String.eqb (p_id p) id) (products db).

Definition product_findUnique_sku (sku : string) (db : Db) : option Product :=
  find (fun p => String.eqb (p_sku p) sku) (products db).

Definition category_count (where_ : Category -> bool) (db : Db) : Z :=
  Z.of_nat (List.length (filter where_ (categories db))).

Definition product_count (where_ : Product -> bool) (db : Db) : Z :=
  Z.of_nat (List.length (filter where_ (products db))).

Definition inCategory (id : string) (p : Product) : bool :=
  String.eqb (p_categoryId p) id.

Definition withProductCount (db : Db) (c : Category)
  : CategoryWithProductCount :=
  mkCategoryWithProductCount c (product_count (inCategory (c_id c)) db).

Definition withCategory (db : Db) (p : Product) : ProductWithCategory :=
  mkProductWithCategory p
    (option_map (fun c => mkCategoryRef (c_id c) (c_name c))
                (category_findUnique_id (p_categoryId p) db)).

(** [ORDER BY], by insertion: a row goes before the first row that the
    comparison puts it before. *)
Fixpoint insertBy {A} (le : A -> A -> bool) (x : A) (l : list A) : list A :=
  match l with
  | [] => [x]
  | y :: r => if le x y then x :: l else y :: insertBy le x r
  end.

Definition orderBy {A} (le : A -> A -> bool) (l : list A) : list A :=
  fold_right (insertBy le) [] l.

(** The comparison behind an [orderBy]: by the key, and for two rows whose
    keys are equal, as the database chooses. *)
Definition breakingTies {A} (le ties : A -> A -> bool) (a b : A) : bool :=
  if (le a b && le b a)%bool then ties a b else le a b.

(** [findMany({ where, skip, take, orderBy })], for [skip >= 0] and
    [take >= 0] (the only values the validated queries lead to). *)
Definition findMany {A} (where_ : A -> bool) (le : A -> A -> bool)
    (skip take : Z) (rows : list A) : list A :=
  firstn (Z.to_nat take) (skipn (Z.to_nat skip) (orderBy le (filter where_ rows))).

(** The ORM sets a column marked [@updatedAt] to the time of the write
    whenever the write names at least one column. *)
Definition touch (written : bool) (old : Date) : Date :=
  if (updatedAtAuto && written)%bool then now else old.

Definition isSome {A} (o : option A) : bool :=
  match o with Some _ => true | None => false end.

Definition orElse {A} (o : option A) (d : A) : A :=
  match o with Some v => v | None => d end.

(** *** Category writes *)

Record CategoryCreateData : Type := mkCategoryCreateData {
  cc_name : string;
  cc_description : option string
}.

Record CategoryUpdateData : Type := mkCategoryUpdateData {
  cu_name : option string;
  cu_description : option (option string)
}.

Definition category_create (d : CategoryCreateData) (db : Db)
  : Outcome Category * Db :=
  if isSome (category_findUnique_id newId db) then
    (Thrown (knownRequestError "P2002" None), db)
  else if isSome (category_findUnique_name (cc_name d) db) then
    (Thrown (knownRequestError "P2002" None), db)
  else
    let c := mkCategory newId (cc_name d) (cc_description d) now now in
    (Returned c, mkDb (categories db ++ [c]) (products db)).

Definition categoryWritten (w : CategoryUpdateData) : bool :=
  (isSome (cu_name w) || isSome (cu_description w))%bool.

Definition applyCategoryUpdate (w : CategoryUpdateData) (c : Category)
  : Category :=
  mkCategory (c_id c)
             (orElse (cu_name w) (c_name c))
             (orElse (cu_description w) (c_description c))
             (c_createdAt c)
             (touch (categoryWritten w) (c_updatedAt c)).

(** Modelled from the spec: the schema file is not among the sources; by
    the data model a category's name is unique among the categories. *)
Definition nameTakenByOther (id name : string) (db : Db) : bool :=
  existsb (fun c => (String.eqb (c_name c) name
                     && negb (String.eqb (c_id c) id))%bool)
          (categories db).

Definition category_update (id : string) (w : CategoryUpdateData) (db : Db)
  : Outcome Category * Db :=
  match category_findUnique_id id db with
  | None => (Thrown (knownRequestError "P2025" None), db)
  | Some c =>
      if match cu_name w with
         | Some n => nameTakenByOther id n db
         | None => false
         end
      then (Thrown (knownRequestError "P2002" None), db)
      else
        (Returned (applyCategoryUpdate w c),
         mkDb (map (fun r => if String.eqb (c_id r) id
                             then applyCategoryUpdate w r else r)
                   (categories db))
              (products db))
  end.

(** Deleting a category that products still reference is refused by the
    foreign key (the ORM's default for a required relation). *)
Definition category_delete (id : string) (db : Db) : Outcome Category * Db :=
  match category_findUnique_id id db with
  | None => (Thrown (knownRequestError "P2025" None), db)
  | Some c =>
      if existsb (inCategory id) (products db) then
        (Thrown (knownRequestError "P2003" None), db)
      else
        (Returned c,
         mkDb (filter (fun r => negb (String.eqb (c_id r) id)) (categories db))
              (products db))
  end.

(** *** Product writes *)

Record ProductCreateData : Type := mkProductCreateData {
  pc_name : string;
  pc_description : option string;
  pc_price : Q;
  pc_stock : Z;
  pc_sku : string;
  pc_isActive : bool;
  pc_categoryId : string
}.

Inductive StockWrite : Type :=
| StockSet (v : Z)
| StockIncrement (by_ : Z).

Record ProductUpdateData : Type := mkProductUpdateData {
  pu_name : option string;
  pu_description : option (option string);
  pu_price : option Q;
  pu_stock : option StockWrite;
  pu_sku : option string;
  pu_isActive : option bool;
  pu_categoryId : option string
}.

Definition product_create (d : ProductCreateData) (db : Db)
  : Outcome Product * Db :=
  if negb (fitsInt (pc_stock d)) then
    (Thrown valueOutOfRange, db)
  else if isSome (product_findUnique_id newId db) then
    (Thrown (knownRequestError "P2002" None), db)
  else if isSome (product_findUnique_sku (pc_sku d) db) then
    (Thrown (knownRequestError "P2002" None), db)
  else if negb (isSome (category_findUnique_id (pc_categoryId d) db)) then
    (Thrown (knownRequestError "P2003" None), db)
  else
    let p := mkProduct newId (pc_name d) (pc_description d)
                       (storedPrice (pc_price d))
                       (pc_stock d) (pc_sku d) (pc_isActive d)
                       (pc_categoryId d) now now in
    (Returned p, mkDb (categories db) (products db ++ [p])).

Definition productWritten (w : ProductUpdateData) : bool :=
  (isSome (pu_name w) || isSome (pu_description w) || isSome (pu_price w)
   || isSome (pu_stock w) || isSome (pu_sku w) || isSome (pu_isActive w)
   || isSome (pu_categoryId w))%bool.

Definition applyStock (w : option StockWrite) (old : Z) : Z :=
  match w with
  | Some (StockSet v) => v
  | Some (StockIncrement d) => old + d
  | None => old
  end.

(** Whether the column refuses what a write makes of the stock: the value
    set, the increment, or the sum the increment leads to. *)
Definition stockRefused (w : option StockWrite) (old : Z) : bool :=
  match w with
  | Some (StockSet v) => negb (fitsInt v)
  | Some (StockIncrement d) =>
      (negb (fitsInt d) || negb (fitsInt (old + d)))%bool
  | None => false
  end.

Definition applyProductUpdate (w : ProductUpdateData) (p : Product)
  : Product :=
  mkProduct (p_id p)
            (orElse (pu_name w) (p_name p))
            (orElse (pu_description w) (p_description p))
            (orElse (option_map storedPrice (pu_price w)) (p_price p))
            (applyStock (pu_stock w) (p_stock p))
            (orElse (pu_sku w) (p_sku p))
            (orElse (pu_isActive w) (p_isActive p))
            (orElse (pu_categoryId w) (p_categoryId p))
            (p_createdAt p)
            (touch (productWritten w) (p_updatedAt p)).

(** Modelled from the spec: the schema file is not among the sources; by
    the data model a product's sku is unique among the products. *)
Definition skuTakenByOther (id sku : string) (db : Db) : bool :=
  existsb (fun p => (String.eqb (p_sku p) sku
                     && negb (String.eqb (p_id p) id))%bool)
          (products db).

Definition product_update (id : string) (w : ProductUpdateData) (db : Db)
  : Outcome Product * Db :=
  match product_findUnique_id id db with
  | None => (Thrown (knownRequestError "P2025" None), db)
  | Some p =>
      if stockRefused (pu_stock w) (p_stock p) then
        (Thrown valueOutOfRange, db)
      else if match pu_sku w with
         | Some s => skuTakenByOther id s db
         | None => false
         end
      then (Thrown (knownRequestError "P2002" None), db)
      else if match pu_categoryId w with
              | Some c => negb (isSome (category_findUnique_id c db))
              | None => false
              end
      then (Thrown (knownRequestError "P2003" None), db)
      else
        (Returned (applyProductUpdate w p),
         mkDb (categories db)
              (map (fun r => if String.eqb (p_id r) id
                             then applyProductUpdate w r else r)
                   (products db)))
  end.

Definition product_delete (id : string) (db : Db) : Outcome Product * Db :=
  match product_findUnique_id id db with
  | None => (Thrown (knownRequestError "P2025" None), db)
  | Some p =>
      (Returned p,
       mkDb (categories db)
            (filter (fun r => negb (String.eqb (p_id r) id)) (products db)))
  end.

(* ================================================================== *)
(** ** Validation: what the two types.ts files build from the library *)
(* ================================================================== *)

(** A schema checks a value and collects the issues it finds; the checks of
    a chain run in the order written.  The messages the sources give are
    kept; a message the library words itself is stood for by a short text.
    Lengths are those of the code, [Js.length]. *)

Definition issuesOf {A} (r : Parsed A) : list string :=
  match r with Valid _ => [] | Invalid l => l end.

(** [z.string().min(lo, loMsg).max(hi, hiMsg).trim()]: the lengths are
    checked on the text as received, then the text is trimmed.  With
    [lo = 0] the first check never fails, which is the schema without
    [min]. *)
Definition zString (lo : nat) (loMsg : string) (hi : nat) (hiMsg : string)
    (v : Js.value) : Parsed string :=
  match v with
  | Js.Str s =>
      let n := Js.length s in
      match (if Nat.ltb n lo then [loMsg] else [])
            ++ (if Nat.ltb hi n then [hiMsg] else []) with
      | [] => Valid (Js.trim s)
      | issues => Invalid issues
      end
  | Js.Undefined => Invalid ["Required"%string]
  | _ => Invalid ["Expected string"%string]
  end.

(** [.optional().nullable()]: [undefined] and [null] pass through. *)
Definition optionalNullable {A} (inner : Js.value -> Parsed A) (v : Js.value)
  : Parsed (option (option A)) :=
  match v with
  | Js.Undefined => Valid None
  | Js.Null => Valid (Some None)
  | _ =>
      match inner v with
      | Valid a => Valid (Some (Some a))
      | Invalid l => Invalid l
      end
  end.

(** [z.string().uuid(msg)] *)
Definition zUuid (msg : string) (v : Js.value) : Parsed string :=
  match v with
  | Js.Str s => if uuid s then Valid s else Invalid [msg]
  | Js.Undefined => Invalid ["Required"%string]
  | _ => Invalid ["Expected string"%string]
  end.

(** [z.boolean().default(d)] *)
Definition zBooleanDefault (d : bool) (v : Js.value) : Parsed bool :=
  match v with
  | Js.Undefined => Valid d
  | Js.Bool b => Valid b
  | _ => Invalid ["Expected boolean"%string]
  end.

(** Whether [z.number()] takes the value for a number at all. *)
Definition zNumberAccepts (n : Js.num) : bool :=
  match n with
  | Js.NaN => false
  | Js.Inf _ => negb finiteOnly
  | Js.Fin _ => true
  end.

(** The literal [99999999.99] of the schema, as the double it is. *)
(** [.int()] *)
Definition zInt (n : Js.num) : bool :=
  (Js.isInteger n && (negb safeIntegers || Js.isSafe n))%bool.

Definition priceLimit : Q :=
  Eval vm_compute in
    match Js.double (9999999999 # 100) with
    | Js.Fin q => q
    | _ => 0%Q
    end.

(** [z.number().positive(..).max(99999999.99, ..)], the target of the pipe. *)
Definition pricePipe (n : Js.num) : Parsed Q :=
  if negb (zNumberAccepts n) then Invalid ["Expected number"%string]
  else
    match (if Js.gtb n (Js.Fin 0) then []
           else ["Price must be a positive number"%string])
          ++ (if Js.leb n (Js.Fin priceLimit) then []
              else ["Price is too large"%string]) with
    | [] => match n with
            | Js.Fin q => Valid q
            | _ => Invalid ["Price is too large"%string]
            end
    | issues => Invalid issues
    end.

(** The transform of the price: [parseFloat] on a string, and a thrown
    [Error] when the result is [NaN]. *)
Definition priceTransform (v : Js.value) : Outcome Js.num :=
  let num := match v with
             | Js.Str s => Js.parseFloat s
             | Js.Num n => Js.asDouble n
             | _ => Js.NaN
             end in
  if Js.isNaN num then Thrown (plainError "Invalid price format")
  else Returned num.

(** [z.union([z.string(), z.number()]).transform(..).pipe(..)]: the union
    fails on anything but a string or a number; otherwise the transform
    runs, and what it throws leaves the parse. *)
Definition zPrice (v : Js.value) : Outcome (Parsed Q) :=
  match v with
  | Js.Str _ =>
      match priceTransform v with
      | Thrown e => Thrown e
      | Returned n => Returned (pricePipe n)
      end
  | Js.Num n =>
      if zNumberAccepts (Js.asDouble n) then
        match priceTransform v with
        | Thrown e => Thrown e
        | Returned n' => Returned (pricePipe n')
        end
      else Returned (Invalid ["Invalid input"%string])
  | _ => Returned (Invalid ["Invalid input"%string])
  end.

(** [z.number().int(..).min(0, ..).default(0)] *)
Definition zStock (v : Js.value) : Parsed Z :=
  match v with
  | Js.Undefined => Valid 0
  | Js.Num n0 =>
      let n := Js.asDouble n0 in
      if negb (zNumberAccepts n) then Invalid ["Expected number"%string]
      else
        match (if zInt n then []
               else ["Stock must be an integer"%string])
              ++ (if Js.leb (Js.Fin 0) n then []
                  else ["Stock cannot be negative"%string]) with
        | [] => match n with
                | Js.Fin q => Valid (Qfloor q)
                | _ => Invalid ["Stock must be an integer"%string]
                end
        | issues => Invalid issues
        end
  | _ => Invalid ["Expected number"%string]
  end.

(** *** modules/category/types.ts *)

(** The properties of a request body the schema looks at; [None], below,
    stands for a body that is not an object. *)
Record CategoryBody : Type := mkCategoryBody {
  cb_name : Js.value;
  cb_description : Js.value
}.

Record CreateCategoryInput : Type := mkCreateCategoryInput {
  cci_name : string;
  cci_description : option (option string)
}.

Record UpdateCategoryInput : Type := mkUpdateCategoryInput {
  uci_name : option string;
  uci_description : option (option string)
}.

Definition createCategorySchema_safeParse (b : option CategoryBody)
  : SafeParse CreateCategoryInput :=
  match b with
  | None => ParseFailure ["Expected object"%string]
  | Some o =>
      let name := zString 1 "Category name is required"
                          100 "Category name must be at most 100 characters"
                          (cb_name o) in
      let description :=
        optionalNullable
          (zString 0 "" 500 "Description must be at most 500 characters")
          (cb_description o) in
      match name, description with
      | Valid n, Valid d => ParseSuccess (mkCreateCategoryInput n d)
      | _, _ => ParseFailure (issuesOf name ++ issuesOf description)
      end
  end.

Definition categoryIdParamSchema_safeParse (id : string) : SafeParse string :=
  match zUuid "Invalid category ID format" (Js.Str id) with
  | Valid s => ParseSuccess s
  | Invalid l => ParseFailure l
  end.

(** The query string of a request, as key/value pairs in the order
    received; a key that is not bound is [undefined].  Repeated keys and
    nested keys, which the framework turns into arrays and objects, are not
    modelled: the first binding of a key is its value. *)
Definition Query := list (string * string).

Fixpoint param (key : string) (q : Query) : option string :=
  match q with
  | [] => None
  | (k, v) :: r => if String.eqb k key then Some v else param key r
  end.

(** [z.coerce.number().int().positive()] with an optional [.max(hi)], under
    [.default(d)]. *)
Definition zCount (hi : option Z) (d : Z) (v : option string) : Parsed Z :=
  match v with
  | None => Valid d
  | Some s =>
      let n := Js.toNumber s in
      if negb (zNumberAccepts n) then Invalid ["Expected number"%string]
      else
        match (if zInt n then [] else ["Expected integer"%string])
              ++ (if Js.gtb n (Js.Fin 0) then []
                  else ["Number must be greater than 0"%string])
              ++ (match hi with
                  | Some h =>
                      if Js.leb n (Js.Fin (inject_Z h)) then []
                      else ["Number must be less than or equal to"%string]
                  | None => []
                  end) with
        | [] => match n with
                | Js.Fin q => Valid (Qfloor q)
                | _ => Invalid ["Expected integer"%string]
                end
        | issues => Invalid issues
        end
  end.

Record CategoryQuery : Type := mkCategoryQuery {
  cq_page : Z;
  cq_limit : Z;
  cq_search : option string
}.

Definition categoryQuerySchema_safeParse (q : Query) : SafeParse CategoryQuery :=
  let page := zCount None 1 (param "page" q) in
  let limit := zCount (Some 100) 10 (param "limit" q) in
  match page, limit with
  | Valid p, Valid l => ParseSuccess (mkCategoryQuery p l (param "search" q))
  | _, _ => ParseFailure (issuesOf page ++ issuesOf limit)
  end.

(** *** modules/products/types.ts *)

(** The properties of a request body the schema looks at (it drops the
    others); a property that is missing is [Js.Undefined]. *)
Record ProductBody : Type := mkProductBody {
  pb_name : Js.value;
  pb_description : Js.value;
  pb_price : Js.value;
  pb_stock : Js.value;
  pb_sku : Js.value;
  pb_isActive : Js.value;
  pb_categoryId : Js.value
}.

Record CreateProductInput : Type := mkCreateProductInput {
  cpi_name : string;
  cpi_description : option (option string);
  cpi_price : Q;
  cpi_stock : Z;
  cpi_sku : string;
  cpi_isActive : bool;
  cpi_categoryId : string
}.

Record UpdateProductInput : Type := mkUpdateProductInput {
  upi_name : option string;
  upi_description : option (option string);
  upi_price : option Q;
  upi_stock : option Z;
  upi_sku : option string;
  upi_isActive : option bool;
  upi_categoryId : option string
}.

(** Every property of the object is parsed, in the order of the schema; an
    error thrown while parsing one of them leaves [safeParse] itself. *)
Definition createProductSchema_safeParse (b : option ProductBody)
  : Outcome (SafeParse CreateProductInput) :=
  match b with
  | None => Returned (ParseFailure ["Expected object"%string])
  | Some o =>
      let name := zString 1 "Product name is required"
                          200 "Product name must be at most 200 characters"
                          (pb_name o) in
      let description :=
        optionalNullable
          (zString 0 "" 1000 "Description must be at most 1000 characters")
          (pb_description o) in
      match zPrice (pb_price o) with
      | Thrown e => Thrown e
      | Returned price =>
          let stock := zStock (pb_stock o) in
          let sku := zString 1 "SKU is required"
                             50 "SKU must be at most 50 characters"
                             (pb_sku o) in
          let isActive := zBooleanDefault true (pb_isActive o) in
          let categoryId :=
            zUuid "Invalid category ID format" (pb_categoryId o) in
          match name, description, price, stock, sku, isActive, categoryId with
          | Valid n, Valid d, Valid p, Valid st, Valid sk, Valid a, Valid c =>
              Returned (ParseSuccess (mkCreateProductInput n d p st sk a c))
          | _, _, _, _, _, _, _ =>
              Returned (ParseFailure
                (issuesOf name ++ issuesOf description ++ issuesOf price
                 ++ issuesOf stock ++ issuesOf sku ++ issuesOf isActive
                 ++ issuesOf categoryId))
          end
      end
  end.

Definition productIdParamSchema_safeParse (id : string) : SafeParse string :=
  match zUuid "Invalid product ID format" (Js.Str id) with
  | Valid s => ParseSuccess s
  | Invalid l => ParseFailure l
  end.

Inductive SortField : Type := ByName | ByPrice | ByCreatedAt | ByStock.
Inductive SortOrder : Type := Asc | Desc.

Record ProductQuery : Type := mkProductQuery {
  pq_page : Z;
  pq_limit : Z;
  pq_search : option string;
  pq_categoryId : option string;
  pq_isActive : option bool;
  pq_minPrice : option Js.num;
  pq_maxPrice : option Js.num;
  pq_sortBy : SortField;
  pq_sortOrder : SortOrder
}.

(** [z.string().uuid().optional()] on a query parameter *)
Definition zUuidOptional (v : option string) : Parsed (option string) :=
  match v with
  | None => Valid None
  | Some s => if uuid s then Valid (Some s) else Invalid ["Invalid uuid"%string]
  end.

(** [z.coerce.number().positive().optional()] *)
Definition zPositiveOptional (v : option string) : Parsed (option Js.num) :=
  match v with
  | None => Valid None
  | Some s =>
      let n := Js.toNumber s in
      if negb (zNumberAccepts n) then Invalid ["Expected number"%string]
      else if Js.gtb n (Js.Fin 0) then Valid (Some n)
      else Invalid ["Number must be greater than 0"%string]
  end.

(** [z.enum(['name', 'price', 'createdAt', 'stock']).default('createdAt')] *)
Definition zSortBy (v : option string) : Parsed SortField :=
  match v with
  | None => Valid ByCreatedAt
  | Some s =>
      if String.eqb s "name" then Valid ByName
      else if String.eqb s "price" then Valid ByPrice
      else if String.eqb s "createdAt" then Valid ByCreatedAt
      else if String.eqb s "stock" then Valid ByStock
      else Invalid ["Invalid enum value"%string]
  end.

(** [z.enum(['asc', 'desc']).default('desc')] *)
Definition zSortOrder (v : option string) : Parsed SortOrder :=
  match v with
  | None => Valid Desc
  | Some s =>
      if String.eqb s "asc" then Valid Asc
      else if String.eqb s "desc" then Valid Desc
      else Invalid ["Invalid enum value"%string]
  end.

Definition productQuerySchema_safeParse (q : Query) : SafeParse ProductQuery :=
  let page := zCount None 1 (param "page" q) in
  let limit := zCount (Some 100) 10 (param "limit" q) in
  let categoryId := zUuidOptional (param "categoryId" q) in
  let isActive :=
    option_map (fun v => String.eqb v "true") (param "isActive" q) in
  let minPrice := zPositiveOptional (param "minPrice" q) in
  let maxPrice := zPositiveOptional (param "maxPrice" q) in
  let sortBy := zSortBy (param "sortBy" q) in
  let sortOrder := zSortOrder (param "sortOrder" q) in
  match page, limit, categoryId, minPrice, maxPrice, sortBy, sortOrder with
  | Valid p, Valid l, Valid c, Valid lo, Valid hi, Valid sb, Valid so =>
      ParseSuccess
        (mkProductQuery p l (param "search" q) c isActive lo hi sb so)
  | _, _, _, _, _, _, _ =>
      ParseFailure
        (issuesOf page ++ issuesOf limit ++ issuesOf categoryId
         ++ issuesOf minPrice ++ issuesOf maxPrice ++ issuesOf sortBy
         ++ issuesOf sortOrder)
  end.

End Model.

(* ================================================================== *)
(** ** The update schemas: [.partial()] *)
(* ================================================================== *)

(** Under [.partial()] every property is optional.  What a property that
    declares a default does when it is absent is the library's matter, and
    its major versions differ (the older leaves it [undefined], the newer
    fills the default in); the library is not part of the sources, so this
    is a parameter. *)
Class Library : Type := mkLibrary {
  defaultsUnderPartial : bool
}.

Section Partial.
Context {env : Env} {lib : Library}.

(** [.optional()] *)
Definition optional {A} (inner : Js.value -> Parsed A) (v : Js.value)
  : Parsed (option A) :=
  match v with
  | Js.Undefined => Valid None
  | _ =>
      match inner v with
      | Valid a => Valid (Some a)
      | Invalid l => Invalid l
      end
  end.

(** [.default(d)] made optional by [.partial()] *)
Definition optionalDefault {A} (d : A) (inner : Js.value -> Parsed A)
    (v : Js.value) : Parsed (option A) :=
  match v with
  | Js.Undefined => Valid (if defaultsUnderPartial then Some d else None)
  | _ =>
      match inner v with
      | Valid a => Valid (Some a)
      | Invalid l => Invalid l
      end
  end.

(** [updateCategorySchema = categoryBaseSchema.partial()] *)
Definition updateCategorySchema_safeParse (b : option CategoryBody)
  : SafeParse UpdateCategoryInput :=
  match b with
  | None => ParseFailure ["Expected object"%string]
  | Some o =>
      let name :=
        optional (zString 1 "Category name is required"
                          100 "Category name must be at most 100 characters")
                 (cb_name o) in
      let description :=
        optionalNullable
          (zString 0 "" 500 "Description must be at most 500 characters")
          (cb_description o) in
      match name, description with
      | Valid n, Valid d => ParseSuccess (mkUpdateCategoryInput n d)
      | _, _ => ParseFailure (issuesOf name ++ issuesOf description)
      end
  end.

(** The price under [.partial()]: absent, it stays absent and the transform
    does not run. *)
Definition zPriceOptional (v : Js.value) : Outcome (Parsed (option Q)) :=
  match v with
  | Js.Undefined => Returned (Valid None)
  | _ =>
      match zPrice v with
      | Thrown e => Thrown e
      | Returned (Valid q) => Returned (Valid (Some q))
      | Returned (Invalid l) => Returned (Invalid l)
      end
  end.

(** [updateProductSchema = productBaseSchema.partial()] *)
Definition updateProductSchema_safeParse (b : option ProductBody)
  : Outcome (SafeParse UpdateProductInput) :=
  match b with
  | None => Returned (ParseFailure ["Expected object"%string])
  | Some o =>
      let name :=
        optional (zString 1 "Product name is required"
                          200 "Product name must be at most 200 characters")
                 (pb_name o) in
      let description :=
        optionalNullable
          (zString 0 "" 1000 "Description must be at most 1000 characters")
          (pb_description o) in
      match zPriceOptional (pb_price o) with
      | Thrown e => Thrown e
      | Returned price =>
          let stock := optionalDefault 0 zStock (pb_stock o) in
          let sku :=
            optional (zString 1 "SKU is required"
                              50 "SKU must be at most 50 characters")
                     (pb_sku o) in
          let isActive :=
            optionalDefault true (zBooleanDefault true) (pb_isActive o) in
          let categoryId :=
            optional (zUuid "Invalid category ID format") (pb_categoryId o) in
          match name, description, price, stock, sku, isActive, categoryId with
          | Valid n, Valid d, Valid p, Valid st, Valid sk, Valid a, Valid c =>
              Returned (ParseSuccess (mkUpdateProductInput n d p st sk a c))
          | _, _, _, _, _, _, _ =>
              Returned (ParseFailure
                (issuesOf name ++ issuesOf description ++ issuesOf price
                 ++ issuesOf stock ++ issuesOf sku ++ issuesOf isActive
                 ++ issuesOf categoryId))
          end
      end
  end.

End Partial.

(* ================================================================== *)
(** ** Building the queries *)
(* ================================================================== *)

Section Queries.
Context {env : Env}.

(** [Math.ceil(total / limit)] *)
Definition ceilDiv (total limit : Z) : Z :=
  Qceiling (inject_Z total / inject_Z limit).

(** The empty filter, [{}]. *)
Definition everyRow {A} (_ : A) : bool := true.

(** The [where] of the category list: with a search term, the rows whose
    name or description contains it, as the database finds. *)
Definition categoryWhere (search : option string) : Category -> bool :=
  match search with
  | Some s =>
      if Js.truthy s then
        fun c =>
          (contains s (c_name c)
           || match c_description c with
              | Some d => contains s d
              | None => false
              end)%bool
      else everyRow
  | None => everyRow
  end.

(** [orderBy: { createdAt: 'desc' }] *)
Definition createdAtDesc : Category -> Category -> bool :=
  breakingTies (fun a b => c_createdAt b <=? c_createdAt a) categoryTies.

(** The [where] of the product list: the conjunction of the filters the
    query supplies. *)
Definition productWhere (query : ProductQuery) (p : Product) : bool :=
  (match pq_search query with
   | Some s =>
       if Js.truthy s then
         contains s (p_name p)
         || match p_description p with
            | Some d => contains s d
            | None => false
            end
         || contains s (p_sku p)
       else true
   | None => true
   end
   && match pq_categoryId query with
      | Some c => if Js.truthy c then String.eqb (p_categoryId p) c else true
      | None => true
      end
   && match pq_isActive query with
      | Some a => Bool.eqb (p_isActive p) a
      | None => true
      end
   && match pq_minPrice query with
      | Some lo => Js.leb (sentNumber lo) (Js.Fin (p_price p))
      | None => true
      end
   && match pq_maxPrice query with
      | Some hi => Js.leb (Js.Fin (p_price p)) (sentNumber hi)
      | None => true
      end)%bool.

(** The order of two products by a column; names compare as the collation
    of the database has it. *)
Definition productLe (f : SortField) (a b : Product) : bool :=
  match f with
  | ByName => textLe (p_name a) (p_name b)
  | ByPrice => Qle_bool (p_price a) (p_price b)
  | ByCreatedAt => p_createdAt a <=? p_createdAt b
  | ByStock => p_stock a <=? p_stock b
  end.

Definition productKeyLe (f : SortField) (o : SortOrder) (a b : Product)
  : bool :=
  match o with
  | Asc => productLe f a b
  | Desc => productLe f b a
  end.

(** [{ [sortBy]: sortOrder }] *)
Definition productOrder (f : SortField) (o : SortOrder)
  : Product -> Product -> bool :=
  breakingTies (productKeyLe f o) productTies.

(** The row comes back with its category, read after the write. *)
Definition including (r : Outcome Product * Db)
  : Outcome ProductWithCategory * Db :=
  match r with
  | (Returned p, db') => (Returned (withCategory db' p), db')
  | (Thrown e, db') => (Thrown e, db')
  end.

End Queries.

(* ================================================================== *)
(** ** The services *)
(* ================================================================== *)

(** *** modules/category/services.ts *)

Module categoryService.
Section WithEnv.
Context {env : Env}.

Definition findAll (query : CategoryQuery) (db : Db)
  : list CategoryWithProductCount * Meta :=
  let page := cq_page query in
  let limit := cq_limit query in
  let skip := (page - 1) * limit in
  let where_ := categoryWhere (cq_search query) in
  let categories :=
    map (withProductCount db)
        (findMany where_ createdAtDesc skip limit (categories db)) in
  let total := category_count where_ db in
  (categories, mkMeta page limit total (ceilDiv total limit)).

Definition findById (id : string) (db : Db)
  : option CategoryWithProductCount :=
  option_map (withProductCount db) (category_findUnique_id id db).

Definition findByName (name : string) (db : Db)
  : option Category :=
  category_findUnique_name name db.

Definition create (d : CreateCategoryInput) (db : Db)
  : Outcome Category * Db :=
  category_create
    (mkCategoryCreateData (cci_name d) (orElse (cci_description d) None)) db.

Definition update (id : string) (d : UpdateCategoryInput)
    (db : Db) : Outcome Category * Db :=
  category_update id (mkCategoryUpdateData (uci_name d) (uci_description d)) db.

Definition delete (id : string) (db : Db)
  : Outcome Category * Db :=
  category_delete id db.

Definition hasProducts (id : string) (db : Db) : bool :=
  let count := product_count (inCategory id) db in
  0 <? count.

End WithEnv.
End categoryService.

(** *** modules/products/services.ts *)

Module productService.
Section WithEnv.
Context {env : Env}.

(** The sources hold this service twice; the second copy adds logging and
    destructuring defaults, which a validated query never triggers. *)

Definition findAll (query : ProductQuery) (db : Db)
  : list ProductWithCategory * Meta :=
  let page := pq_page query in
  let limit := pq_limit query in
  let skip := (page - 1) * limit in
  let where_ := productWhere query in
  let orderBy_ := productOrder (pq_sortBy query) (pq_sortOrder query) in
  let products :=
    map (withCategory db) (findMany where_ orderBy_ skip limit (products db)) in
  let total := product_count where_ db in
  (products, mkMeta page limit total (ceilDiv total limit)).

Definition findById (id : string) (db : Db)
  : option ProductWithCategory :=
  option_map (withCategory db) (product_findUnique_id id db).

Definition findBySku (sku : string) (db : Db) : option Product :=
  product_findUnique_sku sku db.

Definition create (d : CreateProductInput) (db : Db)
  : Outcome ProductWithCategory * Db :=
  including
    (product_create
       (mkProductCreateData (cpi_name d) (orElse (cpi_description d) None)
          (cpi_price d) (cpi_stock d) (cpi_sku d) (cpi_isActive d)
          (cpi_categoryId d))
       db).

(** Only the properties that are not [undefined] enter the written data. *)
Definition update (id : string) (d : UpdateProductInput)
    (db : Db) : Outcome ProductWithCategory * Db :=
  including
    (product_update id
       (mkProductUpdateData (upi_name d) (upi_description d) (upi_price d)
          (option_map StockSet (upi_stock d)) (upi_sku d) (upi_isActive d)
          (upi_categoryId d))
       db).

Definition delete (id : string) (db : Db)
  : Outcome Product * Db :=
  product_delete id db.

Definition updateStock (id : string) (quantity : Z) (db : Db)
  : Outcome Product * Db :=
  product_update id
    (mkProductUpdateData None None None (Some (StockIncrement quantity))
       None None None)
    db.

(** [null] is the service's answer when the product does not exist. *)
Definition toggleActive (id : string) (db : Db)
  : Outcome (option Product) * Db :=
  match product_findUnique_id id db with
  | None => (Returned None, db)
  | Some product =>
      match product_update id
              (mkProductUpdateData None None None None None
                 (Some (negb (p_isActive product))) None)
              db with
      | (Returned p, db') => (Returned (Some p), db')
      | (Thrown e, db') => (Thrown e, db')
      end
  end.

End WithEnv.
End productService.

(* ================================================================== *)
(** ** The controllers *)
(* ================================================================== *)

(** *** modules/category/controllers.ts *)

Module categoryController.
Section WithEnv.
Context {env : Env}.

Definition getAll (query : Query) (db : Db)
  : Response (list CategoryWithProductCount) * Db :=
  match categoryQuerySchema_safeParse query with
  | ParseFailure issues =>
      (sendBadRequest "Invalid query parameters" (Some (Issues issues)), db)
  | ParseSuccess q =>
      let '(categories, meta) := categoryService.findAll q db in
      (sendSuccess categories "Categories retrieved successfully" 200
                   (Some meta), db)
  end.

Definition getById (id : string) (db : Db)
  : Response CategoryWithProductCount * Db :=
  match categoryIdParamSchema_safeParse id with
  | ParseFailure issues =>
      (sendBadRequest "Invalid category ID" (Some (Issues issues)), db)
  | ParseSuccess id =>
      match categoryService.findById id db with
      | None => (sendNotFound "Category not found", db)
      | Some category =>
          (sendSuccess category "Category retrieved successfully" 200 None, db)
      end
  end.

Definition create (reqBody : option CategoryBody) (db : Db)
  : Response Category * Db :=
  match createCategorySchema_safeParse reqBody with
  | ParseFailure issues =>
      (sendBadRequest "Validation failed" (Some (Issues issues)), db)
  | ParseSuccess d =>
      match categoryService.findByName (cci_name d) db with
      | Some _ => (sendConflict "Category with this name already exists", db)
      | None =>
          match categoryService.create d db with
          | (Returned category, db') =>
              (sendCreated category "Category created successfully", db')
          | (Thrown e, db') => next e db'
          end
      end
  end.

Definition delete (id : string) (db : Db)
  : Response unit * Db :=
  match categoryIdParamSchema_safeParse id with
  | ParseFailure issues =>
      (sendBadRequest "Invalid category ID" (Some (Issues issues)), db)
  | ParseSuccess id =>
      match categoryService.findById id db with
      | None => (sendNotFound "Category not found", db)
      | Some _ =>
          if categoryService.hasProducts id db then
            (sendConflict "Cannot delete category with associated products",
             db)
          else
            match categoryService.delete id db with
            | (Returned _, db') => (sendNoContent, db')
            | (Thrown e, db') => next e db'
            end
      end
  end.

(** The duplicate the controller looks for, under
    [if (data.name && data.name !== existing.name)]. *)
Definition duplicateName (d : UpdateCategoryInput) (existing : Category)
    (db : Db) : option Category :=
  match uci_name d with
  | Some n =>
      if (Js.truthy n && negb (String.eqb n (c_name existing)))%bool
      then categoryService.findByName n db
      else None
  | None => None
  end.

Definition update (id : string) (reqBody : option CategoryBody) (db : Db)
  : Response Category * Db :=
  match categoryIdParamSchema_safeParse id with
  | ParseFailure issues =>
      (sendBadRequest "Invalid category ID" (Some (Issues issues)), db)
  | ParseSuccess id =>
      match updateCategorySchema_safeParse reqBody with
      | ParseFailure issues =>
          (sendBadRequest "Validation failed" (Some (Issues issues)), db)
      | ParseSuccess d =>
          match categoryService.findById id db with
          | None => (sendNotFound "Category not found", db)
          | Some existing =>
              match duplicateName d (cwc_category existing) db with
              | Some _ =>
                  (sendConflict "Category with this name already exists", db)
              | None =>
                  match categoryService.update id d db with
                  | (Returned category, db') =>
                      (sendSuccess category "Category updated successfully"
                                   200 None, db')
                  | (Thrown e, db') => next e db'
                  end
              end
          end
      end
  end.

End WithEnv.
End categoryController.

(** *** modules/products/controllers.ts *)

Module productController.
Section WithEnv.
Context {env : Env}.

Definition getAll (query : Query) (db : Db)
  : Response (list ProductWithCategory) * Db :=
  match productQuerySchema_safeParse query with
  | ParseFailure issues =>
      (sendBadRequest "Invalid query parameters" (Some (Issues issues)), db)
  | ParseSuccess q =>
      let '(products, meta) := productService.findAll q db in
      (sendSuccess products "Products retrieved successfully" 200 (Some meta),
       db)
  end.

Definition getById (id : string) (db : Db)
  : Response ProductWithCategory * Db :=
  match productIdParamSchema_safeParse id with
  | ParseFailure issues =>
      (sendBadRequest "Invalid product ID" (Some (Issues issues)), db)
  | ParseSuccess id =>
      match productService.findById id db with
      | None => (sendNotFound "Product not found", db)
      | Some product =>
          (sendSuccess product "Product retrieved successfully" 200 None, db)
      end
  end.

Definition create (reqBody : option ProductBody) (db : Db)
  : Response ProductWithCategory * Db :=
  match createProductSchema_safeParse reqBody with
  | Thrown e => next e db
  | Returned (ParseFailure issues) =>
      (sendBadRequest "Validation failed" (Some (Issues issues)), db)
  | Returned (ParseSuccess d) =>
      match categoryService.findById (cpi_categoryId d) db with
      | None => (sendBadRequest "Category not found" None, db)
      | Some _ =>
          match productService.findBySku (cpi_sku d) db with
          | Some _ => (sendConflict "Product with this SKU already exists", db)
          | None =>
              match productService.create d db with
              | (Returned product, db') =>
                  (sendCreated product "Product created successfully", db')
              | (Thrown e, db') => next e db'
              end
          end
      end
  end.

Definition delete (id : string) (db : Db)
  : Response unit * Db :=
  match productIdParamSchema_safeParse id with
  | ParseFailure issues =>
      (sendBadRequest "Invalid product ID" (Some (Issues issues)), db)
  | ParseSuccess id =>
      match productService.findById id db with
      | None => (sendNotFound "Product not found", db)
      | Some _ =>
          match productService.delete id db with
          | (Returned _, db') => (sendNoContent, db')
          | (Thrown e, db') => next e db'
          end
      end
  end.

Definition toggleActive (id : string) (db : Db)
  : Response Product * Db :=
  match productIdParamSchema_safeParse id with
  | ParseFailure issues =>
      (sendBadRequest "Invalid product ID" (Some (Issues issues)), db)
  | ParseSuccess id =>
      match productService.toggleActive id db with
      | (Thrown e, db') => next e db'
      | (Returned None, db') => (sendNotFound "Product not found", db')
      | (Returned (Some product), db') =>
          (sendSuccess product
             (if p_isActive product
              then "Product activated successfully"
              else "Product deactivated successfully")
             200 None,
           db')
      end
  end.

(** Whether the controller finds the category missing, under
    [if (data.categoryId)]. *)
Definition missingCategory (d : UpdateProductInput) (db : Db) : bool :=
  match upi_categoryId d with
  | Some c =>
      if Js.truthy c then negb (isSome (categoryService.findById c db))
      else false
  | None => false
  end.

(** The duplicate the controller looks for, under
    [if (data.sku && data.sku !== existing.sku)]. *)
Definition duplicateSku (d : UpdateProductInput) (existing : Product)
    (db : Db) : option Product :=
  match upi_sku d with
  | Some s =>
      if (Js.truthy s && negb (String.eqb s (p_sku existing)))%bool
      then productService.findBySku s db
      else None
  | None => None
  end.

Definition update {lib : Library} (id : string)
    (reqBody : option ProductBody) (db : Db)
  : Response ProductWithCategory * Db :=
  match productIdParamSchema_safeParse id with
  | ParseFailure issues =>
      (sendBadRequest "Invalid product ID" (Some (Issues issues)), db)
  | ParseSuccess id =>
      match updateProductSchema_safeParse reqBody with
      | Thrown e => next e db
      | Returned (ParseFailure issues) =>
          (sendBadRequest "Validation failed" (Some (Issues issues)), db)
      | Returned (ParseSuccess d) =>
          match productService.findById id db with
          | None => (sendNotFound "Product not found", db)
          | Some existing =>
              if missingCategory d db then
                (sendBadRequest "Category not found" None, db)
              else
                match duplicateSku d (pwc_product existing) db with
                | Some _ =>
                    (sendConflict "Product with this SKU already exists", db)
                | None =>
                    match productService.update id d db with
                    | (Returned product, db') =>
                        (sendSuccess product "Product updated successfully"
                                     200 None, db')
                    | (Thrown e, db') => next e db'
                    end
                end
          end
      end
  end.

End WithEnv.
End productController.


(* ================================================================== *)
(** ** The routes *)
(* ================================================================== *)

(** The verb and path of a request the two routers know, with what the
    controller reads of it. *)
Inductive Request : Type :=
| GET_categories (query : Query)
| GET_category (id : string)
| POST_category (reqBody : option CategoryBody)
| PUT_category (id : string) (reqBody : option CategoryBody)
| DELETE_category (id : string)
| GET_products (query : Query)
| GET_product (id : string)
| POST_product (reqBody : option ProductBody)
| PUT_product (id : string) (reqBody : option ProductBody)
| DELETE_product (id : string)
| PATCH_product_toggleActive (id : string).

(** What can be said of a response whatever its payload: the status, the
    [success] flag of the envelope if there is one, and which of [data],
    [error] and [meta] the envelope carries. *)
Record Sent : Type := mkSent {
  sent_status : Z;
  sent_success : option bool;
  sent_data : bool;
  sent_error : bool;
  sent_meta : bool
}.

Definition sent {T} (r : Response T) : Sent :=
  match body r with
  | Some b =>
      mkSent (statusCode r) (Some (success b)) (isSome (data b))
             (isSome (error b)) (isSome (meta b))
  | None => mkSent (statusCode r) None false false false
  end.

Definition answered {T} (r : Response T * Db) : Sent * Db :=
  (sent (fst r), snd r).

(** [router.get('/', ...)], [router.get('/:id', ...)], ... of the two
    routes.ts files. *)
Definition route {env : Env} {lib : Library} (req : Request) (db : Db)
  : Sent * Db :=
  match req with
  | GET_categories q => answered (categoryController.getAll q db)
  | GET_category id => answered (categoryController.getById id db)
  | POST_category b => answered (categoryController.create b db)
  | PUT_category id b => answered (categoryController.update id b db)
  | DELETE_category id => answered (categoryController.delete id db)
  | GET_products q => answered (productController.getAll q db)
  | GET_product id => answered (productController.getById id db)
  | POST_product b => answered (productController.create b db)
  | PUT_product id b => answered (productController.update id b db)
  | DELETE_product id => answered (productController.delete id db)
  | PATCH_product_toggleActive id =>
      answered (productController.toggleActive id db)
  end.

(** Requests served one after the other, each with its own clock reading
    and fresh identifier. *)
Fixpoint serve {lib : Library} (requests : list (Env * Request)) (db : Db)
  : Db :=
  match requests with
  | [] => db
  | (env, req) :: rest => serve rest (snd (@route env lib req db))
  end.

(* ================================================================== *)
(** ** Sample data *)
(* ================================================================== *)

(** An identifier check of the usual shape, 8-4-4-4-12 hexadecimal digits,
    for the sample environment. *)
Fixpoint uuidShape (i : nat) (l : list ascii) : bool :=
  match l with
  | [] => Nat.eqb i 36
  | c :: r =>
      ((if (Nat.eqb i 8 || Nat.eqb i 13 || Nat.eqb i 18 || Nat.eqb i 23)%bool
        then Ascii.eqb c "-"
        else isSome (Js.digitIn 16 c))
       && uuidShape (S i) r)%bool
  end.

Definition hexUuid (s : string) : bool :=
  uuidShape 0 (list_ascii_of_string s).

(** A pattern match of the kind a database runs for [contains]: [%] in
    the pattern stands for any text, [_] for any one character, a
    backslash takes the character after it as it is, and the letters of
    the ASCII range match whatever their case.  A character is a byte
    here. *)
Definition lowerCase (c : ascii) : ascii :=
  let n := nat_of_ascii c in
  if (Nat.leb 65 n && Nat.leb n 90)%bool then ascii_of_nat (n + 32) else c.

Definition sameLetter (a b : ascii) : bool :=
  Ascii.eqb (lowerCase a) (lowerCase b).

Fixpoint like (p : list ascii) : list ascii -> bool :=
  match p with
  | [] => fun t => match t with [] => true | _ :: _ => false end
  | c :: p' =>
      if Ascii.eqb c "%" then
        fix any (t : list ascii) : bool :=
          (like p' t
           || match t with [] => false | _ :: t' => any t' end)%bool
      else if Ascii.eqb c "_" then
        fun t => match t with [] => false | _ :: t' => like p' t' end
      else if Nat.eqb (nat_of_ascii c) 92 then
        match p' with
        | e :: p'' =>
            fun t => match t with
                     | x :: t' => (sameLetter e x && like p'' t')%bool
                     | [] => false
                     end
        | [] => fun _ => false
        end
      else
        fun t => match t with
                 | x :: t' => (sameLetter c x && like p' t')%bool
                 | [] => false
                 end
  end.

Definition likeContains (term text : string) : bool :=
  like (list_ascii_of_string ("%" ++ term ++ "%"))
       (list_ascii_of_string text).

(** A column of two decimal places, for prices, which are positive. *)
Definition twoPlaces (q : Q) : Q :=
  Qred (inject_Z (Qfloor (q * 100 + (1 # 2))) / 100).

(** The sample environment: among rows with equal keys, the order of the
    table. *)
Definition sampleEnv : Env :=
  {| uuid := hexUuid;
     finiteOnly := true;
     safeIntegers := true;
     updatedAtAuto := true;
     priceKept := twoPlaces;
     contains := likeContains;
     textLe := String.leb;
     categoryTies := fun _ _ => true;
     productTies := fun _ _ => true;
     nodeEnv := Some "production"%string;
     now := 1700000500000;
     newId := "99999999-0000-4000-8000-000000000009" |}.

Definition booksId : string := "11111111-0000-4000-8000-000000000001".
Definition gamesId : string := "22222222-0000-4000-8000-000000000002".
Definition ghostId : string := "33333333-0000-4000-8000-000000000003".
Definition novelId : string := "aaaaaaaa-0000-4000-8000-00000000000a".
Definition atlasId : string := "bbbbbbbb-0000-4000-8000-00000000000b".

Definition books : Category :=
  mkCategory booksId "Books" (Some "Books and publications"%string)
             1700000000000 1700000000000.

Definition games : Category :=
  mkCategory gamesId "Games" None 1700000100000 1700000100000.

Definition novel : Product :=
  mkProduct novelId "Novel" None (1999 # 100) 5 "X-1" true booksId
            1700000200000 1700000200000.

Definition atlas : Product :=
  mkProduct atlasId "Atlas" (Some "Maps"%string) (45 # 1) 0 "X-2" false booksId
            1700000300000 1700000300000.

Definition sampleDb : Db := mkDb [books; games] [novel; atlas].

Definition productBody (price : Js.value) (sku categoryId : string)
  : ProductBody :=
  mkProductBody (Js.Str "Pen") Js.Undefined price Js.Undefined (Js.Str sku)
                Js.Undefined (Js.Str categoryId).

Definition sampleLibrary : Library := mkLibrary true.

Definition categoryBody (name : string) : CategoryBody :=
  mkCategoryBody (Js.Str name) Js.Undefined.

(** A later request: another clock reading, another fresh identifier, and
    among rows with equal keys the reverse of the order of the table. *)
Definition laterEnv : Env :=
  {| uuid := hexUuid;
     finiteOnly := true;
     safeIntegers := true;
     updatedAtAuto := true;
     priceKept := twoPlaces;
     contains := likeContains;
     textLe := String.leb;
     categoryTies := fun _ _ => false;
     productTies := fun _ _ => false;
     nodeEnv := Some "development"%string;
     now := 1700000900000;
     newId := "77777777-0000-4000-8000-000000000007" |}.

(** A catalog in which one product alone references [books]. *)
Definition smallDb : Db := mkDb [books; games] [novel].

(** A catalog in which a category holds the empty name and a product the
    empty sku. *)
Definition nameless : Category :=
  mkCategory gamesId "" None 1700000100000 1700000100000.

Definition unlabelled : Product :=
  mkProduct atlasId "Atlas" None (45 # 1) 0 "" false booksId
            1700000300000 1700000300000.

Definition blankDb : Db := mkDb [books; nameless] [novel; unlabelled].

(** The bodies [{}]. *)
Definition noProductFields : ProductBody :=
  mkProductBody Js.Undefined Js.Undefined Js.Undefined Js.Undefined
                Js.Undefined Js.Undefined Js.Undefined.

Definition noCategoryFields : CategoryBody :=
  mkCategoryBody Js.Undefined Js.Undefined.

(** A valid body whose stock is one more than an integer column holds. *)
Definition bulkBody : ProductBody :=
  mkProductBody (Js.Str "Pen") Js.Undefined (Js.Str "19.5")
                (Js.Num (Js.Fin 2147483648)) (Js.Str "X-9") Js.Undefined
                (Js.Str booksId).

(** A product created at the same instant as [novel]. *)
Definition reprintId : string := "cccccccc-0000-4000-8000-00000000000c".

Definition reprint : Product :=
  mkProduct reprintId "Reprint" None (1999 # 100) 1 "X-3" true booksId
            1700000200000 1700000200000.

Definition tiedDb : Db := mkDb [books; games] [novel; reprint].

Definition skuOnly (sku : string) : ProductBody :=
  mkProductBody Js.Undefined Js.Undefined Js.Undefined Js.Undefined
                (Js.Str sku) Js.Undefined Js.Undefined.

(* ================================================================== *)
(** ** Vocabulary of the statements *)
(* ================================================================== *)

(** The payload and the metadata of a response, when it has them. *)
Definition dataOf {T} (r : Response T) : option T :=
  match body r with Some b => data b | None => None end.

Definition metaOf {T} (r : Response T) : option Meta :=
  match body r with Some b => meta b | None => None end.

(** Newest first. *)
Definition newerFirst (a b : CategoryWithProductCount) : Prop :=
  c_createdAt (cwc_category b) <= c_createdAt (cwc_category a).

(** [t] is the ceiling of [n / l]. *)
Definition isCeiling (n l t : Z) : Prop :=
  (t - 1) * l < n <= t * l.

(** The rows of one page: those at positions [offset], [offset + 1], ...,
    at most [size] of them. *)
Definition pageOf {A} (offset size : Z) (rows : list A) : list A :=
  firstn (Z.to_nat size) (skipn (Z.to_nat offset) rows).

(** A field of a partial input against the row before and after: absent,
    the row keeps its value; present, the row takes the input's value (for
    the price, what the column keeps of it). *)
Definition written {A} (input : option A) (before after : A) : Prop :=
  match input with
  | None => after = before
  | Some v => after = v
  end.

Definition productPatched {env : Env} (d : UpdateProductInput)
    (p p' : Product) : Prop :=
  p_id p' = p_id p /\
  written (upi_name d) (p_name p) (p_name p') /\
  written (upi_description d) (p_description p) (p_description p') /\
  written (option_map storedPrice (upi_price d)) (p_price p) (p_price p') /\
  written (upi_stock d) (p_stock p) (p_stock p') /\
  written (upi_sku d) (p_sku p) (p_sku p') /\
  written (upi_isActive d) (p_isActive p) (p_isActive p') /\
  written (upi_categoryId d) (p_categoryId p) (p_categoryId p') /\
  p_createdAt p' = p_createdAt p.

Definition categoryPatched (d : UpdateCategoryInput) (c c' : Category)
  : Prop :=
  c_id c' = c_id c /\
  written (uci_name d) (c_name c) (c_name c') /\
  written (uci_description d) (c_description c) (c_description c') /\
  c_createdAt c' = c_createdAt c.

(** Whether the tables admit a validated update of the row [id]: a stock
    the column can hold, a sku no other product holds, a category that
    exists; for a category, a name no other category holds. *)
Definition productAdmits (id : string) (d : UpdateProductInput) (db : Db)
  : bool :=
  (match upi_stock d with Some v => fitsInt v | None => true end
   && match upi_sku d with
      | Some s => negb (skuTakenByOther id s db)
      | None => true
      end
   && match upi_categoryId d with
      | Some c => isSome (category_findUnique_id c db)
      | None => true
      end)%bool.

Definition categoryAdmits (id : string) (d : UpdateCategoryInput) (db : Db)
  : bool :=
  match uci_name d with
  | Some n => negb (nameTakenByOther id n db)
  | None => true
  end.

(** Whether a validated input supplies a field at all. *)
Definition productSupplies (d : UpdateProductInput) : bool :=
  (isSome (upi_name d) || isSome (upi_description d) || isSome (upi_price d)
   || isSome (upi_stock d) || isSome (upi_sku d) || isSome (upi_isActive d)
   || isSome (upi_categoryId d))%bool.

Definition categorySupplies (d : UpdateCategoryInput) : bool :=
  (isSome (uci_name d) || isSome (uci_description d))%bool.

Definition emptyProductInput : UpdateProductInput :=
  mkUpdateProductInput None None None None None None None.

Definition emptyCategoryInput : UpdateCategoryInput :=
  mkUpdateCategoryInput None None.

(** [description ?? null] *)
Definition orNull (d : option (option string)) : option string :=
  match d with
  | Some (Some t) => Some t
  | _ => None
  end.

(** The tables are well formed: identifiers, category names and skus are
    unique, and the category of every product exists. *)
Definition wellFormed (db : Db) : Prop :=
  NoDup (map c_id (categories db)) /\
  NoDup (map c_name (categories db)) /\
  NoDup (map p_id (products db)) /\
  NoDup (map p_sku (products db)) /\
  (forall p, In p (products db) ->
             In (p_categoryId p) (map c_id (categories db))).

(** The uniform envelope: a success is 200 or 201 with data and no error;
    a failure is 400, 404, 409 or 500 with neither data nor metadata; a
    response without a body is 204. *)
Definition envelope (s : Sent) : Prop :=
  match sent_success s with
  | Some true =>
      (sent_status s = 200 \/ sent_status s = 201) /\
      sent_data s = true /\ sent_error s = false
  | Some false =>
      (sent_status s = 400 \/ sent_status s = 404 \/
       sent_status s = 409 \/ sent_status s = 500) /\
      sent_data s = false /\ sent_meta s = false
  | None => sent_status s = 204
  end.

(** What a route answers when it succeeds: the lists with 200, data and
    metadata; a row read, updated or toggled with 200 and data; a row
    created with 201 and data; a delete with 204 and no body. *)
Definition successOf (req : Request) : Sent :=
  match req with
  | GET_categories _ | GET_products _ =>
      mkSent 200 (Some true) true false true
  | GET_category _ | GET_product _ | PUT_category _ _ | PUT_product _ _
  | PATCH_product_toggleActive _ =>
      mkSent 200 (Some true) true false false
  | POST_category _ | POST_product _ =>
      mkSent 201 (Some true) true false false
  | DELETE_category _ | DELETE_product _ =>
      mkSent 204 None false false false
  end.

(** What a failure looks like, whatever the route. *)
Definition failure (s : Sent) : Prop :=
  sent_success s = Some false /\
  (sent_status s = 400 \/ sent_status s = 404 \/
   sent_status s = 409 \/ sent_status s = 500) /\
  sent_data s = false /\ sent_meta s = false.

(** An answer in order: it follows the envelope, and if it reports a
    failure the tables are the ones the request found. *)
Definition orderly (db : Db) (a : Sent * Db) : Prop :=
  envelope (fst a) /\ (400 <= sent_status (fst a) -> snd a = db).

(** A request that only reads. *)
Definition isRead (req : Request) : bool :=
  match req with
  | GET_categories _ | GET_category _ | GET_products _ | GET_product _ => true
  | _ => false
  end.

(** The pages [first], [first + 1], ... ([count] of them) of a listing, one
    after the other. *)
Fixpoint pagesFrom {A} (first : Z) (count : nat) (size : Z) (rows : list A)
  : list A :=
  match count with
  | O => []
  | S k =>
      pageOf ((first - 1) * size) size rows
      ++ pagesFrom (first + 1) k size rows
  end.

(** The same product query for another page. *)
Definition atPage (q : ProductQuery) (k : Z) : ProductQuery :=
  mkProductQuery k (pq_limit q) (pq_search q) (pq_categoryId q)
                 (pq_isActive q) (pq_minPrice q) (pq_maxPrice q)
                 (pq_sortBy q) (pq_sortOrder q).

(** What a client collects by asking for the pages [first], [first + 1],
    ... of a product query, one request for each, every request with its
    own surroundings. *)
Fixpoint walk (q : ProductQuery) (first : Z) (requests : list Env) (db : Db)
  : list ProductWithCategory :=
  match requests with
  | [] => []
  | env :: rest =>
      fst (@productService.findAll env (atPage q first) db)
      ++ walk q (first + 1) rest db
  end.

(** Two requests before the same database: it finds the same texts to
    contain a term and orders texts alike. *)
Definition sameDatabase (a b : Env) : Prop :=
  @contains a = @contains b /\ @textLe a = @textLe b.

(** No two of the rows have equal sort keys. *)
Definition distinctKeys {env : Env} (f : SortField) (o : SortOrder)
    (rows : list Product) : Prop :=
  ForallOrdPairs
    (fun a b => ~ (productKeyLe f o a b = true /\ productKeyLe f o b a = true))
    rows.

(** What the filters of a product query ask of a row, the search term
    apart. *)
Definition passesFilters (q : ProductQuery) (p : Product) : Prop :=
  (forall c, pq_categoryId q = Some c -> c <> ""%string ->
     p_categoryId p = c) /\
  (forall a, pq_isActive q = Some a -> p_isActive p = a) /\
  (forall lo, pq_minPrice q = Some (Js.Fin lo) ->
     (Js.toDecimal lo <= p_price p)%Q) /\
  (forall hi, pq_maxPrice q = Some (Js.Fin hi) ->
     (p_price p <= Js.toDecimal hi)%Q).

(** A product row with another [updatedAt]. *)
Definition stamped (p : Product) (t : Date) : Product :=
  mkProduct (p_id p) (p_name p) (p_description p) (p_price p) (p_stock p)
            (p_sku p) (p_isActive p) (p_categoryId p) (p_createdAt p) t.

(* ================================================================== *)
(** ** Lists: ordering and paging *)
(* ================================================================== *)

Section Ordering.
Context {A : Type} (cmp : A -> A -> bool) (R : A -> A -> Prop).
Hypothesis cmp_true : forall a b, cmp a b = true -> R a b.
Hypothesis cmp_false : forall a b, cmp a b = false -> R b a.
Hypothesis R_trans : forall a b c, R a b -> R b c -> R a c.

Lemma insertBy_Forall (P : A -> Prop) x l :
  P x -> Forall P l -> Forall P (insertBy cmp x l).
Proof.
  intros Hx Hl. induction Hl as [|y r Hy Hr IH]; simpl.
  - constructor; [exact Hx | constructor].
  - destruct (cmp x y); constructor; auto.
Qed.

Lemma insertBy_sorted x l :
  StronglySorted R l -> StronglySorted R (insertBy cmp x l).
Proof.
  induction 1 as [|y r Hr IH Hy]; simpl.
  - constructor; constructor.
  - destruct (cmp x y) eqn:E.
    + constructor.
      * constructor; assumption.
      * constructor; [apply cmp_true; exact E|].
        eapply Forall_impl; [|exact Hy].
        intros z Hz. eapply R_trans; [apply cmp_true; exact E | exact Hz].
    + constructor; [exact IH|].
      apply insertBy_Forall; [apply cmp_false; exact E | exact Hy].
Qed.

Lemma orderBy_sorted l : StronglySorted R (orderBy cmp l).
Proof.
  induction l as [|x l IH]; simpl.
  - constructor.
  - apply insertBy_sorted. exact IH.
Qed.

End Ordering.

(** However the database orders rows with equal keys, it orders by the
    key. *)
Lemma breakingTies_true {A} (le ties : A -> A -> bool) a b :
  breakingTies le ties a b = true -> le a b = true.
Proof.
  unfold breakingTies. destruct (le a b); [reflexivity|].
  cbn. intros H. exact H.
Qed.

Lemma breakingTies_false {A} (le ties : A -> A -> bool) a b :
  (le a b = false -> le b a = true) ->
  breakingTies le ties a b = false -> le b a = true.
Proof.
  unfold breakingTies. intros Ht.
  destruct (le a b); [|intros _; now apply Ht].
  destruct (le b a); [reflexivity|]. cbn. discriminate.
Qed.

Lemma insertBy_length {A} (le : A -> A -> bool) x l :
  List.length (insertBy le x l) = S (List.length l).
Proof.
  induction l as [|y r IH]; simpl; [reflexivity|].
  destruct (le x y); simpl; [reflexivity | now rewrite IH].
Qed.

Lemma orderBy_length {A} (le : A -> A -> bool) l :
  List.length (orderBy le l) = List.length l.
Proof.
  induction l as [|x l IH]; simpl; [reflexivity|].
  now rewrite insertBy_length, IH.
Qed.

Lemma StronglySorted_skipn {A} (R : A -> A -> Prop) n l :
  StronglySorted R l -> StronglySorted R (skipn n l).
Proof.
  revert l. induction n as [|n IH]; intros l H; simpl; [exact H|].
  destruct l as [|x l]; [constructor|].
  apply IH. now inversion H.
Qed.

Lemma Forall_firstn {A} (P : A -> Prop) n l :
  Forall P l -> Forall P (firstn n l).
Proof.
  revert l. induction n as [|n IH]; intros l H; simpl; [constructor|].
  destruct H; constructor; auto.
Qed.

Lemma StronglySorted_firstn {A} (R : A -> A -> Prop) n l :
  StronglySorted R l -> StronglySorted R (firstn n l).
Proof.
  revert l. induction n as [|n IH]; intros l H; simpl; [constructor|].
  destruct H as [|x l Hl Hx]; constructor.
  - apply IH, Hl.
  - apply Forall_firstn, Hx.
Qed.

Lemma StronglySorted_map {A B} (f : A -> B) (R : B -> B -> Prop) l :
  StronglySorted (fun a b => R (f a) (f b)) l -> StronglySorted R (map f l).
Proof.
  induction 1 as [|x l Hl IH Hx]; simpl; constructor; [exact IH|].
  rewrite Forall_map. exact Hx.
Qed.

Lemma StronglySorted_impl {A} (R R' : A -> A -> Prop) l :
  (forall a b, R a b -> R' a b) ->
  StronglySorted R l -> StronglySorted R' l.
Proof.
  intros HR. induction 1 as [|x l Hl IH Hx]; constructor; [exact IH|].
  eapply Forall_impl; [|exact Hx]. intros b. apply HR.
Qed.

Lemma pageOf_length {A} offset size (rows : list A) :
  0 <= size -> Z.of_nat (List.length (pageOf offset size rows)) <= size.
Proof.
  intros H. unfold pageOf. rewrite length_firstn. lia.
Qed.

Lemma pageOf_beyond {A} offset size (rows : list A) :
  0 <= offset -> Z.of_nat (List.length rows) <= offset ->
  pageOf offset size rows = [].
Proof.
  intros H0 H. unfold pageOf.
  rewrite skipn_all2 by lia. now rewrite firstn_nil.
Qed.

(** [Math.ceil] of a quotient of integers is the integer ceiling. *)
Lemma ceilDiv_isCeiling n l :
  0 < l -> isCeiling n l (ceilDiv n l).
Proof.
  intros Hl. unfold isCeiling, ceilDiv, Qceiling, Qfloor.
  destruct l as [|l|l]; try lia.
  simpl. rewrite Z.mul_1_r.
  pose proof (Z.div_mod (- n) (Z.pos l) ltac:(lia)) as Hd.
  pose proof (Z.mod_pos_bound (- n) (Z.pos l) ltac:(lia)) as Hm.
  nia.
Qed.

(* ================================================================== *)
(** ** Listing: pages, metadata, order *)
(* ================================================================== *)

Section Listing.
Context {env : Env}.

Lemma createdAtDesc_true a b :
  createdAtDesc a b = true -> c_createdAt b <= c_createdAt a.
Proof.
  unfold createdAtDesc. intros H. apply breakingTies_true in H. lia.
Qed.

Lemma createdAtDesc_false a b :
  createdAtDesc a b = false -> c_createdAt a <= c_createdAt b.
Proof.
  unfold createdAtDesc. intros H.
  apply breakingTies_false in H; lia.
Qed.

Lemma findMany_pageOf {A} (w : A -> bool) le skip take rows :
  findMany w le skip take rows = pageOf skip take (orderBy le (filter w rows)).
Proof. reflexivity. Qed.

Lemma page_facts {A} (matching : list A) (p l n t : Z) :
  1 <= p -> 1 <= l -> n = Z.of_nat (List.length matching) ->
  t = ceilDiv n l ->
  isCeiling n l t /\ (t < p -> pageOf ((p - 1) * l) l matching = []).
Proof.
  intros Hp Hl -> ->.
  pose proof (ceilDiv_isCeiling (Z.of_nat (List.length matching)) l
                ltac:(lia)) as Hc.
  split; [exact Hc|].
  intros Hlt. apply pageOf_beyond; [nia|].
  unfold isCeiling in Hc. nia.
Qed.

(** *** The bounds the query schemas enforce *)

Lemma gtb_Fin_zero q : Js.gtb (Js.Fin q) (Js.Fin 0) = true -> (0 < q)%Q.
Proof.
  simpl. intros H. apply negb_true_iff in H.
  apply Qnot_le_lt. intros Hle. apply Qle_bool_iff in Hle. congruence.
Qed.

Lemma leb_Fin q r : Js.leb (Js.Fin q) (Js.Fin r) = true -> (q <= r)%Q.
Proof.
  simpl. intros H. apply negb_true_iff, negb_false_iff in H.
  now apply Qle_bool_iff.
Qed.

Lemma isInteger_Fin q :
  zInt (Js.Fin q) = true -> (q == inject_Z (Qfloor q))%Q.
Proof.
  unfold zInt. intros H. apply andb_true_iff in H. destruct H as [H _].
  simpl in H. now apply Qeq_bool_iff.
Qed.

Lemma zCount_range hi d v z :
  zCount hi d v = Valid z ->
  1 <= d -> (forall h, hi = Some h -> d <= h) ->
  1 <= z /\ (forall h, hi = Some h -> z <= h).
Proof.
  unfold zCount. destruct v as [s|].
  2:{ intros [= <-] Hd Hh. split; assumption. }
  destruct (Js.toNumber s) as [|b|q]; cbn [zNumberAccepts negb].
  - discriminate.
  - destruct finiteOnly; cbn; discriminate.
  - destruct (zInt (Js.Fin q)) eqn:Ei; [|discriminate].
    destruct (Js.gtb (Js.Fin q) (Js.Fin 0)) eqn:Eg; [|discriminate].
    apply isInteger_Fin in Ei. apply gtb_Fin_zero in Eg.
    assert (Hz : 1 <= Qfloor q).
    { rewrite Ei in Eg. change 0%Q with (inject_Z 0) in Eg.
      rewrite <- Zlt_Qlt in Eg. lia. }
    destruct hi as [h|]; cbn [app].
    + destruct (Js.leb (Js.Fin q) (Js.Fin (inject_Z h))) eqn:El;
        [|discriminate].
      intros [= <-] _ _. split; [exact Hz|].
      intros h' [= <-]. apply leb_Fin in El.
      rewrite Ei in El. now rewrite <- Zle_Qle in El.
    + intros [= <-] _ _. split; [exact Hz | discriminate].
Qed.

Lemma zCount_over h d s :
  Js.gtb (Js.toNumber s) (Js.Fin (inject_Z h)) = true ->
  exists issues, zCount (Some h) d (Some s) = Invalid issues.
Proof.
  unfold zCount. intros H.
  destruct (Js.toNumber s) as [|b|q]; cbn [zNumberAccepts negb].
  - discriminate.
  - destruct finiteOnly; cbn; eauto.
  - assert (El : Js.leb (Js.Fin q) (Js.Fin (inject_Z h)) = false).
    { cbn [Js.leb]. now rewrite H. }
    rewrite El.
    destruct (zInt (Js.Fin q));
      destruct (Js.gtb (Js.Fin q) (Js.Fin 0)); cbn; eauto.
Qed.

Lemma categoryQuery_bounds rq q :
  categoryQuerySchema_safeParse rq = ParseSuccess q ->
  1 <= cq_page q /\ 1 <= cq_limit q <= 100.
Proof.
  unfold categoryQuerySchema_safeParse.
  destruct (zCount None 1 (param "page" rq)) as [p|] eqn:Ep; [|discriminate].
  destruct (zCount (Some 100) 10 (param "limit" rq)) as [l|] eqn:El;
    [|discriminate].
  intros [= <-]. cbn [cq_page cq_limit].
  apply zCount_range in Ep; [|lia|discriminate].
  apply zCount_range in El; [|lia|intros h [= <-]; lia].
  destruct Ep as [Hp _], El as [Hl Hh]. specialize (Hh 100 eq_refl). lia.
Qed.

Lemma productQuery_bounds rq q :
  productQuerySchema_safeParse rq = ParseSuccess q ->
  1 <= pq_page q /\ 1 <= pq_limit q <= 100.
Proof.
  unfold productQuerySchema_safeParse.
  destruct (zCount None 1 (param "page" rq)) as [p|] eqn:Ep; [|discriminate].
  destruct (zCount (Some 100) 10 (param "limit" rq)) as [l|] eqn:El;
    [|discriminate].
  destruct (zUuidOptional _); [|discriminate].
  destruct (zPositiveOptional (param "minPrice" rq)); [|discriminate].
  destruct (zPositiveOptional (param "maxPrice" rq)); [|discriminate].
  destruct (zSortBy _); [|discriminate].
  destruct (zSortOrder _); [|discriminate].
  intros [= <-]. cbn [pq_page pq_limit].
  apply zCount_range in Ep; [|lia|discriminate].
  apply zCount_range in El; [|lia|intros h [= <-]; lia].
  destruct Ep as [Hp _], El as [Hl Hh]. specialize (Hh 100 eq_refl). lia.
Qed.

Lemma categoryQuery_over rq s :
  param "limit" rq = Some s ->
  Js.gtb (Js.toNumber s) (Js.Fin 100) = true ->
  exists issues, categoryQuerySchema_safeParse rq = ParseFailure issues.
Proof.
  intros Hs Hg. unfold categoryQuerySchema_safeParse. rewrite Hs.
  destruct (zCount_over 100 10 s Hg) as [issues ->].
  destruct (zCount None 1 (param "page" rq)); eauto.
Qed.

Lemma productQuery_over rq s :
  param "limit" rq = Some s ->
  Js.gtb (Js.toNumber s) (Js.Fin 100) = true ->
  exists issues, productQuerySchema_safeParse rq = ParseFailure issues.
Proof.
  intros Hs Hg. unfold productQuerySchema_safeParse. rewrite Hs.
  destruct (zCount_over 100 10 s Hg) as [issues ->].
  destruct (zCount None 1 (param "page" rq)); eauto.
Qed.

(** *** Pages *)

Lemma productService_findAll_eq (q : ProductQuery) (db : Db) :
  let matching :=
    orderBy (productOrder (pq_sortBy q) (pq_sortOrder q))
            (filter (productWhere q) (products db)) in
  let n := Z.of_nat (List.length matching) in
  productService.findAll q db =
    (map (withCategory db)
         (pageOf ((pq_page q - 1) * pq_limit q) (pq_limit q) matching),
     mkMeta (pq_page q) (pq_limit q) n (ceilDiv n (pq_limit q))).
Proof.
  cbv zeta. unfold productService.findAll, product_count.
  rewrite findMany_pageOf, orderBy_length. reflexivity.
Qed.

Lemma categoryService_findAll_eq (q : CategoryQuery) (db : Db) :
  let matching :=
    orderBy createdAtDesc
            (filter (categoryWhere (cq_search q)) (categories db)) in
  let n := Z.of_nat (List.length matching) in
  categoryService.findAll q db =
    (map (withProductCount db)
         (pageOf ((cq_page q - 1) * cq_limit q) (cq_limit q) matching),
     mkMeta (cq_page q) (cq_limit q) n (ceilDiv n (cq_limit q))).
Proof.
  cbv zeta. unfold categoryService.findAll, category_count.
  rewrite findMany_pageOf, orderBy_length. reflexivity.
Qed.

(** C3.  For a page [p >= 1] and a page size [L >= 1], either list
    operation returns the rows at offset [(p - 1) * L], at most [L] of
    them, of the matching rows in the requested order, with the metadata
    [{page: p, limit: L, total: N, totalPages: ceil(N / L)}], [N] being the
    number of matching rows; a page beyond [totalPages] is the empty list
    with the same metadata; and for a query the schema accepts, which has
    [p >= 1] and [L >= 1], the endpoint answers 200 with both. *)
Theorem findAll_pagination (db : Db) :
  (forall q : ProductQuery,
     1 <= pq_page q -> 1 <= pq_limit q ->
     let matching :=
       orderBy (productOrder (pq_sortBy q) (pq_sortOrder q))
               (filter (productWhere q) (products db)) in
     let n := Z.of_nat (List.length matching) in
     let rows := fst (productService.findAll q db) in
     let m := snd (productService.findAll q db) in
     rows = map (withCategory db)
                (pageOf ((pq_page q - 1) * pq_limit q) (pq_limit q) matching)
     /\ page m = pq_page q /\ limit m = pq_limit q /\ total m = n
     /\ isCeiling n (pq_limit q) (totalPages m)
     /\ (totalPages m < pq_page q -> rows = []))
  /\
  (forall q : CategoryQuery,
     1 <= cq_page q -> 1 <= cq_limit q ->
     let matching :=
       orderBy createdAtDesc
               (filter (categoryWhere (cq_search q)) (categories db)) in
     let n := Z.of_nat (List.length matching) in
     let rows := fst (categoryService.findAll q db) in
     let m := snd (categoryService.findAll q db) in
     rows = map (withProductCount db)
                (pageOf ((cq_page q - 1) * cq_limit q) (cq_limit q) matching)
     /\ page m = cq_page q /\ limit m = cq_limit q /\ total m = n
     /\ isCeiling n (cq_limit q) (totalPages m)
     /\ (totalPages m < cq_page q -> rows = []))
  /\
  (forall rq q,
     productQuerySchema_safeParse rq = ParseSuccess q ->
     1 <= pq_page q /\ 1 <= pq_limit q /\
     productController.getAll rq db =
       (mkResponse 200
          (Some {| success := true;
                   message := "Products retrieved successfully";
                   data := Some (fst (productService.findAll q db));
                   error := None;
                   meta := Some (snd (productService.findAll q db)) |}),
        db))
  /\
  (forall rq q,
     categoryQuerySchema_safeParse rq = ParseSuccess q ->
     1 <= cq_page q /\ 1 <= cq_limit q /\
     categoryController.getAll rq db =
       (mkResponse 200
          (Some {| success := true;
                   message := "Categories retrieved successfully";
                   data := Some (fst (categoryService.findAll q db));
                   error := None;
                   meta := Some (snd (categoryService.findAll q db)) |}),
        db)).
Proof.
  split; [|split; [|split]].
  - intros q Hp Hl. cbv zeta.
    pose proof (productService_findAll_eq q db) as E. cbv zeta in E.
    rewrite E. simpl fst. simpl snd. cbn [page limit total totalPages].
    match goal with
    | |- map _ (pageOf _ _ ?l) = _ /\ _ =>
        destruct (page_facts l (pq_page q) (pq_limit q) _ _ Hp Hl
                    eq_refl eq_refl) as [Hc Hb]
    end.
    repeat split; try reflexivity; try (apply Hc).
    intros Hlt. now rewrite (Hb Hlt).
  - intros q Hp Hl. cbv zeta.
    pose proof (categoryService_findAll_eq q db) as E. cbv zeta in E.
    rewrite E. simpl fst. simpl snd. cbn [page limit total totalPages].
    match goal with
    | |- map _ (pageOf _ _ ?l) = _ /\ _ =>
        destruct (page_facts l (cq_page q) (cq_limit q) _ _ Hp Hl
                    eq_refl eq_refl) as [Hc Hb]
    end.
    repeat split; try reflexivity; try (apply Hc).
    intros Hlt. now rewrite (Hb Hlt).
  - intros rq q Hq. destruct (productQuery_bounds rq q Hq) as [Hp Hl].
    repeat split; try lia.
    unfold productController.getAll. rewrite Hq. reflexivity.
  - intros rq q Hq. destruct (categoryQuery_bounds rq q Hq) as [Hp Hl].
    repeat split; try lia.
    unfold categoryController.getAll. rewrite Hq. reflexivity.
Qed.

Lemma served_page_size {A} (offset size : Z) (rows : list A) B (f : A -> B) :
  1 <= size ->
  Z.of_nat (List.length (map f (pageOf offset size rows))) <= size.
Proof.
  intros H. rewrite length_map. apply pageOf_length. lia.
Qed.

(** C6, as the code has it.  The page size is bounded by 100 on both list
    endpoints by refusing larger values: a request whose [limit] is above
    100 is answered 400 and nothing is listed; every 200 answer carries a
    [limit] between 1 and 100 and at most that many rows. *)
Theorem limit_bounded_by_rejection (db : Db) (rq : Query) :
  (forall s,
     param "limit" rq = Some s ->
     Js.gtb (Js.toNumber s) (Js.Fin 100) = true ->
     statusCode (fst (categoryController.getAll rq db)) = 400 /\
     dataOf (fst (categoryController.getAll rq db)) = None /\
     statusCode (fst (productController.getAll rq db)) = 400 /\
     dataOf (fst (productController.getAll rq db)) = None)
  /\
  (statusCode (fst (categoryController.getAll rq db)) = 200 ->
   exists rows m,
     dataOf (fst (categoryController.getAll rq db)) = Some rows /\
     metaOf (fst (categoryController.getAll rq db)) = Some m /\
     1 <= limit m <= 100 /\ Z.of_nat (List.length rows) <= limit m)
  /\
  (statusCode (fst (productController.getAll rq db)) = 200 ->
   exists rows m,
     dataOf (fst (productController.getAll rq db)) = Some rows /\
     metaOf (fst (productController.getAll rq db)) = Some m /\
     1 <= limit m <= 100 /\ Z.of_nat (List.length rows) <= limit m).
Proof.
  split; [|split].
  - intros s Hs Hg.
    destruct (categoryQuery_over rq s Hs Hg) as [ic Hc].
    destruct (productQuery_over rq s Hs Hg) as [ip Hp].
    unfold categoryController.getAll, productController.getAll.
    rewrite Hc, Hp. repeat split.
  - unfold categoryController.getAll.
    destruct (categoryQuerySchema_safeParse rq) as [q|issues] eqn:E.
    + intros _. destruct (categoryQuery_bounds rq q E) as [Hp Hl].
      pose proof (categoryService_findAll_eq q db) as F. cbv zeta in F.
      rewrite F. cbn.
      eexists _, _. repeat split; cbn [limit]; try lia.
      apply served_page_size. lia.
    + cbn. discriminate.
  - unfold productController.getAll.
    destruct (productQuerySchema_safeParse rq) as [q|issues] eqn:E.
    + intros _. destruct (productQuery_bounds rq q E) as [Hp Hl].
      pose proof (productService_findAll_eq q db) as F. cbv zeta in F.
      rewrite F. cbn.
      eexists _, _. repeat split; cbn [limit]; try lia.
      apply served_page_size. lia.
    + cbn. discriminate.
Qed.

(** C10.  Whatever the query, the categories come back newest first: the
    list the service returns is ordered by [createdAt], descending.  The
    endpoint reads [page], [limit] and [search] only, so no parameter can
    change that order, while on the product list [sortOrder] does. *)
Theorem category_list_newest_first (db : Db) :
  (forall q : CategoryQuery,
     StronglySorted newerFirst (fst (categoryService.findAll q db)))
  /\
  (forall rq rows,
     dataOf (fst (categoryController.getAll rq db)) = Some rows ->
     StronglySorted newerFirst rows)
  /\
  (forall rq rq' : Query,
     param "page" rq' = param "page" rq ->
     param "limit" rq' = param "limit" rq ->
     param "search" rq' = param "search" rq ->
     categoryController.getAll rq' db = categoryController.getAll rq db)
  /\
  (exists (rq : Query) (v : string),
     productController.getAll (("sortOrder"%string, v) :: rq) sampleDb
     <> productController.getAll rq sampleDb).
Proof.
  assert (S : forall q : CategoryQuery,
             StronglySorted newerFirst (fst (categoryService.findAll q db))).
  { intros q. unfold categoryService.findAll, findMany. cbn [fst].
    apply StronglySorted_map, StronglySorted_firstn, StronglySorted_skipn.
    apply (orderBy_sorted createdAtDesc);
      unfold newerFirst, withProductCount; cbn.
    - apply createdAtDesc_true.
    - apply createdAtDesc_false.
    - intros a b c. lia. }
  split; [exact S|]. split; [|split].
  - intros rq rows. unfold categoryController.getAll.
    destruct (categoryQuerySchema_safeParse rq) as [q|issues].
    + specialize (S q). destruct (categoryService.findAll q db) as [l m].
      cbn. intros [= <-]. exact S.
    + cbn. discriminate.
  - intros rq rq' Hp Hl Hs.
    unfold categoryController.getAll, categoryQuerySchema_safeParse.
    now rewrite Hp, Hl, Hs.
  - exists [], "asc"%string. intros H.
    apply (f_equal (fun r => dataOf (fst r))) in H.
    vm_compute in H. discriminate H.
Qed.

End Listing.

(* ================================================================== *)
(** ** Rows addressed by a key *)
(* ================================================================== *)

Section Rows.
Context {A : Type} (key : A -> string) (f : A -> A).
Hypothesis f_key : forall r, key (f r) = key r.

Lemma find_key id rows r :
  find (fun x => String.eqb (key x) id) rows = Some r -> key r = id.
Proof.
  intros H. apply find_some in H. now apply String.eqb_eq.
Qed.

Lemma find_patched id rows :
  find (fun x => String.eqb (key x) id)
       (map (fun x => if String.eqb (key x) id then f x else x) rows)
  = option_map f (find (fun x => String.eqb (key x) id) rows).
Proof.
  induction rows as [|x rows IH]; simpl; [reflexivity|].
  destruct (String.eqb (key x) id) eqn:E.
  - rewrite f_key, E. reflexivity.
  - rewrite E. exact IH.
Qed.

Lemma find_patched_other id id' rows :
  id' <> id ->
  find (fun x => String.eqb (key x) id')
       (map (fun x => if String.eqb (key x) id then f x else x) rows)
  = find (fun x => String.eqb (key x) id') rows.
Proof.
  intros Hne. induction rows as [|x rows IH]; simpl; [reflexivity|].
  destruct (String.eqb (key x) id) eqn:E.
  - rewrite f_key. apply String.eqb_eq in E.
    assert (E' : String.eqb (key x) id' = false).
    { apply String.eqb_neq. congruence. }
    rewrite E'. exact IH.
  - destruct (String.eqb (key x) id'); [reflexivity | exact IH].
Qed.

Lemma keys_patched id rows :
  map key (map (fun x => if String.eqb (key x) id then f x else x) rows)
  = map key rows.
Proof.
  induction rows as [|x rows IH]; simpl; [reflexivity|].
  rewrite IH. destruct (String.eqb (key x) id); now rewrite ?f_key.
Qed.

Lemma find_removed id rows :
  find (fun x => String.eqb (key x) id)
       (filter (fun x => negb (String.eqb (key x) id)) rows) = None.
Proof.
  induction rows as [|x rows IH]; simpl; [reflexivity|].
  destruct (String.eqb (key x) id) eqn:E; simpl; [exact IH|].
  now rewrite E.
Qed.

Lemma find_removed_other id id' rows :
  id' <> id ->
  find (fun x => String.eqb (key x) id')
       (filter (fun x => negb (String.eqb (key x) id)) rows)
  = find (fun x => String.eqb (key x) id') rows.
Proof.
  intros Hne. induction rows as [|x rows IH]; simpl; [reflexivity|].
  destruct (String.eqb (key x) id) eqn:E; simpl.
  - apply String.eqb_eq in E.
    assert (E' : String.eqb (key x) id' = false).
    { apply String.eqb_neq. congruence. }
    now rewrite E'.
  - destruct (String.eqb (key x) id'); [reflexivity | exact IH].
Qed.

End Rows.

Lemma map_unchanged {A} (key : A -> string) (f : A -> A) id rows :
  (forall r, f r = r) ->
  map (fun x => if String.eqb (key x) id then f x else x) rows = rows.
Proof.
  intros Hf. induction rows as [|x rows IH]; simpl; [reflexivity|].
  rewrite IH, Hf. now destruct (String.eqb (key x) id).
Qed.

Lemma existsb_filter_nil {A} (f : A -> bool) l :
  List.length (filter f l) = O -> existsb f l = false.
Proof.
  induction l as [|x l IH]; simpl; [reflexivity|].
  destruct (f x); simpl; [discriminate | exact IH].
Qed.

(* ================================================================== *)
(** ** Writes: deletion, toggling, partial update, creation *)
(* ================================================================== *)

Section Writes.
Context {env : Env}.

Lemma categoryIdParam_ok id :
  uuid id = true -> categoryIdParamSchema_safeParse id = ParseSuccess id.
Proof.
  intros H. unfold categoryIdParamSchema_safeParse, zUuid. now rewrite H.
Qed.

Lemma productIdParam_ok id :
  uuid id = true -> productIdParamSchema_safeParse id = ParseSuccess id.
Proof.
  intros H. unfold productIdParamSchema_safeParse, zUuid. now rewrite H.
Qed.

Lemma applyProductUpdate_id w r : p_id (applyProductUpdate w r) = p_id r.
Proof. reflexivity. Qed.

Lemma applyCategoryUpdate_id w r : c_id (applyCategoryUpdate w r) = c_id r.
Proof. reflexivity. Qed.

Lemma product_count_positive id db :
  (exists p, In p (products db) /\ p_categoryId p = id) ->
  0 < product_count (inCategory id) db.
Proof.
  intros (p & Hin & Hp). unfold product_count.
  assert (Hf : In p (filter (inCategory id) (products db))).
  { apply filter_In. split; [exact Hin|].
    unfold inCategory. now apply String.eqb_eq. }
  destruct (filter (inCategory id) (products db)); [destruct Hf | cbn; lia].
Qed.

Lemma product_count_zero id db :
  (forall p, In p (products db) -> p_categoryId p <> id) ->
  product_count (inCategory id) db = 0.
Proof.
  intros H. unfold product_count.
  destruct (filter (inCategory id) (products db)) as [|p l] eqn:E;
    [reflexivity|].
  assert (Hf : In p (filter (inCategory id) (products db)))
    by (rewrite E; now left).
  apply filter_In in Hf. destruct Hf as [Hin Hp].
  unfold inCategory in Hp. apply String.eqb_eq in Hp.
  now destruct (H p Hin).
Qed.

(** C2.  For a category that exists (under an identifier the parameter
    schema accepts), the delete endpoint answers 409 and leaves both tables
    as they were when at least one product references the category, and
    answers 204 with the category gone, the other categories and all
    products kept, when none does. *)
Theorem category_delete_guarded (db : Db) (c : Category) :
  category_findUnique_id (c_id c) db = Some c ->
  uuid (c_id c) = true ->
  ((exists p, In p (products db) /\ p_categoryId p = c_id c) ->
   categoryController.delete (c_id c) db =
     (mkResponse 409
        (Some {| success := false;
                 message := "Cannot delete category with associated products";
                 data := None; error := None; meta := None |}),
      db))
  /\
  ((forall p, In p (products db) -> p_categoryId p <> c_id c) ->
   exists db',
     categoryController.delete (c_id c) db = (mkResponse 204 None, db') /\
     category_findUnique_id (c_id c) db' = None /\
     (forall id', id' <> c_id c ->
        category_findUnique_id id' db' = category_findUnique_id id' db) /\
     products db' = products db).
Proof.
  intros Hc Hu.
  unfold categoryController.delete.
  rewrite (categoryIdParam_ok _ Hu).
  unfold categoryService.findById, categoryService.hasProducts.
  rewrite Hc. cbn [option_map].
  split.
  - intros Hn. apply product_count_positive in Hn.
    apply Z.ltb_lt in Hn. rewrite Hn. reflexivity.
  - intros Hz. apply product_count_zero in Hz.
    rewrite Hz. cbn [Z.ltb Z.compare].
    unfold categoryService.delete, category_delete. rewrite Hc.
    assert (Hex : existsb (inCategory (c_id c)) (products db) = false).
    { apply existsb_filter_nil. unfold product_count in Hz. lia. }
    rewrite Hex. eexists. split; [reflexivity|].
    unfold category_findUnique_id. cbn [categories products].
    split; [apply (find_removed c_id)|].
    split; [|reflexivity].
    intros id' Hne. now apply (find_removed_other c_id).
Qed.

(** C7, as the code has it.  An identifier the parameter schema refuses is
    answered 400 and nothing changes, whether or not a product has it.
    For an identifier it accepts: when no product has it, [toggleActive]
    returns [null] and writes nothing, and the endpoint answers 404;
    otherwise it writes the negation of the stored [isActive] and the
    endpoint answers 200 with the updated record, in which every other
    column has kept its value but [updatedAt], which is the time of the
    write where the schema has the ORM maintain it; no other row
    changes. *)
Theorem toggleActive_negates (db : Db) (id : string) :
  (uuid id = false ->
   statusCode (fst (productController.toggleActive id db)) = 400 /\
   option_map message (body (fst (productController.toggleActive id db)))
   = Some "Invalid product ID"%string /\
   snd (productController.toggleActive id db) = db)
  /\
  (product_findUnique_id id db = None ->
   productService.toggleActive id db = (Returned None, db) /\
   (uuid id = true ->
    productController.toggleActive id db =
      (mkResponse 404
         (Some {| success := false; message := "Product not found";
                  data := None; error := None; meta := None |}),
       db)))
  /\
  (forall p,
     product_findUnique_id id db = Some p ->
     let p' :=
       mkProduct (p_id p) (p_name p) (p_description p) (p_price p)
                 (p_stock p) (p_sku p) (negb (p_isActive p))
                 (p_categoryId p) (p_createdAt p)
                 (if updatedAtAuto then now else p_updatedAt p) in
     exists db',
       productService.toggleActive id db = (Returned (Some p'), db') /\
       (uuid id = true ->
        productController.toggleActive id db =
          (mkResponse 200
             (Some {| success := true;
                      message := if negb (p_isActive p)
                                 then "Product activated successfully"
                                 else "Product deactivated successfully";
                      data := Some p'; error := None; meta := None |}),
           db')) /\
       product_findUnique_id id db' = Some p' /\
       (forall id', id' <> id ->
          product_findUnique_id id' db' = product_findUnique_id id' db) /\
       map p_id (products db') = map p_id (products db) /\
       categories db' = categories db).
Proof.
  split.
  { intros Hu. unfold productController.toggleActive,
      productIdParamSchema_safeParse, zUuid.
    rewrite Hu. repeat split. }
  split.
  - intros Hn.
    assert (E : productService.toggleActive id db = (Returned None, db)).
    { unfold productService.toggleActive. now rewrite Hn. }
    split; [exact E|].
    intros Hu. unfold productController.toggleActive.
    rewrite (productIdParam_ok _ Hu), E. reflexivity.
  - intros p Hp p'.
    set (w := mkProductUpdateData None None None None None
                (Some (negb (p_isActive p))) None).
    assert (Ep : applyProductUpdate w p = p').
    { unfold applyProductUpdate, p', touch. cbn.
      now rewrite andb_true_r. }
    assert (E : productService.toggleActive id db =
                (Returned (Some p'),
                 mkDb (categories db)
                      (map (fun r => if String.eqb (p_id r) id
                                     then applyProductUpdate w r else r)
                           (products db)))).
    { unfold productService.toggleActive. rewrite Hp.
      unfold product_update. rewrite Hp. cbn [pu_sku pu_categoryId].
      fold w. now rewrite Ep. }
    eexists. split; [exact E|]. split.
    { intros Hu. unfold productController.toggleActive.
      rewrite (productIdParam_ok _ Hu), E. reflexivity. }
    unfold product_findUnique_id. cbn [products categories].
    split.
    + rewrite (find_patched p_id (applyProductUpdate w)
                 (applyProductUpdate_id w)).
      fold (product_findUnique_id id db). rewrite Hp. cbn. now rewrite Ep.
    + split; [|split; [|reflexivity]].
      * intros id' Hne.
        now apply (find_patched_other p_id (applyProductUpdate w)
                     (applyProductUpdate_id w)).
      * apply (keys_patched p_id (applyProductUpdate w)
                 (applyProductUpdate_id w)).
Qed.

(** *** Partial update *)

Lemma written_orElse {A} (input : option A) (before : A) :
  written input before (orElse input before).
Proof. destruct input; reflexivity. Qed.

Lemma applyProductUpdate_empty r :
  applyProductUpdate
    (mkProductUpdateData None None None None None None None) r = r.
Proof.
  destruct r. unfold applyProductUpdate, touch. cbn.
  now rewrite andb_false_r.
Qed.

Lemma applyCategoryUpdate_empty r :
  applyCategoryUpdate (mkCategoryUpdateData None None) r = r.
Proof.
  destruct r. unfold applyCategoryUpdate, touch. cbn.
  now rewrite andb_false_r.
Qed.

(** What the service writes of the stock is the value of the input. *)
Lemma stockRefused_set (v : option Z) (old : Z) :
  stockRefused (option_map StockSet v) old
  = negb (match v with Some x => fitsInt x | None => true end).
Proof. destruct v; reflexivity. Qed.

(** An update the tables do not admit throws and writes nothing. *)
Lemma product_update_refused (db : Db) (id : string)
    (d : UpdateProductInput) (p : Product) :
  product_findUnique_id id db = Some p ->
  productAdmits id d db = false ->
  exists e, productService.update id d db = (Thrown e, db).
Proof.
  intros Hp Ha. unfold productService.update, product_update.
  rewrite Hp. cbn [pu_stock pu_sku pu_categoryId].
  rewrite stockRefused_set. unfold productAdmits in Ha.
  destruct (match upi_stock d with Some v => fitsInt v | None => true end);
    cbn [negb]; [|eexists; reflexivity].
  destruct (upi_sku d) as [s|].
  - destruct (skuTakenByOther id s db); [eexists; reflexivity|].
    cbn in Ha.
    destruct (upi_categoryId d) as [c|]; [|discriminate].
    rewrite Ha. eexists. reflexivity.
  - cbn in Ha.
    destruct (upi_categoryId d) as [c|]; [|discriminate].
    rewrite Ha. eexists. reflexivity.
Qed.

Lemma category_update_refused (db : Db) (id : string)
    (d : UpdateCategoryInput) (c : Category) :
  category_findUnique_id id db = Some c ->
  categoryAdmits id d db = false ->
  exists e, categoryService.update id d db = (Thrown e, db).
Proof.
  intros Hc Ha. unfold categoryService.update, category_update.
  rewrite Hc. cbn [cu_name]. unfold categoryAdmits in Ha.
  destruct (uci_name d) as [n|]; [|discriminate].
  apply negb_false_iff in Ha. rewrite Ha. eexists. reflexivity.
Qed.

(** An update the tables admit is carried out. *)
Lemma product_update_admitted (db : Db) (id : string)
    (d : UpdateProductInput) (p : Product) :
  product_findUnique_id id db = Some p ->
  productAdmits id d db = true ->
  let w := mkProductUpdateData (upi_name d) (upi_description d) (upi_price d)
             (option_map StockSet (upi_stock d)) (upi_sku d) (upi_isActive d)
             (upi_categoryId d) in
  product_update id w db =
    (Returned (applyProductUpdate w p),
     mkDb (categories db)
          (map (fun r => if String.eqb (p_id r) id
                         then applyProductUpdate w r else r)
               (products db))).
Proof.
  intros Hp Ha w. unfold product_update. rewrite Hp.
  unfold w at 1 2 3. cbn [pu_stock pu_sku pu_categoryId].
  rewrite stockRefused_set. unfold productAdmits in Ha.
  apply andb_true_iff in Ha. destruct Ha as [Ha Hcat].
  apply andb_true_iff in Ha. destruct Ha as [Hstock Hsku].
  rewrite Hstock. cbn [negb].
  replace (match upi_sku d with
           | Some s => skuTakenByOther id s db
           | None => false
           end) with false
    by (destruct (upi_sku d) as [s|];
        [now apply negb_true_iff in Hsku | reflexivity]).
  replace (match upi_categoryId d with
           | Some c => negb (isSome (category_findUnique_id c db))
           | None => false
           end) with false
    by (destruct (upi_categoryId d) as [c|];
        [now rewrite Hcat | reflexivity]).
  reflexivity.
Qed.

(** C4, as the code has it.  On an existing row, [update] with a validated
    input the tables admit (a stock the column can hold, a new [sku] or
    [name] no other row holds, a [categoryId] that names a category) writes
    exactly the fields present in the input: each field that is absent
    keeps its prior value, each field that is present takes the input's
    value, an explicit [null] for [description] stores [null], and no other
    row changes; [updatedAt] alone is not the input's: it is the time of
    the write whenever a field is present, where the schema has the ORM
    maintain it.  With an input the tables do not admit, [update] throws
    and writes nothing. *)
Theorem update_writes_present_fields (db : Db) (id : string) :
  (forall (d : UpdateProductInput) (p : Product),
     product_findUnique_id id db = Some p ->
     (productAdmits id d db = true ->
      exists p' db',
        productService.update id d db
          = (Returned (withCategory db' p'), db') /\
        productPatched d p p' /\
        p_updatedAt p' = (if (updatedAtAuto && productSupplies d)%bool
                          then now else p_updatedAt p) /\
        (upi_description d = Some None -> p_description p' = None) /\
        product_findUnique_id id db' = Some p' /\
        (forall id', id' <> id ->
           product_findUnique_id id' db' = product_findUnique_id id' db) /\
        categories db' = categories db)
     /\
     (productAdmits id d db = false ->
      exists e, productService.update id d db = (Thrown e, db)))
  /\
  (forall (d : UpdateCategoryInput) (c : Category),
     category_findUnique_id id db = Some c ->
     (categoryAdmits id d db = true ->
      exists c' db',
        categoryService.update id d db = (Returned c', db') /\
        categoryPatched d c c' /\
        c_updatedAt c' = (if (updatedAtAuto && categorySupplies d)%bool
                          then now else c_updatedAt c) /\
        (uci_description d = Some None -> c_description c' = None) /\
        category_findUnique_id id db' = Some c' /\
        (forall id', id' <> id ->
           category_findUnique_id id' db' = category_findUnique_id id' db) /\
        products db' = products db)
     /\
     (categoryAdmits id d db = false ->
      exists e, categoryService.update id d db = (Thrown e, db))).
Proof.
  split.
  - intros d p Hp. split; [|now apply product_update_refused with (p := p)].
    intros Ha.
    unfold productService.update.
    rewrite (product_update_admitted db id d p Hp Ha).
    cbn [including].
    set (w := mkProductUpdateData _ _ _ _ _ _ _).
    exists (applyProductUpdate w p). eexists. split; [reflexivity|].
    split.
    { unfold productPatched, applyProductUpdate, w. cbn.
      repeat split; try apply written_orElse.
      destruct (upi_stock d); reflexivity. }
    split.
    { unfold applyProductUpdate, touch, productWritten, productSupplies, w.
      cbn. now destruct (upi_stock d). }
    split.
    { intros Hd. unfold applyProductUpdate, w. cbn. now rewrite Hd. }
    unfold product_findUnique_id. cbn [products categories].
    split.
    + rewrite (find_patched p_id (applyProductUpdate w)
                 (applyProductUpdate_id w)).
      fold (product_findUnique_id id db). now rewrite Hp.
    + split; [|reflexivity].
      intros id' Hne.
      now apply (find_patched_other p_id (applyProductUpdate w)
                   (applyProductUpdate_id w)).
  - intros d c Hc. split; [|now apply category_update_refused with (c := c)].
    intros Ha.
    unfold categoryService.update, category_update. rewrite Hc.
    cbn [cu_name]. unfold categoryAdmits in Ha.
    replace (match uci_name d with
             | Some n => nameTakenByOther id n db
             | None => false
             end) with false
      by (destruct (uci_name d) as [n|];
          [now apply negb_true_iff in Ha | reflexivity]).
    set (w := mkCategoryUpdateData _ _).
    exists (applyCategoryUpdate w c). eexists. split; [reflexivity|].
    split.
    { unfold categoryPatched, applyCategoryUpdate, w. cbn.
      repeat split; apply written_orElse. }
    split.
    { reflexivity. }
    split.
    { intros Hd. unfold applyCategoryUpdate, w. cbn. now rewrite Hd. }
    unfold category_findUnique_id. cbn [products categories].
    split.
    + rewrite (find_patched c_id (applyCategoryUpdate w)
                 (applyCategoryUpdate_id w)).
      fold (category_findUnique_id id db). now rewrite Hc.
    + split; [|reflexivity].
      intros id' Hne.
      now apply (find_patched_other c_id (applyCategoryUpdate w)
                   (applyCategoryUpdate_id w)).
Qed.

(** On an existing product or category, the service's [update] with an
    input in which no field is present writes nothing: it returns the
    record as it was, every field and both timestamps included, and both
    tables are as before. *)
Lemma update_without_fields_is_noop (db : Db) (id : string) :
  (forall p,
     product_findUnique_id id db = Some p ->
     productService.update id emptyProductInput db =
       (Returned (withCategory db p), db) /\
     productService.findById id db = Some (withCategory db p))
  /\
  (forall c,
     category_findUnique_id id db = Some c ->
     categoryService.update id emptyCategoryInput db = (Returned c, db)).
Proof.
  split.
  - intros p Hp. split.
    + unfold productService.update, product_update, emptyProductInput.
      rewrite Hp. cbn.
      rewrite applyProductUpdate_empty.
      rewrite (map_unchanged p_id _ id (products db) applyProductUpdate_empty).
      now destruct db.
    + unfold productService.findById. now rewrite Hp.
  - intros c Hc.
    unfold categoryService.update, category_update, emptyCategoryInput.
    rewrite Hc. cbn.
    rewrite applyCategoryUpdate_empty.
    rewrite (map_unchanged c_id _ id (categories db)
               applyCategoryUpdate_empty).
    now destruct db.
Qed.

(** *** Creating a product *)

Lemma product_find_sku_absent sku rows :
  find (fun p => String.eqb (p_sku p) sku) rows = None ->
  ~ In sku (map p_sku rows).
Proof.
  induction rows as [|x rows IH]; simpl; [tauto|].
  destruct (String.eqb (p_sku x) sku) eqn:E; [discriminate|].
  intros H [Hx|Hin]; [|exact (IH H Hin)].
  apply String.eqb_neq in E. congruence.
Qed.

(** No request to the create endpoint ever makes two rows share a [sku]. *)
Lemma create_keeps_sku_unique (db : Db) (reqBody : option ProductBody) :
  NoDup (map p_sku (products db)) ->
  NoDup (map p_sku (products (snd (productController.create reqBody db)))).
Proof.
  intros Hnd. unfold productController.create.
  destruct (createProductSchema_safeParse reqBody) as [[d|issues]|e];
    try exact Hnd.
  destruct (categoryService.findById (cpi_categoryId d) db); [|exact Hnd].
  destruct (productService.findBySku (cpi_sku d) db); [exact Hnd|].
  unfold productService.create, product_create.
  cbn [pc_stock pc_sku pc_categoryId].
  destruct (negb (fitsInt (cpi_stock d))); [exact Hnd|].
  destruct (isSome (product_findUnique_id newId db)); [exact Hnd|].
  destruct (product_findUnique_sku (cpi_sku d) db) eqn:Es; [exact Hnd|].
  cbn [isSome].
  destruct (negb (isSome (category_findUnique_id (cpi_categoryId d) db)));
    [exact Hnd|].
  cbn. rewrite map_app. cbn.
  apply NoDup_app; [exact Hnd | constructor; [intros [] | constructor] |].
  intros sku Hin [<-|[]].
  exact (product_find_sku_absent _ _ Es Hin).
Qed.

(** A request that does not pass validation writes nothing. *)
Lemma create_invalid_writes_nothing (db : Db) (reqBody : option ProductBody) :
  (forall d, createProductSchema_safeParse reqBody
             <> Returned (ParseSuccess d)) ->
  snd (productController.create reqBody db) = db.
Proof.
  intros H. unfold productController.create.
  destruct (createProductSchema_safeParse reqBody) as [[d|issues]|e];
    try reflexivity.
  now destruct (H d).
Qed.

(** The sku of a validated body is the trimmed text of the request. *)
Lemma validated_sku_is_trimmed (o : ProductBody) (d : CreateProductInput) s :
  createProductSchema_safeParse (Some o) = Returned (ParseSuccess d) ->
  pb_sku o = Js.Str s ->
  cpi_sku d = Js.trim s.
Proof.
  unfold createProductSchema_safeParse. intros H Hs.
  destruct (zPrice (pb_price o)) as [[q|]|]; try discriminate.
  - destruct (zString 1 _ 200 _ (pb_name o));
      destruct (optionalNullable _ (pb_description o));
      destruct (zStock (pb_stock o));
      destruct (zString 1 _ 50 _ (pb_sku o)) eqn:Esku;
      destruct (zBooleanDefault true (pb_isActive o));
      destruct (zUuid _ (pb_categoryId o));
      try discriminate.
    injection H as <-. cbn [cpi_sku].
    rewrite Hs in Esku. unfold zString in Esku.
    destruct ((if Nat.ltb (Js.length s) 1 then _ else _)
              ++ (if Nat.ltb 50 (Js.length s) then _ else _));
      [now injection Esku | discriminate].
  - destruct (zString 1 _ 200 _ (pb_name o));
      destruct (optionalNullable _ (pb_description o));
      discriminate.
Qed.

(** C1, as the code has it.  When a product with sku [S] exists, a create
    request whose body passes validation with sku [S] is answered 409 if
    its [categoryId] names an existing category, and 400 if it does not
    (the category is checked first); either way the tables are left as
    they were, so no second row with sku [S] is inserted. *)
Theorem create_existing_sku (db : Db) (reqBody : option ProductBody)
    (d : CreateProductInput) (p0 : Product) :
  createProductSchema_safeParse reqBody = Returned (ParseSuccess d) ->
  product_findUnique_sku (cpi_sku d) db = Some p0 ->
  snd (productController.create reqBody db) = db
  /\
  (isSome (category_findUnique_id (cpi_categoryId d) db) = true ->
   fst (productController.create reqBody db) =
     mkResponse 409
       (Some {| success := false;
                message := "Product with this SKU already exists";
                data := None; error := None; meta := None |}))
  /\
  (category_findUnique_id (cpi_categoryId d) db = None ->
   fst (productController.create reqBody db) =
     mkResponse 400
       (Some {| success := false; message := "Category not found";
                data := None; error := None; meta := None |})).
Proof.
  intros Hparse Hsku. unfold productController.create.
  rewrite Hparse.
  unfold categoryService.findById, productService.findBySku.
  rewrite Hsku.
  destruct (category_findUnique_id (cpi_categoryId d) db) as [c|];
    cbn; repeat split; try reflexivity; discriminate.
Qed.

(** *** The price of a product *)

Lemma pricePipe_range n q :
  pricePipe n = Valid q -> n = Js.Fin q /\ (0 < q)%Q /\ (q <= priceLimit)%Q.
Proof.
  unfold pricePipe.
  destruct (negb (zNumberAccepts n)); [discriminate|].
  destruct (Js.gtb n (Js.Fin 0)) eqn:Eg; [|discriminate].
  destruct (Js.leb n (Js.Fin priceLimit)) eqn:El; [|discriminate].
  destruct n as [|b|x]; cbn [app]; try discriminate.
  intros [= <-]. repeat split.
  - now apply gtb_Fin_zero.
  - now apply leb_Fin.
Qed.

(** A numeric string is read by [parseFloat] and then checked like a
    number. *)
Lemma zPrice_numeric_string s q :
  Js.parseFloat s = Js.Fin q ->
  zPrice (Js.Str s) = Returned (pricePipe (Js.Fin q)).
Proof.
  intros H. unfold zPrice, priceTransform. now rewrite H.
Qed.

(** A price the schema reports as invalid is answered 400. *)
Lemma create_price_invalid (db : Db) (o : ProductBody) issues :
  zPrice (pb_price o) = Returned (Invalid issues) ->
  exists all,
    productController.create (Some o) db =
      (sendBadRequest "Validation failed" (Some (Issues all)), db).
Proof.
  intros H. unfold productController.create, createProductSchema_safeParse.
  rewrite H.
  destruct (zString 1 _ 200 _ (pb_name o));
    destruct (optionalNullable _ (pb_description o));
    eexists; reflexivity.
Qed.

(** A string price with no numeric prefix makes the transform throw; the
    error leaves [safeParse], reaches the central handler as an ordinary
    error, and the answer is 500. *)
Lemma create_price_not_numeric (db : Db) (o : ProductBody) s :
  pb_price o = Js.Str s ->
  Js.parseFloat s = Js.NaN ->
  productController.create (Some o) db =
    (errorHandler (plainError "Invalid price format"), db)
  /\ statusCode (fst (productController.create (Some o) db)) = 500.
Proof.
  intros Hp Hn.
  assert (E : productController.create (Some o) db =
              (errorHandler (plainError "Invalid price format"), db)).
  { unfold productController.create, createProductSchema_safeParse.
    rewrite Hp. unfold zPrice, priceTransform. rewrite Hn. reflexivity. }
  split; [exact E|]. rewrite E. reflexivity.
Qed.

End Writes.

(* ================================================================== *)
(** ** The central error handler *)
(* ================================================================== *)

Section Errors.
Context {env : Env}.

Lemma offendingField_named err f rest :
  e_metaTarget err = Some (f :: rest) -> f <> ""%string ->
  offendingField err = f.
Proof.
  intros H Hf. unfold offendingField. rewrite H.
  destruct f; [congruence | reflexivity].
Qed.

(** C9, as the code has it.  A database error reaching the central handler
    is answered by its kind.  The ORM's known request error is answered by
    its code: the unique-constraint code with 400 and a message that names
    the first target of the error when the error carries one, and says
    [field] when it carries none, as the errors of this client do; the
    not-found code with 404, the foreign-key code with 400, any other code
    with 500 and a generic message.  An error of any other name, the ORM's
    own validation error apart, is answered 500 with the generic message
    as well. *)
Theorem errorHandler_database_errors (T : Type) (err : JsError) :
  isZodError err = false ->
  (e_name err = "PrismaClientKnownRequestError"%string ->
   (e_code err = Some "P2002"%string ->
    @errorHandler env T err =
      mkResponse 400
        (Some {| success := false;
                 message := "A record with this " ++ offendingField err
                            ++ " already exists";
                 data := None; error := None; meta := None |})
    /\ (forall f rest,
          e_metaTarget err = Some (f :: rest) -> f <> ""%string ->
          offendingField err = f)
    /\ (e_metaTarget err = None -> offendingField err = "field"%string)
    /\ (forall rest,
          e_metaTarget err = Some rest ->
          hd ""%string rest = ""%string ->
          offendingField err = "field"%string))
   /\
   (e_code err = Some "P2025"%string ->
    @errorHandler env T err =
      mkResponse 404
        (Some {| success := false; message := "Record not found";
                 data := None; error := None; meta := None |}))
   /\
   (e_code err = Some "P2003"%string ->
    @errorHandler env T err =
      mkResponse 400
        (Some {| success := false;
                 message := "Referenced record does not exist";
                 data := None; error := None; meta := None |}))
   /\
   (e_code err <> Some "P2002"%string ->
    e_code err <> Some "P2025"%string ->
    e_code err <> Some "P2003"%string ->
    @errorHandler env T err =
      mkResponse 500
        (Some {| success := false; message := "Internal server error";
                 data := None;
                 error := Some (Text "Database error occurred");
                 meta := None |})))
  /\
  (e_name err <> "PrismaClientKnownRequestError"%string ->
   e_name err <> "PrismaClientValidationError"%string ->
   statusCode (@errorHandler env T err) = 500 /\
   option_map message (body (@errorHandler env T err))
   = Some "Internal server error"%string).
Proof.
  intros Hz. split.
  - intros Hn. unfold errorHandler. rewrite Hz, Hn.
    change (String.eqb "PrismaClientKnownRequestError"
                       "PrismaClientKnownRequestError") with true.
    cbv iota.
    split; [|split; [|split]].
    + intros Hc. rewrite Hc. split; [reflexivity|].
      split; [intros f rest; apply offendingField_named|].
      unfold offendingField. split.
      * now intros ->.
      * intros rest -> Hh. destruct rest as [|f rest]; [reflexivity|].
        cbn in Hh. now rewrite Hh.
    + intros Hc. rewrite Hc. reflexivity.
    + intros Hc. rewrite Hc. reflexivity.
    + intros H1 H2 H3. destruct (e_code err) as [code|]; [|reflexivity].
      destruct (String.eqb code "P2002") eqn:E1;
        [apply String.eqb_eq in E1; congruence|].
      destruct (String.eqb code "P2025") eqn:E2;
        [apply String.eqb_eq in E2; congruence|].
      destruct (String.eqb code "P2003") eqn:E3;
        [apply String.eqb_eq in E3; congruence|].
      reflexivity.
  - intros Hk Hv. unfold errorHandler. rewrite Hz.
    apply String.eqb_neq in Hk. apply String.eqb_neq in Hv.
    rewrite Hk, Hv. split; reflexivity.
Qed.

End Errors.

(* ================================================================== *)
(** ** Creating rows and finding them again *)
(* ================================================================== *)

Lemma find_app_new {A} (f : A -> bool) l x :
  find f l = None -> f x = true -> find f (l ++ [x]) = Some x.
Proof.
  intros Hn Hx. induction l as [|y l IH]; simpl in *.
  - now rewrite Hx.
  - destruct (f y); [discriminate | auto].
Qed.

Lemma find_app_old {A} (f : A -> bool) l x y :
  find f l = Some y -> find f (l ++ [x]) = Some y.
Proof.
  intros H. induction l as [|z l IH]; simpl in *; [discriminate|].
  destruct (f z); auto.
Qed.

Lemma orElse_orNull d : orElse d None = orNull d.
Proof. destruct d as [[t|]|]; reflexivity. Qed.

(** Settles a case of a classification of answers: a status against what
    the request and the tables say. *)
Ltac outcome :=
  repeat match goal with
         | |- _ /\ _ => split
         | |- _ <-> _ => split; intros
         | H : exists _, _ |- _ => destruct H
         | H : _ /\ _ |- _ => destruct H
         | H : _ \/ _ |- _ => destruct H
         | H : Returned (ParseSuccess _) = Returned (ParseSuccess _) |- _ =>
             injection H as <-
         | H : ParseSuccess _ = ParseSuccess _ |- _ => injection H as <-
         end;
  try discriminate; try tauto;
  try match goal with
      | E : ?x = _, H : context [?x] |- _ =>
          rewrite E in H; cbn in H; discriminate
      end.

Section Creating.
Context {env : Env}.

Lemma category_create_appends (n : string) (descr : option string) db :
  category_findUnique_id newId db = None ->
  category_findUnique_name n db = None ->
  category_create (mkCategoryCreateData n descr) db =
    (Returned (mkCategory newId n descr now now),
     mkDb (categories db ++ [mkCategory newId n descr now now])
          (products db)).
Proof.
  intros Hid Hname. unfold category_create. cbn [cc_name cc_description].
  now rewrite Hid, Hname.
Qed.

Lemma categoryController_create_ok (db : Db)
    (reqBody : option CategoryBody) (d : CreateCategoryInput) :
  createCategorySchema_safeParse reqBody = ParseSuccess d ->
  category_findUnique_name (cci_name d) db = None ->
  category_findUnique_id newId db = None ->
  categoryController.create reqBody db =
    (mkResponse 201
       (Some {| success := true; message := "Category created successfully";
                data := Some (mkCategory newId (cci_name d)
                                (orNull (cci_description d)) now now);
                error := None; meta := None |}),
     mkDb (categories db
           ++ [mkCategory newId (cci_name d) (orNull (cci_description d))
                 now now])
          (products db)).
Proof.
  intros Hparse Hname Hid.
  unfold categoryController.create. rewrite Hparse.
  unfold categoryService.findByName. rewrite Hname.
  unfold categoryService.create. rewrite orElse_orNull.
  rewrite (category_create_appends _ _ _ Hid Hname). reflexivity.
Qed.

(** X1.  A category is created from a valid body whose name is free: the
    answer is 201 with the new row, which carries the fresh identifier, the
    validated name, the description or [null] when there is none, and the
    time of the request twice; the row is added after the others, and it
    is then found by its name, by its identifier, and by the get-by-id
    endpoint. *)
Theorem category_create_then_found (db : Db) (reqBody : option CategoryBody)
    (d : CreateCategoryInput) :
  createCategorySchema_safeParse reqBody = ParseSuccess d ->
  category_findUnique_name (cci_name d) db = None ->
  category_findUnique_id newId db = None ->
  let c := mkCategory newId (cci_name d) (orNull (cci_description d))
                      now now in
  let db' := mkDb (categories db ++ [c]) (products db) in
  categoryController.create reqBody db =
    (mkResponse 201
       (Some {| success := true; message := "Category created successfully";
                data := Some c; error := None; meta := None |}),
     db')
  /\ categoryService.findByName (cci_name d) db' = Some c
  /\ category_findUnique_id newId db' = Some c
  /\ (uuid newId = true ->
      categoryController.getById newId db' =
        (mkResponse 200
           (Some {| success := true;
                    message := "Category retrieved successfully";
                    data := Some (withProductCount db' c);
                    error := None; meta := None |}),
         db')).
Proof.
  intros Hparse Hname Hid c db'.
  assert (Hbyname : category_findUnique_name (cci_name d) db' = Some c).
  { unfold category_findUnique_name, db'. cbn [categories].
    apply find_app_new; [exact Hname | apply String.eqb_refl]. }
  assert (Hbyid : category_findUnique_id newId db' = Some c).
  { unfold category_findUnique_id, db'. cbn [categories].
    apply find_app_new; [exact Hid | apply String.eqb_refl]. }
  split; [|split; [exact Hbyname | split; [exact Hbyid|]]].
  - exact (categoryController_create_ok db reqBody d Hparse Hname Hid).
  - intros Hu. unfold categoryController.getById.
    unfold categoryIdParamSchema_safeParse, zUuid. rewrite Hu.
    unfold categoryService.findById. rewrite Hbyid. reflexivity.
Qed.

Lemma product_create_appends (d : ProductCreateData) db c :
  fitsInt (pc_stock d) = true ->
  product_findUnique_id newId db = None ->
  product_findUnique_sku (pc_sku d) db = None ->
  category_findUnique_id (pc_categoryId d) db = Some c ->
  product_create d db =
    (Returned (mkProduct newId (pc_name d) (pc_description d)
                 (storedPrice (pc_price d))
                 (pc_stock d) (pc_sku d) (pc_isActive d) (pc_categoryId d)
                 now now),
     mkDb (categories db)
          (products db
           ++ [mkProduct newId (pc_name d) (pc_description d)
                 (storedPrice (pc_price d))
                 (pc_stock d) (pc_sku d) (pc_isActive d) (pc_categoryId d)
                 now now])).
Proof.
  intros Hfit Hid Hsku Hcat. unfold product_create.
  now rewrite Hfit, Hid, Hsku, Hcat.
Qed.

(** A stock the column cannot hold is refused before anything else. *)
Lemma product_create_refused (d : ProductCreateData) db :
  fitsInt (pc_stock d) = false ->
  product_create d db = (Thrown valueOutOfRange, db).
Proof.
  intros Hfit. unfold product_create. now rewrite Hfit.
Qed.

Lemma productController_create_ok (db : Db)
    (reqBody : option ProductBody) (d : CreateProductInput) (c : Category) :
  createProductSchema_safeParse reqBody = Returned (ParseSuccess d) ->
  fitsInt (cpi_stock d) = true ->
  category_findUnique_id (cpi_categoryId d) db = Some c ->
  product_findUnique_sku (cpi_sku d) db = None ->
  product_findUnique_id newId db = None ->
  snd (productController.create reqBody db) =
    mkDb (categories db)
         (products db
          ++ [mkProduct newId (cpi_name d) (orNull (cpi_description d))
                (storedPrice (cpi_price d)) (cpi_stock d) (cpi_sku d)
                (cpi_isActive d) (cpi_categoryId d) now now]).
Proof.
  intros Hparse Hfit Hcat Hsku Hid.
  unfold productController.create. rewrite Hparse.
  unfold categoryService.findById. rewrite Hcat. cbn [option_map].
  unfold productService.findBySku. rewrite Hsku.
  unfold productService.create. rewrite orElse_orNull.
  rewrite (product_create_appends
             (mkProductCreateData (cpi_name d) (orNull (cpi_description d))
                (cpi_price d) (cpi_stock d) (cpi_sku d) (cpi_isActive d)
                (cpi_categoryId d))
             db c Hfit Hid Hsku Hcat).
  reflexivity.
Qed.

(** X3.  A product is created from a valid body whose category exists,
    whose sku is free and whose stock the integer column can hold: the
    answer is 201 with the new row and the identifier and name of its
    category; the row's fields are the validated input's, the description
    [null] when there is none and the price what the column keeps of it;
    the row is added after the others and is then found by its sku, by its
    identifier and by the get-by-id endpoint; the categories are kept. *)
Theorem product_create_then_found (db : Db) (reqBody : option ProductBody)
    (d : CreateProductInput) (c : Category) :
  createProductSchema_safeParse reqBody = Returned (ParseSuccess d) ->
  fitsInt (cpi_stock d) = true ->
  category_findUnique_id (cpi_categoryId d) db = Some c ->
  product_findUnique_sku (cpi_sku d) db = None ->
  product_findUnique_id newId db = None ->
  let p := mkProduct newId (cpi_name d) (orNull (cpi_description d))
                     (storedPrice (cpi_price d)) (cpi_stock d) (cpi_sku d)
                     (cpi_isActive d) (cpi_categoryId d) now now in
  let db' := mkDb (categories db) (products db ++ [p]) in
  let shown :=
    mkProductWithCategory p (Some (mkCategoryRef (c_id c) (c_name c))) in
  productController.create reqBody db =
    (mkResponse 201
       (Some {| success := true; message := "Product created successfully";
                data := Some shown; error := None; meta := None |}),
     db')
  /\ productService.findBySku (cpi_sku d) db' = Some p
  /\ productService.findById newId db' = Some shown
  /\ (uuid newId = true ->
      productController.getById newId db' =
        (mkResponse 200
           (Some {| success := true;
                    message := "Product retrieved successfully";
                    data := Some shown; error := None; meta := None |}),
         db')).
Proof.
  intros Hparse Hfit Hcat Hsku Hid p db' shown.
  assert (Hshown : withCategory db' p = shown).
  { unfold withCategory, db', shown. cbn [p_categoryId p].
    unfold category_findUnique_id in *. cbn [categories].
    now rewrite Hcat. }
  assert (Hbysku : product_findUnique_sku (cpi_sku d) db' = Some p).
  { unfold product_findUnique_sku, db'. cbn [products].
    apply find_app_new; [exact Hsku | apply String.eqb_refl]. }
  assert (Hbyid : product_findUnique_id newId db' = Some p).
  { unfold product_findUnique_id, db'. cbn [products].
    apply find_app_new; [exact Hid | apply String.eqb_refl]. }
  assert (Hfind : productService.findById newId db' = Some shown).
  { unfold productService.findById. rewrite Hbyid. cbn [option_map].
    now rewrite Hshown. }
  split; [|split; [exact Hbysku | split; [exact Hfind|]]].
  - unfold productController.create. rewrite Hparse.
    unfold categoryService.findById. rewrite Hcat. cbn [option_map].
    unfold productService.findBySku. rewrite Hsku.
    unfold productService.create. rewrite orElse_orNull.
    rewrite (product_create_appends
               (mkProductCreateData (cpi_name d) (orNull (cpi_description d))
                  (cpi_price d) (cpi_stock d) (cpi_sku d) (cpi_isActive d)
                  (cpi_categoryId d))
               db c Hfit Hid Hsku Hcat).
    cbn [including pc_name pc_description pc_price pc_stock pc_sku
         pc_isActive pc_categoryId].
    fold p. fold db'. now rewrite Hshown.
  - intros Hu. unfold productController.getById.
    unfold productIdParamSchema_safeParse, zUuid. rewrite Hu.
    now rewrite Hfind.
Qed.

Lemma zPrice_throws v e :
  zPrice v = Thrown e -> e = plainError "Invalid price format".
Proof.
  unfold zPrice, priceTransform.
  destruct v as [| |b|n|t|]; try discriminate.
  - destruct (zNumberAccepts (Js.asDouble n)); [|discriminate].
    destruct (Js.isNaN (Js.asDouble n)); [now intros [= <-] | discriminate].
  - destruct (Js.isNaN (Js.parseFloat t)); [now intros [= <-] | discriminate].
Qed.

Lemma createProductSchema_throws reqBody e :
  createProductSchema_safeParse reqBody = Thrown e ->
  e = plainError "Invalid price format".
Proof.
  unfold createProductSchema_safeParse.
  destruct reqBody as [o|]; [|discriminate].
  destruct (zPrice (pb_price o)) as [price|e'] eqn:E.
  - destruct (zString 1 _ 200 _ (pb_name o));
      destruct (optionalNullable _ (pb_description o));
      destruct price;
      destruct (zStock (pb_stock o));
      destruct (zString 1 _ 50 _ (pb_sku o));
      destruct (zBooleanDefault true (pb_isActive o));
      destruct (zUuid _ (pb_categoryId o));
      discriminate.
  - intros [= <-]. exact (zPrice_throws _ _ E).
Qed.

(** X4.  The create-product endpoint has four answers, and the request and
    the tables decide which: 500 exactly when the price transform throws,
    or when the body is valid, its category exists and its sku is free but
    the integer column cannot hold its stock; 409 exactly when the body is
    valid, its category exists and its sku is taken; 201 exactly when the
    body is valid, its category exists, its sku is free, its stock fits
    and the new identifier is fresh; 400 otherwise. *)
Theorem product_create_outcomes (db : Db) (reqBody : option ProductBody) :
  let status := statusCode (fst (productController.create reqBody db)) in
  (status = 201 \/ status = 400 \/ status = 409 \/ status = 500)
  /\ (status = 500 <->
      (exists e, createProductSchema_safeParse reqBody = Thrown e) \/
      (exists d,
         createProductSchema_safeParse reqBody = Returned (ParseSuccess d) /\
         isSome (category_findUnique_id (cpi_categoryId d) db) = true /\
         product_findUnique_sku (cpi_sku d) db = None /\
         fitsInt (cpi_stock d) = false))
  /\ (status = 409 <->
      exists d,
        createProductSchema_safeParse reqBody = Returned (ParseSuccess d) /\
        isSome (category_findUnique_id (cpi_categoryId d) db) = true /\
        isSome (product_findUnique_sku (cpi_sku d) db) = true)
  /\ (status = 201 <->
      exists d,
        createProductSchema_safeParse reqBody = Returned (ParseSuccess d) /\
        isSome (category_findUnique_id (cpi_categoryId d) db) = true /\
        product_findUnique_sku (cpi_sku d) db = None /\
        fitsInt (cpi_stock d) = true /\
        product_findUnique_id newId db = None).
Proof.
  cbv zeta. unfold productController.create.
  destruct (createProductSchema_safeParse reqBody) as [[d|issues]|e] eqn:Ep.
  - unfold categoryService.findById, productService.findBySku.
    destruct (category_findUnique_id (cpi_categoryId d) db) as [c|] eqn:Ec;
      cbn [option_map].
    + destruct (product_findUnique_sku (cpi_sku d) db) as [p0|] eqn:Es.
      * cbn. outcome. exists d. rewrite Ec, Es. auto.
      * unfold productService.create, product_create.
        cbn [pc_stock pc_sku pc_categoryId].
        destruct (fitsInt (cpi_stock d)) eqn:Ef; cbn [negb].
        -- rewrite Es, Ec. cbn [isSome negb].
           destruct (product_findUnique_id newId db) as [p1|] eqn:Ei; cbn;
             outcome; try congruence.
           exists d. rewrite Ec, Es. auto.
        -- cbn. outcome; try congruence.
           right. exists d. rewrite Ec. auto.
    + cbn. outcome.
  - cbn. outcome.
  - rewrite (createProductSchema_throws _ _ Ep). cbn. outcome.
    left. eexists. reflexivity.
Qed.

End Creating.

(** X2.  Posting the same valid body twice: once the first request has
    created the row, the second is answered 409 and changes nothing, for a
    category and for a product alike, whatever time has passed.  (A
    product whose stock the integer column cannot hold is not created: both
    requests are answered 500 and nothing is written.) *)
Theorem create_twice_conflicts (first second : Env) (db : Db) :
  (forall reqBody d,
     createCategorySchema_safeParse reqBody = ParseSuccess d ->
     category_findUnique_name (cci_name d) db = None ->
     category_findUnique_id (@newId first) db = None ->
     let db1 := snd (@categoryController.create first reqBody db) in
     db1 <> db /\
     @categoryController.create second reqBody db1 =
       (mkResponse 409
          (Some {| success := false;
                   message := "Category with this name already exists";
                   data := None; error := None; meta := None |}),
        db1))
  /\
  (forall reqBody d c,
     @createProductSchema_safeParse first reqBody
       = Returned (ParseSuccess d) ->
     @createProductSchema_safeParse second reqBody
       = Returned (ParseSuccess d) ->
     category_findUnique_id (cpi_categoryId d) db = Some c ->
     product_findUnique_sku (cpi_sku d) db = None ->
     product_findUnique_id (@newId first) db = None ->
     let db1 := snd (@productController.create first reqBody db) in
     (fitsInt (cpi_stock d) = true ->
      db1 <> db /\
      @productController.create second reqBody db1 =
        (mkResponse 409
           (Some {| success := false;
                    message := "Product with this SKU already exists";
                    data := None; error := None; meta := None |}),
         db1))
     /\
     (fitsInt (cpi_stock d) = false ->
      db1 = db /\
      statusCode (fst (@productController.create first reqBody db)) = 500 /\
      statusCode (fst (@productController.create second reqBody db1)) = 500 /\
      snd (@productController.create second reqBody db1) = db)).
Proof.
  split.
  - intros reqBody d Hparse Hname Hid db1.
    unfold db1.
    rewrite (@categoryController_create_ok first db reqBody d
               Hparse Hname Hid).
    cbn [snd]. split.
    + intros H. apply (f_equal (fun x => List.length (categories x))) in H.
      cbn in H. rewrite length_app in H. cbn in H. lia.
    + unfold categoryController.create. rewrite Hparse.
      unfold categoryService.findByName, category_findUnique_name.
      cbn [categories].
      match goal with
      | |- context [find ?f (?l ++ [?x])] =>
          rewrite (find_app_new f l x Hname (String.eqb_refl _))
      end.
      reflexivity.
  - intros reqBody d c Hp1 Hp2 Hcat Hsku Hid db1.
    assert (Refused : forall env : Env,
              @createProductSchema_safeParse env reqBody
                = Returned (ParseSuccess d) ->
              fitsInt (cpi_stock d) = false ->
              statusCode (fst (@productController.create env reqBody db))
                = 500 /\
              snd (@productController.create env reqBody db) = db).
    { intros env Hp Hfit. unfold productController.create. rewrite Hp.
      unfold categoryService.findById. rewrite Hcat. cbn [option_map].
      unfold productService.findBySku. rewrite Hsku.
      unfold productService.create.
      rewrite product_create_refused by exact Hfit.
      split; reflexivity. }
    split.
    2:{ intros Hfit.
        destruct (Refused first Hp1 Hfit) as [S1 D1].
        unfold db1. rewrite D1.
        destruct (Refused second Hp2 Hfit) as [S2 D2]. auto. }
    intros Hfit. unfold db1.
    rewrite (@productController_create_ok first db reqBody d c
               Hp1 Hfit Hcat Hsku Hid).
    split.
    + intros H. apply (f_equal (fun x => List.length (products x))) in H.
      cbn in H. rewrite length_app in H. cbn in H. lia.
    + unfold productController.create. rewrite Hp2.
      unfold categoryService.findById, category_findUnique_id.
      cbn [categories]. fold (category_findUnique_id (cpi_categoryId d) db).
      rewrite Hcat. cbn [option_map].
      unfold productService.findBySku, product_findUnique_sku.
      cbn [products].
      match goal with
      | |- context [find ?f (?l ++ [?x])] =>
          rewrite (find_app_new f l x Hsku (String.eqb_refl _))
      end.
      reflexivity.
Qed.

(* ================================================================== *)
(** ** Deleting, stock, toggling twice *)
(* ================================================================== *)

Lemma find_filter_other {A} (key : A -> string) id id' rows :
  id' <> id ->
  find (fun x => String.eqb (key x) id')
       (filter (fun x => negb (String.eqb (key x) id)) rows)
  = find (fun x => String.eqb (key x) id') rows.
Proof.
  intros Hne. induction rows as [|x rows IH]; simpl; [reflexivity|].
  destruct (String.eqb (key x) id) eqn:E; simpl.
  - apply String.eqb_eq in E.
    assert (E' : String.eqb (key x) id' = false)
      by (apply String.eqb_neq; congruence).
    now rewrite E'.
  - destruct (String.eqb (key x) id'); [reflexivity | exact IH].
Qed.

Lemma find_filter_gone {A} (key : A -> string) id rows :
  find (fun x => String.eqb (key x) id)
       (filter (fun x => negb (String.eqb (key x) id)) rows) = None.
Proof.
  induction rows as [|x rows IH]; simpl; [reflexivity|].
  destruct (String.eqb (key x) id) eqn:E; simpl; [exact IH|].
  now rewrite E.
Qed.

Lemma productController_delete_found {env : Env} db id p :
  uuid id = true ->
  product_findUnique_id id db = Some p ->
  productController.delete id db =
    (mkResponse 204 None,
     mkDb (categories db)
          (filter (fun r => negb (String.eqb (p_id r) id)) (products db))).
Proof.
  intros Hu Hp. unfold productController.delete.
  unfold productIdParamSchema_safeParse, zUuid. rewrite Hu.
  unfold productService.findById. rewrite Hp. cbn [option_map].
  unfold productService.delete, product_delete. now rewrite Hp.
Qed.

Lemma productController_delete_missing {env : Env} db id :
  uuid id = true ->
  product_findUnique_id id db = None ->
  productController.delete id db =
    (mkResponse 404
       (Some {| success := false; message := "Product not found";
                data := None; error := None; meta := None |}),
     db).
Proof.
  intros Hu Hp. unfold productController.delete.
  unfold productIdParamSchema_safeParse, zUuid. rewrite Hu.
  unfold productService.findById. now rewrite Hp.
Qed.

Lemma categoryController_delete_unreferenced {env : Env} db id c :
  uuid id = true ->
  category_findUnique_id id db = Some c ->
  (forall q, In q (products db) -> p_categoryId q <> id) ->
  categoryController.delete id db =
    (mkResponse 204 None,
     mkDb (filter (fun r => negb (String.eqb (c_id r) id)) (categories db))
          (products db)).
Proof.
  intros Hu Hc Hnone. unfold categoryController.delete.
  unfold categoryIdParamSchema_safeParse, zUuid. rewrite Hu.
  unfold categoryService.findById, categoryService.hasProducts.
  rewrite Hc. cbn [option_map].
  pose proof (product_count_zero id db Hnone) as Hz. rewrite Hz.
  cbn [Z.ltb Z.compare].
  unfold categoryService.delete, category_delete. rewrite Hc.
  assert (Hex : existsb (inCategory id) (products db) = false).
  { apply existsb_filter_nil. unfold product_count in Hz. lia. }
  now rewrite Hex.
Qed.

(** X5.  Deleting a product under a well-formed identifier: when the
    product exists the answer is 204, the row is gone, every other product
    and every category is kept, and a second delete of the same identifier
    is answered 404; when it does not exist the answer is 404 and nothing
    changes. *)
Theorem product_delete_then_gone {env : Env} (db : Db) (id : string) :
  uuid id = true ->
  (product_findUnique_id id db = None ->
   productController.delete id db =
     (mkResponse 404
        (Some {| success := false; message := "Product not found";
                 data := None; error := None; meta := None |}),
      db))
  /\
  (forall p,
     product_findUnique_id id db = Some p ->
     exists db',
       productController.delete id db = (mkResponse 204 None, db') /\
       product_findUnique_id id db' = None /\
       (forall id', id' <> id ->
          product_findUnique_id id' db' = product_findUnique_id id' db) /\
       categories db' = categories db /\
       productController.delete id db' =
         (mkResponse 404
            (Some {| success := false; message := "Product not found";
                     data := None; error := None; meta := None |}),
          db')).
Proof.
  intros Hu. split.
  - apply productController_delete_missing. exact Hu.
  - intros p Hp. eexists. split.
    + apply (productController_delete_found db id p Hu Hp).
    + assert (Hgone : product_findUnique_id id
                        (mkDb (categories db)
                           (filter (fun r => negb (String.eqb (p_id r) id))
                                   (products db))) = None)
        by apply (find_filter_gone p_id).
      split; [exact Hgone|]. split.
      * intros id' Hne. now apply (find_filter_other p_id).
      * split; [reflexivity|].
        apply productController_delete_missing; assumption.
Qed.

(** X6.  A category is blocked by its products and freed by their removal:
    while the product references it, deleting the category is answered
    409; once that product, the only one referencing it, has been deleted,
    deleting the category is answered 204 and the category is gone. *)
Theorem last_product_then_category (first second : Env) (db : Db)
    (c : Category) (p : Product) :
  category_findUnique_id (c_id c) db = Some c ->
  product_findUnique_id (p_id p) db = Some p ->
  p_categoryId p = c_id c ->
  (forall q, In q (products db) -> p_categoryId q = c_id c ->
             p_id q = p_id p) ->
  @uuid first (p_id p) = true ->
  @uuid first (c_id c) = true ->
  @uuid second (c_id c) = true ->
  statusCode (fst (@categoryController.delete first (c_id c) db)) = 409
  /\
  let db1 := snd (@productController.delete first (p_id p) db) in
  exists db2,
    @categoryController.delete second (c_id c) db1 = (mkResponse 204 None, db2)
    /\ category_findUnique_id (c_id c) db2 = None
    /\ products db2 = products db1.
Proof.
  intros Hc Hp Href Honly Hup Huc1 Huc2. split.
  - unfold categoryController.delete.
    unfold categoryIdParamSchema_safeParse, zUuid. rewrite Huc1.
    unfold categoryService.findById, categoryService.hasProducts.
    rewrite Hc. cbn [option_map].
    assert (Hn : 0 < product_count (inCategory (c_id c)) db).
    { apply product_count_positive. exists p. split; [|exact Href].
      unfold product_findUnique_id in Hp. now apply find_some in Hp. }
    apply Z.ltb_lt in Hn. now rewrite Hn.
  - cbv zeta.
    rewrite (@productController_delete_found first db (p_id p) p Hup Hp).
    cbn [snd]. eexists. split.
    + apply (@categoryController_delete_unreferenced second _ (c_id c) c Huc2).
      * exact Hc.
      * cbn [products]. intros q Hq Hqc.
        apply filter_In in Hq. destruct Hq as [Hin Hne].
        apply negb_true_iff, String.eqb_neq in Hne.
        apply Hne. now apply Honly.
    + split; [apply (find_filter_gone c_id) | reflexivity].
Qed.

Lemma product_update_run {env : Env} db id p w :
  product_findUnique_id id db = Some p ->
  stockRefused (pu_stock w) (p_stock p) = false ->
  pu_sku w = None -> pu_categoryId w = None ->
  product_update id w db =
    (Returned (applyProductUpdate w p),
     mkDb (categories db)
          (map (fun r => if String.eqb (p_id r) id
                         then applyProductUpdate w r else r)
               (products db))).
Proof.
  intros Hp Hr Hs Hc. unfold product_update. now rewrite Hp, Hr, Hs, Hc.
Qed.

Lemma product_found_after_update {env : Env} db id p w :
  product_findUnique_id id db = Some p ->
  product_findUnique_id id
    (mkDb (categories db)
       (map (fun r => if String.eqb (p_id r) id
                      then applyProductUpdate w r else r)
            (products db)))
  = Some (applyProductUpdate w p).
Proof.
  intros Hp. unfold product_findUnique_id in *. cbn [products].
  rewrite (find_patched p_id (applyProductUpdate w)
             (fun r => eq_refl)).
  now rewrite Hp.
Qed.

(** X7.  [updateStock] adds the signed quantity to the stored stock and
    checks no bound of its own; the only limit is that of the integer
    column.  While the quantities and the sums fit the column, two calls
    add up, and the stock goes below zero when the quantities say so; the
    other columns of the row keep their values ([updatedAt] apart, which
    is the ORM's) and the other rows are kept.  When the quantity or the
    sum does not fit the column, the ORM throws and nothing is written.
    On a missing product it throws the ORM's not-found error and writes
    nothing. *)
Theorem updateStock_adds {env : Env} (db : Db) (id : string) :
  (product_findUnique_id id db = None ->
   forall a,
     fitsInt a = true ->
     productService.updateStock id a db =
       (Thrown (knownRequestError "P2025" None), db))
  /\
  (forall p a b,
     product_findUnique_id id db = Some p ->
     fitsInt a = true -> fitsInt (p_stock p + a) = true ->
     fitsInt b = true -> fitsInt (p_stock p + (a + b)) = true ->
     let stocked (n : Z) :=
       mkProduct (p_id p) (p_name p) (p_description p) (p_price p) n
                 (p_sku p) (p_isActive p) (p_categoryId p) (p_createdAt p)
                 (if updatedAtAuto then now else p_updatedAt p) in
     exists db1 db2,
       productService.updateStock id a db
         = (Returned (stocked (p_stock p + a)), db1) /\
       productService.updateStock id b db1
         = (Returned (stocked (p_stock p + (a + b))), db2) /\
       product_findUnique_id id db2 = Some (stocked (p_stock p + (a + b))) /\
       (forall id', id' <> id ->
          product_findUnique_id id' db2 = product_findUnique_id id' db) /\
       categories db2 = categories db)
  /\
  (forall p a,
     product_findUnique_id id db = Some p ->
     fitsInt a = false \/ fitsInt (p_stock p + a) = false ->
     exists e, productService.updateStock id a db = (Thrown e, db)).
Proof.
  split; [|split].
  - intros Hn a _. unfold productService.updateStock, product_update.
    now rewrite Hn.
  - intros p a b Hp Fa Fsa Fb Fsb stocked.
    set (wa := mkProductUpdateData None None None (Some (StockIncrement a))
                 None None None).
    set (wb := mkProductUpdateData None None None (Some (StockIncrement b))
                 None None None).
    assert (Ea : applyProductUpdate wa p = stocked (p_stock p + a)).
    { unfold applyProductUpdate, stocked, touch. cbn.
      now rewrite andb_true_r. }
    assert (Eb : applyProductUpdate wb (stocked (p_stock p + a))
                 = stocked (p_stock p + (a + b))).
    { unfold applyProductUpdate, stocked, touch. cbn.
      rewrite andb_true_r, Z.add_assoc.
      now destruct updatedAtAuto. }
    assert (Ra : stockRefused (pu_stock wa) (p_stock p) = false).
    { cbn. now rewrite Fa, Fsa. }
    assert (Rb : stockRefused (pu_stock wb)
                   (p_stock (stocked (p_stock p + a))) = false).
    { cbn. rewrite Fb. now rewrite <- Z.add_assoc, Fsb. }
    pose proof (product_update_run db id p wa Hp Ra eq_refl eq_refl) as R1.
    pose proof (product_found_after_update db id p wa Hp) as F1.
    rewrite Ea in R1, F1.
    pose proof (product_update_run _ id _ wb F1 Rb eq_refl eq_refl) as R2.
    pose proof (product_found_after_update _ id _ wb F1) as F2.
    rewrite Eb in R2, F2.
    eexists _, _. split; [exact R1|]. split; [exact R2|].
    split; [exact F2|]. split; [|reflexivity].
    intros id' Hne. unfold product_findUnique_id. cbn [products].
    rewrite (find_patched_other p_id (applyProductUpdate wb)
               (fun r => eq_refl) id id' _ Hne).
    now rewrite (find_patched_other p_id (applyProductUpdate wa)
                   (fun r => eq_refl) id id' _ Hne).
  - intros p a Hp Hout. unfold productService.updateStock, product_update.
    rewrite Hp. cbn [pu_stock stockRefused].
    assert (E : (negb (fitsInt a) || negb (fitsInt (p_stock p + a)))%bool
                = true)
      by (destruct Hout as [-> | ->]; cbn; [reflexivity | apply orb_true_r]).
    rewrite E. eexists. reflexivity.
Qed.

Lemma toggleActive_run {env : Env} db id p :
  product_findUnique_id id db = Some p ->
  exists db',
    productService.toggleActive id db =
      (Returned
         (Some (mkProduct (p_id p) (p_name p) (p_description p) (p_price p)
                  (p_stock p) (p_sku p) (negb (p_isActive p))
                  (p_categoryId p) (p_createdAt p)
                  (if updatedAtAuto then now else p_updatedAt p))),
       db') /\
    product_findUnique_id id db' =
      Some (mkProduct (p_id p) (p_name p) (p_description p) (p_price p)
              (p_stock p) (p_sku p) (negb (p_isActive p))
              (p_categoryId p) (p_createdAt p)
              (if updatedAtAuto then now else p_updatedAt p)) /\
    (forall id', id' <> id ->
       product_findUnique_id id' db' = product_findUnique_id id' db) /\
    categories db' = categories db.
Proof.
  intros Hp.
  set (w := mkProductUpdateData None None None None None
              (Some (negb (p_isActive p))) None).
  assert (E : applyProductUpdate w p =
              mkProduct (p_id p) (p_name p) (p_description p) (p_price p)
                (p_stock p) (p_sku p) (negb (p_isActive p))
                (p_categoryId p) (p_createdAt p)
                (if updatedAtAuto then now else p_updatedAt p)).
  { unfold applyProductUpdate, touch. cbn. now rewrite andb_true_r. }
  pose proof (product_update_run db id p w Hp eq_refl eq_refl eq_refl) as R.
  pose proof (product_found_after_update db id p w Hp) as F.
  rewrite E in R, F.
  eexists. split.
  - unfold productService.toggleActive. rewrite Hp. fold w. now rewrite R.
  - split; [exact F|]. split; [|reflexivity].
    intros id' Hne. unfold product_findUnique_id. cbn [products].
    now rewrite (find_patched_other p_id (applyProductUpdate w)
                   (fun r => eq_refl) id id' _ Hne).
Qed.

(** X8.  Toggling a product twice gives its [isActive] flag back: after
    the second toggle the row is the one before the first with nothing
    changed but, where the ORM maintains it, [updatedAt]; the other
    products and the categories are as before. *)
Theorem toggleActive_twice (first second : Env) (db : Db) (id : string)
    (p : Product) :
  product_findUnique_id id db = Some p ->
  let db1 := snd (@productService.toggleActive first id db) in
  let db2 := snd (@productService.toggleActive second id db1) in
  product_findUnique_id id db2 =
    Some (stamped p
            (if @updatedAtAuto second then @now second
             else if @updatedAtAuto first then @now first
             else p_updatedAt p))
  /\ (forall id', id' <> id ->
        product_findUnique_id id' db2 = product_findUnique_id id' db)
  /\ categories db2 = categories db.
Proof.
  intros Hp db1 db2.
  destruct (@toggleActive_run first db id p Hp) as (d1 & R1 & F1 & O1 & C1).
  destruct (@toggleActive_run second d1 id _ F1) as (d2 & R2 & F2 & O2 & C2).
  assert (E1 : db1 = d1) by (unfold db1; now rewrite R1).
  assert (E2 : db2 = d2) by (unfold db2; rewrite E1; now rewrite R2).
  rewrite E2. split.
  - rewrite F2. cbn. rewrite negb_involutive. destruct p. reflexivity.
  - split.
    + intros id' Hne. now rewrite (O2 id' Hne), (O1 id' Hne).
    + now rewrite C2, C1.
Qed.


(* ================================================================== *)
(** ** Every route: the envelope, and what a failure leaves behind *)
(* ================================================================== *)

Section Routes.
Context {env : Env} {lib : Library}.

Lemma sent_sendSuccess {T} (d : T) m code mt :
  sent (sendSuccess d m code mt) = mkSent code (Some true) true false (isSome mt).
Proof. reflexivity. Qed.

Lemma sent_sendError {T} m code e :
  exists b, sent (@sendError T m code e) = mkSent code (Some false) false b false.
Proof. unfold sendError, sent. cbn. eauto. Qed.

Lemma errorHandler_status {T} (e : JsError) :
  exists code b,
    sent (@errorHandler env T e) = mkSent code (Some false) false b false /\
    (code = 400 \/ code = 404 \/ code = 500).
Proof.
  unfold errorHandler, sendBadRequest, sendNotFound, sendInternalError.
  destruct (isZodError e).
  { destruct (@sent_sendError T "Validation error" 400
                (Some (e_message e))) as [b ->]. eauto 6. }
  destruct (String.eqb (e_name e) "PrismaClientKnownRequestError").
  { destruct (e_code e) as [code|].
    - destruct (String.eqb code "P2002");
        [match goal with
         | |- context [sendError ?m 400 None] =>
             destruct (@sent_sendError T m 400 None) as [b ->]
         end; eauto 6|].
      destruct (String.eqb code "P2025");
        [destruct (@sent_sendError T "Record not found" 404 None) as [b ->];
         eauto 6|].
      destruct (String.eqb code "P2003");
        [destruct (@sent_sendError T "Referenced record does not exist"
                     400 None) as [b ->]; eauto 6|].
      destruct (@sent_sendError T "Internal server error" 500
                  (Some (Text "Database error occurred"))) as [b ->].
      eauto 7.
    - destruct (@sent_sendError T "Internal server error" 500
                  (Some (Text "Database error occurred"))) as [b ->].
      eauto 7. }
  destruct (String.eqb (e_name e) "PrismaClientValidationError").
  { destruct (@sent_sendError T "Invalid data provided" 400 None) as [b ->].
    eauto 6. }
  match goal with
  | |- context [sendError ?m 500 ?x] =>
      destruct (@sent_sendError T m 500 x) as [b ->]
  end.
  eauto 7.
Qed.

(** A write of the ORM that throws has written nothing. *)
Lemma thrown_writes_nothing (db db' : Db) (e : JsError) :
  (forall d, category_create d db = (Thrown e, db') -> db' = db) /\
  (forall id w, category_update id w db = (Thrown e, db') -> db' = db) /\
  (forall id, category_delete id db = (Thrown e, db') -> db' = db) /\
  (forall d, product_create d db = (Thrown e, db') -> db' = db) /\
  (forall id w, product_update id w db = (Thrown e, db') -> db' = db) /\
  (forall id, product_delete id db = (Thrown e, db') -> db' = db).
Proof.
  repeat split; intros *;
    unfold category_create, category_update, category_delete,
           product_create, product_update, product_delete;
    repeat match goal with
           | |- context [match ?x with _ => _ end] => destruct x
           end;
    intros H; inversion H; reflexivity.
Qed.

Lemma service_thrown_writes_nothing (db db' : Db) (e : JsError) :
  (forall d, categoryService.create d db = (Thrown e, db') -> db' = db) /\
  (forall id d, categoryService.update id d db = (Thrown e, db') -> db' = db) /\
  (forall id, categoryService.delete id db = (Thrown e, db') -> db' = db) /\
  (forall d, productService.create d db = (Thrown e, db') -> db' = db) /\
  (forall id d, productService.update id d db = (Thrown e, db') -> db' = db) /\
  (forall id, productService.delete id db = (Thrown e, db') -> db' = db) /\
  (forall id, productService.toggleActive id db = (Thrown e, db') -> db' = db).
Proof.
  destruct (thrown_writes_nothing db db' e) as (A & B & C & D & E & F).
  repeat split; intros *.
  - apply A.
  - apply B.
  - apply C.
  - unfold productService.create, including.
    destruct (product_create _ db) as [[r|e'] d'] eqn:H; intros [= <- <-].
    destruct (thrown_writes_nothing db d' e') as (_ & _ & _ & D' & _).
    exact (D' _ H).
  - unfold productService.update, including.
    destruct (product_update _ _ db) as [[r|e'] d'] eqn:H; intros [= <- <-].
    destruct (thrown_writes_nothing db d' e') as (_ & _ & _ & _ & E' & _).
    exact (E' _ _ H).
  - apply F.
  - unfold productService.toggleActive.
    destruct (product_findUnique_id _ db); [|discriminate].
    destruct (product_update _ _ db) as [[r|e'] d'] eqn:H; intros [= <- <-].
    destruct (thrown_writes_nothing db d' e') as (_ & _ & _ & _ & E' & _).
    exact (E' _ _ H).
Qed.

Lemma toggleActive_null_writes_nothing (db db' : Db) id :
  productService.toggleActive id db = (Returned None, db') -> db' = db.
Proof.
  unfold productService.toggleActive.
  destruct (product_findUnique_id id db); [|now intros [= <-]].
  destruct (product_update _ _ db) as [[r|e] d']; discriminate.
Qed.

Lemma orderly_success {T} db db' (d : T) m mt :
  orderly db (answered (sendSuccess d m 200 mt, db')).
Proof. split; cbn; [auto | lia]. Qed.

Lemma orderly_created {T} db db' (d : T) m :
  orderly db (answered (sendCreated d m, db')).
Proof. split; cbn; [auto | lia]. Qed.

Lemma orderly_noContent {T} db db' :
  orderly db (answered (@sendNoContent T, db')).
Proof. split; cbn; [auto | lia]. Qed.

Lemma orderly_badRequest {T} db m e :
  orderly db (answered (@sendBadRequest T m e, db)).
Proof.
  unfold answered, sendBadRequest. cbn [fst snd].
  destruct (@sent_sendError T m 400 e) as [b ->].
  split; cbn; auto.
Qed.

Lemma orderly_notFound {T} db m :
  orderly db (answered (@sendNotFound T m, db)).
Proof. split; cbn; auto. Qed.

Lemma orderly_conflict {T} db m :
  orderly db (answered (@sendConflict T m, db)).
Proof. split; cbn; auto 6. Qed.

Lemma orderly_next {T} db e :
  orderly db (answered (@next env T e db)).
Proof.
  unfold answered, next. cbn [fst snd].
  destruct (@errorHandler_status T e) as (code & b & -> & Hc).
  split; cbn; [|auto]. intuition.
Qed.

(** Takes a controller apart along its guards and closes each case with
    the fact about the helper that answers it. *)
Ltac by_guards :=
  repeat match goal with
         | |- context [match ?x with _ => _ end] => destruct x eqn:?
         | |- context [if ?x then _ else _] => destruct x eqn:?
         end;
  repeat match goal with
         | H : _ = (Thrown ?e, ?d) |- orderly ?db (answered (next ?e ?d)) =>
             let S := fresh in
             pose proof (service_thrown_writes_nothing db d e) as S;
             destruct S as (S1 & S2 & S3 & S4 & S5 & S6 & S7);
             first [ apply S1 in H | apply S2 in H | apply S3 in H
                   | apply S4 in H | apply S5 in H | apply S6 in H
                   | apply S7 in H ];
             subst d
         end;
  repeat match goal with
         | H : productService.toggleActive _ ?db = (Returned None, ?d) |- _ =>
             apply toggleActive_null_writes_nothing in H; subst d
         end;
  first [ apply orderly_success | apply orderly_created
        | apply orderly_noContent | apply orderly_badRequest
        | apply orderly_notFound | apply orderly_conflict
        | apply orderly_next ].

Lemma route_orderly (req : Request) (db : Db) : orderly db (route req db).
Proof.
  destruct req; unfold route.
  - unfold categoryController.getAll. by_guards.
  - unfold categoryController.getById. by_guards.
  - unfold categoryController.create. by_guards.
  - unfold categoryController.update. by_guards.
  - unfold categoryController.delete. by_guards.
  - unfold productController.getAll. by_guards.
  - unfold productController.getById. by_guards.
  - unfold productController.create. by_guards.
  - unfold productController.update. by_guards.
  - unfold productController.delete. by_guards.
  - unfold productController.toggleActive. by_guards.
Qed.

Lemma failure_badRequest {T} db m e :
  failure (fst (answered (@sendBadRequest T m e, db))).
Proof.
  unfold answered, sendBadRequest. cbn [fst].
  destruct (@sent_sendError T m 400 e) as [b ->].
  unfold failure. cbn. auto.
Qed.

Lemma failure_notFound {T} db m :
  failure (fst (answered (@sendNotFound T m, db))).
Proof. unfold failure. cbn. auto. Qed.

Lemma failure_conflict {T} db m :
  failure (fst (answered (@sendConflict T m, db))).
Proof. unfold failure. cbn. auto 6. Qed.

Lemma failure_next {T} db e :
  failure (fst (answered (@next env T e db))).
Proof.
  unfold answered, next. cbn [fst].
  destruct (@errorHandler_status T e) as (code & b & -> & Hc).
  unfold failure. cbn. intuition.
Qed.

Ltac by_shape :=
  repeat match goal with
         | |- context [match ?x with _ => _ end] => destruct x eqn:?
         | |- context [if ?x then _ else _] => destruct x eqn:?
         end;
  first [ left; reflexivity
        | right;
          first [ apply failure_badRequest | apply failure_notFound
                | apply failure_conflict | apply failure_next ] ].

(** X9.  Every route answers in the uniform envelope.  When it succeeds,
    the answer is the one of its kind: the two lists answer 200 with
    [success: true], data and metadata; reading, updating and toggling a
    row answer 200 with data and no metadata; creating a row answers 201
    with data; the two deletes answer 204 without a body; no success
    carries an error.  Otherwise the answer is a failure: 400, 404, 409 or
    500 with [success: false] and neither data nor metadata. *)
Theorem route_follows_envelope (req : Request) (db : Db) :
  fst (route req db) = successOf req \/ failure (fst (route req db)).
Proof.
  destruct req; unfold route, successOf.
  - unfold categoryController.getAll. by_shape.
  - unfold categoryController.getById. by_shape.
  - unfold categoryController.create. by_shape.
  - unfold categoryController.update. by_shape.
  - unfold categoryController.delete. by_shape.
  - unfold productController.getAll. by_shape.
  - unfold productController.getById. by_shape.
  - unfold productController.create. by_shape.
  - unfold productController.update. by_shape.
  - unfold productController.delete. by_shape.
  - unfold productController.toggleActive. by_shape.
Qed.

Lemma read_keeps_tables (req : Request) (db : Db) :
  isRead req = true -> snd (route req db) = db.
Proof.
  destruct req; try discriminate; intros _; unfold route.
  - unfold categoryController.getAll.
    destruct (categoryQuerySchema_safeParse query); [|reflexivity].
    now destruct (categoryService.findAll d db).
  - unfold categoryController.getById.
    destruct (categoryIdParamSchema_safeParse id); [|reflexivity].
    now destruct (categoryService.findById d db).
  - unfold productController.getAll.
    destruct (productQuerySchema_safeParse query); [|reflexivity].
    now destruct (productService.findAll d db).
  - unfold productController.getById.
    destruct (productIdParamSchema_safeParse id); [|reflexivity].
    now destruct (productService.findById d db).
Qed.

(** X10.  A request changes the tables only when it is a write that
    succeeds: a GET leaves them as they are whatever its answer, and so
    does every request answered 400, 404, 409 or 500. *)
Theorem only_successful_writes_change_tables (req : Request) (db : Db) :
  (isRead req = true -> snd (route req db) = db)
  /\ (400 <= sent_status (fst (route req db)) -> snd (route req db) = db)
  /\ (snd (route req db) <> db ->
      isRead req = false /\
      (sent_status (fst (route req db)) = 200 \/
       sent_status (fst (route req db)) = 201 \/
       sent_status (fst (route req db)) = 204)).
Proof.
  pose proof (route_orderly req db) as [He Hf].
  pose proof (read_keeps_tables req db) as Hr.
  split; [exact Hr|]. split; [exact Hf|].
  intros Hne. split.
  - destruct (isRead req); [now destruct Hne; apply Hr | reflexivity].
  - unfold envelope in He.
    destruct (sent_success (fst (route req db))) as [[|]|].
    + destruct He as [[H|H] _]; auto.
    + destruct He as [H _]. destruct Hne. apply Hf. lia.
    + auto.
Qed.

End Routes.

(* ================================================================== *)
(** ** The tables stay well formed *)
(* ================================================================== *)

Section Keys.
Context {A : Type} (key : A -> string).

Lemma find_none_key id rows :
  find (fun x => String.eqb (key x) id) rows = None ->
  ~ In id (map key rows).
Proof.
  induction rows as [|x rows IH]; simpl; [tauto|].
  destruct (String.eqb (key x) id) eqn:E; [discriminate|].
  intros H [Hx|Hin]; [|exact (IH H Hin)].
  apply String.eqb_neq in E. congruence.
Qed.

Lemma find_some_key id rows r :
  find (fun x => String.eqb (key x) id) rows = Some r ->
  In id (map key rows).
Proof.
  intros H. apply find_some in H. destruct H as [Hin He].
  apply String.eqb_eq in He. subst id. now apply in_map.
Qed.

Lemma NoDup_keys_filter (f : A -> bool) rows :
  NoDup (map key rows) -> NoDup (map key (filter f rows)).
Proof.
  induction rows as [|x rows IH]; simpl; [auto|].
  intros H. inversion H as [|k l Hnin Hnd]; subst.
  destruct (f x); simpl; [|auto].
  constructor; [|auto].
  intros Hin. apply Hnin. apply in_map_iff in Hin.
  destruct Hin as (y & Hy & Hf). apply filter_In in Hf.
  apply in_map_iff. exists y. tauto.
Qed.

Lemma NoDup_keys_same rows a b :
  NoDup (map key rows) -> In a rows -> In b rows -> key a = key b -> a = b.
Proof.
  induction rows as [|x rows IH]; simpl; [tauto|].
  intros H Ha Hb E. inversion H as [|k l Hnin Hnd]; subst.
  destruct Ha as [<-|Ha], Hb as [<-|Hb]; auto.
  - destruct Hnin. rewrite E. now apply in_map.
  - destruct Hnin. rewrite <- E. now apply in_map.
Qed.

Lemma patch_absent (f : A -> A) id rows :
  ~ In id (map key rows) ->
  map (fun x => if String.eqb (key x) id then f x else x) rows = rows.
Proof.
  induction rows as [|x rows IH]; simpl; [reflexivity|].
  intros H. destruct (String.eqb (key x) id) eqn:E.
  - apply String.eqb_eq in E. tauto.
  - rewrite IH; tauto.
Qed.

(** Patching the row of one key keeps a second column free of duplicates,
    provided the value it gets is not held by a row of another key. *)
Lemma NoDup_patched (field : A -> string) (f : A -> A) id rows :
  NoDup (map key rows) -> NoDup (map field rows) ->
  (forall r r', In r rows -> In r' rows -> key r = id -> key r' <> id ->
                field (f r) <> field r') ->
  NoDup (map field
           (map (fun x => if String.eqb (key x) id then f x else x) rows)).
Proof.
  induction rows as [|x rows IH]; simpl; [constructor|].
  intros Hk Hf Hfree.
  inversion Hk as [|k l Hkn Hkd]; subst.
  inversion Hf as [|k l Hfn Hfd]; subst.
  destruct (String.eqb (key x) id) eqn:E.
  - apply String.eqb_eq in E. rewrite patch_absent by congruence.
    constructor; [|exact Hfd].
    intros Hin. apply in_map_iff in Hin. destruct Hin as (y & Hy & Hin).
    apply (Hfree x y); auto.
    intros Hyid. apply Hkn. rewrite E, <- Hyid. now apply in_map.
  - apply String.eqb_neq in E. constructor.
    + intros Hin. apply in_map_iff in Hin. destruct Hin as (y & Hy & Hin).
      apply in_map_iff in Hin. destruct Hin as (r & Hr & Hin).
      destruct (String.eqb (key r) id) eqn:Er.
      * apply String.eqb_eq in Er. subst y.
        apply (Hfree r x); auto.
      * subst y. apply Hfn. rewrite <- Hy. now apply in_map.
    + apply IH; auto.
Qed.

End Keys.

Lemma NoDup_snoc {A} (l : list A) x :
  NoDup l -> ~ In x l -> NoDup (l ++ [x]).
Proof.
  intros Hl Hx. apply NoDup_app; [exact Hl | constructor; [intros [] | constructor] |].
  intros a Ha [<-|[]]. exact (Hx Ha).
Qed.

Lemma taken_by_other_false {A} (key field : A -> string) id n rows r' :
  existsb (fun x => (String.eqb (field x) n
                     && negb (String.eqb (key x) id))%bool) rows = false ->
  In r' rows -> key r' <> id -> field r' <> n.
Proof.
  intros Hex Hin Hne Hf.
  assert (existsb (fun x => (String.eqb (field x) n
                             && negb (String.eqb (key x) id))%bool) rows
          = true).
  { apply existsb_exists. exists r'. split; [exact Hin|].
    apply andb_true_intro. split.
    - now apply String.eqb_eq.
    - now apply negb_true_iff, String.eqb_neq. }
  congruence.
Qed.

Section Invariant.
Context {env : Env}.

Lemma category_create_well_formed d db o db' :
  wellFormed db -> category_create d db = (o, db') -> wellFormed db'.
Proof.
  intros W. unfold category_create.
  destruct (category_findUnique_id newId db) as [c0|] eqn:Ei; cbn [isSome];
    [now intros [= <- <-]|].
  destruct (category_findUnique_name (cc_name d) db) as [c1|] eqn:En; cbn [isSome];
    [now intros [= <- <-]|].
  intros [= <- <-]. destruct W as (W1 & W2 & W3 & W4 & W5).
  unfold wellFormed. cbn [categories products].
  rewrite !map_app. cbn [map c_id c_name].
  repeat split; auto.
  - apply NoDup_snoc; [exact W1 | now apply (find_none_key c_id)].
  - apply NoDup_snoc; [exact W2 | now apply (find_none_key c_name)].
  - intros p Hp. apply in_or_app. left. now apply W5.
Qed.

Lemma category_update_well_formed id w db o db' :
  wellFormed db -> category_update id w db = (o, db') -> wellFormed db'.
Proof.
  intros W. unfold category_update.
  destruct (category_findUnique_id id db) as [c0|] eqn:Ei; [|now intros [= <- <-]].
  destruct (match cu_name w with
            | Some n => nameTakenByOther id n db
            | None => false
            end) eqn:Et; [now intros [= <- <-]|].
  intros [= <- <-]. destruct W as (W1 & W2 & W3 & W4 & W5).
  unfold wellFormed. cbn [categories products].
  rewrite (keys_patched c_id (applyCategoryUpdate w)
             (fun r => eq_refl)).
  repeat split; auto.
  apply (NoDup_patched c_id c_name); auto.
  intros r r' Hr Hr' Hk Hk'. unfold applyCategoryUpdate. cbn [c_name].
  destruct (cu_name w) as [n|]; cbn [orElse].
  - intros Hn. symmetry in Hn. revert Hn.
    exact (taken_by_other_false c_id c_name id n _ r' Et Hr' Hk').
  - intros Hn. apply Hk'. rewrite <- Hk. f_equal.
    symmetry. exact (NoDup_keys_same c_name _ r r' W2 Hr Hr' Hn).
Qed.

Lemma category_delete_well_formed id db o db' :
  wellFormed db -> category_delete id db = (o, db') -> wellFormed db'.
Proof.
  intros W. unfold category_delete.
  destruct (category_findUnique_id id db) as [c0|] eqn:Ei; [|now intros [= <- <-]].
  destruct (existsb (inCategory id) (products db)) eqn:Ex;
    [now intros [= <- <-]|].
  intros [= <- <-]. destruct W as (W1 & W2 & W3 & W4 & W5).
  unfold wellFormed. cbn [categories products].
  repeat split; auto using NoDup_keys_filter.
  intros p Hp. specialize (W5 p Hp).
  apply in_map_iff in W5. destruct W5 as (c2 & Hc2 & Hin).
  apply in_map_iff. exists c2. split; [exact Hc2|].
  apply filter_In. split; [exact Hin|].
  apply negb_true_iff, String.eqb_neq. intros Hid.
  assert (existsb (inCategory id) (products db) = true).
  { apply existsb_exists. exists p. split; [exact Hp|].
    unfold inCategory. apply String.eqb_eq. congruence. }
  congruence.
Qed.

Lemma product_create_well_formed d db o db' :
  wellFormed db -> product_create d db = (o, db') -> wellFormed db'.
Proof.
  intros W. unfold product_create.
  destruct (negb (fitsInt (pc_stock d))); [now intros [= <- <-]|].
  destruct (product_findUnique_id newId db) as [p0|] eqn:Ei; cbn [isSome];
    [now intros [= <- <-]|].
  destruct (product_findUnique_sku (pc_sku d) db) as [p1|] eqn:Es; cbn [isSome];
    [now intros [= <- <-]|].
  destruct (category_findUnique_id (pc_categoryId d) db) as [c0|] eqn:Ec;
    cbn [isSome negb]; [|now intros [= <- <-]].
  intros [= <- <-]. destruct W as (W1 & W2 & W3 & W4 & W5).
  unfold wellFormed. cbn [categories products].
  rewrite !map_app. cbn [map p_id p_sku].
  repeat split; auto.
  - apply NoDup_snoc; [exact W3 | now apply (find_none_key p_id)].
  - apply NoDup_snoc; [exact W4 | now apply (find_none_key p_sku)].
  - intros p Hp. apply in_app_or in Hp. destruct Hp as [Hp|[<-|[]]].
    + now apply W5.
    + cbn [p_categoryId]. exact (find_some_key c_id _ _ _ Ec).
Qed.

Lemma product_update_well_formed id w db o db' :
  wellFormed db -> product_update id w db = (o, db') -> wellFormed db'.
Proof.
  intros W. unfold product_update.
  destruct (product_findUnique_id id db) as [p0|] eqn:Ei; [|now intros [= <- <-]].
  destruct (stockRefused (pu_stock w) (p_stock p0)); [now intros [= <- <-]|].
  destruct (match pu_sku w with
            | Some s => skuTakenByOther id s db
            | None => false
            end) eqn:Et; [now intros [= <- <-]|].
  destruct (match pu_categoryId w with
            | Some c => negb (isSome (category_findUnique_id c db))
            | None => false
            end) eqn:Ec; [now intros [= <- <-]|].
  intros [= <- <-]. destruct W as (W1 & W2 & W3 & W4 & W5).
  unfold wellFormed. cbn [categories products].
  rewrite (keys_patched p_id (applyProductUpdate w) (fun r => eq_refl)).
  repeat split; auto.
  - apply (NoDup_patched p_id p_sku); auto.
    intros r r' Hr Hr' Hk Hk'. unfold applyProductUpdate. cbn [p_sku].
    destruct (pu_sku w) as [n|]; cbn [orElse].
    + intros Hn. symmetry in Hn. revert Hn.
      exact (taken_by_other_false p_id p_sku id n _ r' Et Hr' Hk').
    + intros Hn. apply Hk'. rewrite <- Hk. f_equal.
      symmetry. exact (NoDup_keys_same p_sku _ r r' W4 Hr Hr' Hn).
  - intros p' Hp'. apply in_map_iff in Hp'. destruct Hp' as (r & Hr & Hin).
    destruct (String.eqb (p_id r) id); subst p'; [|now apply W5].
    unfold applyProductUpdate. cbn [p_categoryId].
    destruct (pu_categoryId w) as [c|]; cbn [orElse]; [|now apply W5].
    destruct (category_findUnique_id c db) as [c1|] eqn:Ef; [|discriminate].
    exact (find_some_key c_id _ _ _ Ef).
Qed.

Lemma product_delete_well_formed id db o db' :
  wellFormed db -> product_delete id db = (o, db') -> wellFormed db'.
Proof.
  intros W. unfold product_delete.
  destruct (product_findUnique_id id db) as [p0|] eqn:Ei; [|now intros [= <- <-]].
  intros [= <- <-]. destruct W as (W1 & W2 & W3 & W4 & W5).
  unfold wellFormed. cbn [categories products].
  repeat split; auto using NoDup_keys_filter.
  intros p Hp. apply filter_In in Hp. now apply W5.
Qed.

Lemma productService_create_well_formed d db o db' :
  wellFormed db -> productService.create d db = (o, db') -> wellFormed db'.
Proof.
  intros W. unfold productService.create, including.
  destruct (product_create _ db) as [[r|e] d'] eqn:H; intros [= <- <-];
    exact (product_create_well_formed _ _ _ _ W H).
Qed.

Lemma productService_update_well_formed id d db o db' :
  wellFormed db -> productService.update id d db = (o, db') -> wellFormed db'.
Proof.
  intros W. unfold productService.update, including.
  destruct (product_update _ _ db) as [[r|e] d'] eqn:H; intros [= <- <-];
    exact (product_update_well_formed _ _ _ _ _ W H).
Qed.

Lemma productService_toggleActive_well_formed id db o db' :
  wellFormed db -> productService.toggleActive id db = (o, db') ->
  wellFormed db'.
Proof.
  intros W. unfold productService.toggleActive.
  destruct (product_findUnique_id id db) as [p0|]; [|now intros [= <- <-]].
  destruct (product_update _ _ db) as [[r|e] d'] eqn:H; intros [= <- <-];
    exact (product_update_well_formed _ _ _ _ _ W H).
Qed.

(** Follows a controller along its guards to the tables it leaves. *)
Ltac tables_after W :=
  repeat match goal with
         | |- context [match ?x with _ => _ end] => destruct x eqn:?
         | |- context [if ?x then _ else _] => destruct x eqn:?
         end;
  cbn [answered next snd fst];
  first
    [ exact W
    | eapply (category_create_well_formed _ _ _ _ W); eassumption
    | eapply (category_update_well_formed _ _ _ _ _ W); eassumption
    | eapply (category_delete_well_formed _ _ _ _ W); eassumption
    | eapply (productService_create_well_formed _ _ _ _ W); eassumption
    | eapply (productService_update_well_formed _ _ _ _ _ W); eassumption
    | eapply (product_delete_well_formed _ _ _ _ W); eassumption
    | eapply (productService_toggleActive_well_formed _ _ _ _ W);
      eassumption ].

Lemma route_well_formed {lib : Library} (req : Request) (db : Db) :
  wellFormed db -> wellFormed (snd (route req db)).
Proof.
  intros W. destruct req; unfold route.
  - unfold categoryController.getAll. tables_after W.
  - unfold categoryController.getById. tables_after W.
  - unfold categoryController.create, categoryService.create.
    tables_after W.
  - unfold categoryController.update, categoryService.update.
    tables_after W.
  - unfold categoryController.delete, categoryService.delete.
    tables_after W.
  - unfold productController.getAll. tables_after W.
  - unfold productController.getById. tables_after W.
  - unfold productController.create. tables_after W.
  - unfold productController.update. tables_after W.
  - unfold productController.delete, productService.delete.
    tables_after W.
  - unfold productController.toggleActive. tables_after W.
Qed.

End Invariant.

(** X11.  Whatever requests are served, one after the other, tables that
    are well formed stay well formed: identifiers, category names and skus
    remain unique, and the category of every product still exists. *)
Theorem served_requests_keep_tables_well_formed {lib : Library}
    (requests : list (Env * Request)) (db : Db) :
  wellFormed db -> wellFormed (serve requests db).
Proof.
  revert db. induction requests as [|[env req] rest IH]; intros db W.
  - exact W.
  - cbn [serve]. apply IH. now apply route_well_formed.
Qed.


(* ================================================================== *)
(** ** The product list: filters and pages *)
(* ================================================================== *)

Lemma In_firstn {A} n (l : list A) x : In x (firstn n l) -> In x l.
Proof.
  revert l. induction n as [|n IH]; intros [|y l]; simpl; try tauto.
  intros [H|H]; auto.
Qed.

Lemma In_skipn {A} n (l : list A) x : In x (skipn n l) -> In x l.
Proof.
  revert l. induction n as [|n IH]; intros [|y l]; simpl; try tauto.
  intros H. right. now apply IH.
Qed.

Lemma In_insertBy {A} (le : A -> A -> bool) x y l :
  In x (insertBy le y l) <-> x = y \/ In x l.
Proof.
  induction l as [|z l IH]; simpl.
  - intuition.
  - destruct (le y z); simpl; [intuition | rewrite IH; intuition].
Qed.

Lemma In_orderBy {A} (le : A -> A -> bool) x l :
  In x (orderBy le l) <-> In x l.
Proof.
  induction l as [|y l IH]; simpl; [tauto|].
  rewrite In_insertBy, IH. intuition.
Qed.

Lemma truthy_iff s : Js.truthy s = true <-> s <> ""%string.
Proof. destruct s; simpl; split; intros; congruence. Qed.

Lemma gtb_leb_Fin x y :
  Js.leb (Js.Fin x) (Js.Fin y) = true <-> (x <= y)%Q.
Proof.
  simpl. rewrite negb_true_iff, negb_false_iff. apply Qle_bool_iff.
Qed.

Lemma productWhere_passes {env : Env} q p :
  productWhere q p = true -> passesFilters q p.
Proof.
  unfold productWhere, passesFilters.
  rewrite !andb_true_iff.
  intros ((((Hs & Hc) & Ha) & Hlo) & Hhi).
  repeat split.
  - intros c Hq Hne. rewrite Hq in Hc.
    apply truthy_iff in Hne. rewrite Hne in Hc. now apply String.eqb_eq.
  - intros a Hq. rewrite Hq in Ha. now apply Bool.eqb_prop.
  - intros lo Hq. rewrite Hq in Hlo. now apply gtb_leb_Fin.
  - intros hi Hq. rewrite Hq in Hhi. now apply gtb_leb_Fin.
Qed.

(** X14.  Every row of a product list is a row of the table, shown with
    its category, that passes the filters of the query: its category and
    its [isActive] flag are the ones asked for, and its price is within
    the bounds, both included, the bounds being the decimals the numbers
    of the query are written as.  (Which texts contain a search term is
    the database's to say.) *)
Theorem product_list_passes_filters {env : Env} (db : Db) (q : ProductQuery)
    (r : ProductWithCategory) :
  In r (fst (productService.findAll q db)) ->
  In (pwc_product r) (products db)
  /\ r = withCategory db (pwc_product r)
  /\ passesFilters q (pwc_product r).
Proof.
  unfold productService.findAll, findMany. cbn [fst].
  intros H. apply in_map_iff in H. destruct H as (p & <- & Hin).
  apply In_firstn, In_skipn, In_orderBy, filter_In in Hin.
  destruct Hin as [Hin Hw]. cbn [pwc_product withCategory].
  split; [exact Hin|]. split; [reflexivity|].
  now apply productWhere_passes in Hw.
Qed.

Lemma firstn_add {A} n m (l : list A) :
  firstn (n + m) l = firstn n l ++ firstn m (skipn n l).
Proof.
  revert l. induction n as [|n IH]; intros l; simpl; [reflexivity|].
  destruct l as [|x l]; simpl.
  - now rewrite firstn_nil.
  - now rewrite IH.
Qed.

Lemma pagesFrom_firstn {A} (k : Z) (count : nat) (size : Z) (rows : list A) :
  0 <= k -> 1 <= size ->
  pagesFrom (k + 1) count size rows
  = firstn (count * Z.to_nat size) (skipn (Z.to_nat (k * size)) rows).
Proof.
  revert k. induction count as [|c IH]; intros k Hk Hs; [reflexivity|].
  cbn [pagesFrom]. rewrite (IH (k + 1)) by lia.
  replace (k + 1 - 1) with k by lia.
  unfold pageOf.
  replace (Z.to_nat ((k + 1) * size))
    with (Z.to_nat size + Z.to_nat (k * size))%nat by nia.
  rewrite <- skipn_skipn.
  change (S c * Z.to_nat size)%nat with (Z.to_nat size + c * Z.to_nat size)%nat.
  now rewrite firstn_add.
Qed.

(** Rows whose keys are all different come out in one order, whatever the
    database does with equal keys. *)
Lemma insertBy_ties {A} (le ties : A -> A -> bool) x l :
  Forall (fun y => ~ (le x y = true /\ le y x = true)) l ->
  insertBy (breakingTies le ties) x l = insertBy le x l.
Proof.
  induction 1 as [|y l Hy Hl IH]; simpl; [reflexivity|].
  assert (E : breakingTies le ties x y = le x y).
  { unfold breakingTies. destruct (le x y) eqn:E1; [|reflexivity].
    destruct (le y x) eqn:E2; [|reflexivity]. now destruct Hy. }
  rewrite E, IH. reflexivity.
Qed.

Lemma orderBy_ties {A} (le ties : A -> A -> bool) l :
  ForallOrdPairs (fun a b => ~ (le a b = true /\ le b a = true)) l ->
  orderBy (breakingTies le ties) l = orderBy le l.
Proof.
  induction 1 as [|x l Hx Hl IH]; simpl; [reflexivity|].
  rewrite IH. apply insertBy_ties.
  apply Forall_forall. intros y Hy. apply In_orderBy in Hy.
  rewrite Forall_forall in Hx. now apply Hx.
Qed.

Lemma insertBy_Permutation {A} (le : A -> A -> bool) x l :
  Permutation (insertBy le x l) (x :: l).
Proof.
  induction l as [|y l IH]; simpl; [reflexivity|].
  destruct (le x y); [reflexivity|].
  rewrite IH. apply perm_swap.
Qed.

Lemma orderBy_Permutation {A} (le : A -> A -> bool) l :
  Permutation (orderBy le l) l.
Proof.
  induction l as [|x l IH]; simpl; [reflexivity|].
  rewrite insertBy_Permutation. now constructor.
Qed.

Lemma productWhere_same (e env : Env) q p :
  sameDatabase e env -> @productWhere e q p = @productWhere env q p.
Proof.
  intros [Hc _]. unfold productWhere. now rewrite Hc.
Qed.

Lemma productKeyLe_same (e env : Env) f o a b :
  sameDatabase e env -> @productKeyLe e f o a b = @productKeyLe env f o a b.
Proof.
  intros [_ Ht]. unfold productKeyLe, productLe. now rewrite Ht.
Qed.

Lemma insertBy_ext {A} (le le' : A -> A -> bool) x l :
  (forall a b, le a b = le' a b) -> insertBy le x l = insertBy le' x l.
Proof.
  intros H. induction l as [|y l IH]; simpl; [reflexivity|].
  now rewrite H, IH.
Qed.

Lemma orderBy_ext {A} (le le' : A -> A -> bool) l :
  (forall a b, le a b = le' a b) -> orderBy le l = orderBy le' l.
Proof.
  intros H. induction l as [|y l IH]; simpl; [reflexivity|].
  rewrite IH. now apply insertBy_ext.
Qed.

(** With keys all different, every request before the same database sees
    the matching rows in the same order. *)
Lemma ordered_matching_same (e env : Env) (q : ProductQuery) (k : Z)
    (db : Db) :
  sameDatabase e env ->
  @distinctKeys env (pq_sortBy q) (pq_sortOrder q)
    (filter (@productWhere env q) (products db)) ->
  orderBy (@productOrder e (pq_sortBy q) (pq_sortOrder q))
          (filter (@productWhere e (atPage q k)) (products db))
  = orderBy (@productKeyLe env (pq_sortBy q) (pq_sortOrder q))
            (filter (@productWhere env q) (products db)).
Proof.
  intros Hs Hd.
  assert (Ef : filter (@productWhere e (atPage q k)) (products db)
               = filter (@productWhere env q) (products db)).
  { apply filter_ext. intros p.
    now rewrite (productWhere_same e env _ p Hs). }
  rewrite Ef. unfold productOrder.
  rewrite (orderBy_ext
             (breakingTies (@productKeyLe e (pq_sortBy q) (pq_sortOrder q))
                           (@productTies e))
             (breakingTies (@productKeyLe env (pq_sortBy q) (pq_sortOrder q))
                           (@productTies e))).
  - now apply orderBy_ties.
  - intros a b. unfold breakingTies.
    now rewrite !(productKeyLe_same e env _ _ _ _ Hs).
Qed.

Lemma walk_pagesFrom {env : Env} (q : ProductQuery) (first : Z)
    (requests : list Env) (db : Db) :
  (forall e, In e requests -> sameDatabase e env) ->
  distinctKeys (pq_sortBy q) (pq_sortOrder q)
    (filter (productWhere q) (products db)) ->
  walk q first requests db
  = map (withCategory db)
        (pagesFrom first (List.length requests) (pq_limit q)
           (orderBy (productKeyLe (pq_sortBy q) (pq_sortOrder q))
                    (filter (productWhere q) (products db)))).
Proof.
  intros Hs Hd. revert first.
  induction requests as [|e rest IH]; intros first; [reflexivity|].
  cbn [walk pagesFrom List.length]. rewrite map_app.
  rewrite IH by (intros e' He'; apply Hs; now right).
  f_equal.
  unfold productService.findAll, findMany. cbn [fst].
  change (pq_page (atPage q first)) with first.
  change (pq_limit (atPage q first)) with (pq_limit q).
  change (pq_sortBy (atPage q first)) with (pq_sortBy q).
  change (pq_sortOrder (atPage q first)) with (pq_sortOrder q).
  rewrite (ordered_matching_same e env q first db
             (Hs e (or_introl eq_refl)) Hd).
  reflexivity.
Qed.

(** X15.  A client walks a product list from page 1 to page [totalPages],
    one request for each page, every request before the same database,
    which may order rows with equal keys differently each time.  When no
    two of the matching rows have equal sort keys, the pages are the
    consecutive slices of one ordered list: together they hold every
    matching row exactly once. *)
Theorem product_pages_cover_the_list {env : Env} (db : Db)
    (q : ProductQuery) (requests : list Env) :
  1 <= pq_limit q ->
  (forall e, In e requests -> sameDatabase e env) ->
  distinctKeys (pq_sortBy q) (pq_sortOrder q)
    (filter (productWhere q) (products db)) ->
  List.length requests
    = Z.to_nat (totalPages (snd (productService.findAll q db))) ->
  walk q 1 requests db
  = map (withCategory db)
        (orderBy (productKeyLe (pq_sortBy q) (pq_sortOrder q))
                 (filter (productWhere q) (products db)))
  /\ Permutation (walk q 1 requests db)
                 (map (withCategory db)
                      (filter (productWhere q) (products db))).
Proof.
  intros Hl Hs Hd Hn.
  assert (E : walk q 1 requests db
              = map (withCategory db)
                  (orderBy (productKeyLe (pq_sortBy q) (pq_sortOrder q))
                           (filter (productWhere q) (products db)))).
  { rewrite (walk_pagesFrom q 1 requests db Hs Hd). f_equal.
    rewrite (pagesFrom_firstn 0) by lia.
    cbn [Z.mul Z.to_nat skipn]. apply firstn_all2.
    rewrite Hn. unfold productService.findAll. cbn [snd totalPages].
    pose proof (ceilDiv_isCeiling
                  (product_count (productWhere q) db) (pq_limit q)
                  ltac:(lia)) as [_ Hc].
    unfold product_count in *. rewrite orderBy_length. nia. }
  split; [exact E|].
  rewrite E. apply Permutation_map, orderBy_Permutation.
Qed.

(* ================================================================== *)
(** ** What a validated body guarantees *)
(* ================================================================== *)

Lemma lengthList_app l1 l2 :
  Js.lengthList (l1 ++ l2) = (Js.lengthList l1 + Js.lengthList l2)%nat.
Proof.
  induction l1 as [|c l1 IH]; simpl; [reflexivity | rewrite IH; lia].
Qed.

Lemma lengthList_rev l : Js.lengthList (rev l) = Js.lengthList l.
Proof.
  induction l as [|c l IH]; simpl; [reflexivity|].
  rewrite lengthList_app, IH. simpl. lia.
Qed.

Lemma lengthList_skipn n l :
  (Js.lengthList (skipn n l) <= Js.lengthList l)%nat.
Proof.
  revert l. induction n as [|n IH]; intros [|c l]; simpl; try lia.
  specialize (IH l). lia.
Qed.

Lemma dropSpaces_length ahead fuel l :
  (Js.lengthList (Js.dropSpaces ahead fuel l) <= Js.lengthList l)%nat.
Proof.
  revert l. induction fuel as [|k IH]; intros l; cbn [Js.dropSpaces]; [lia|].
  destruct (ahead l) as [|n]; [lia|].
  specialize (IH (skipn (S n) l)).
  pose proof (lengthList_skipn (S n) l). lia.
Qed.

(** Trimming does not make a text longer. *)
Lemma trim_length t : (Js.length (Js.trim t) <= Js.length t)%nat.
Proof.
  unfold Js.length, Js.trim, Js.trimList, Js.dropWhiteSpace.
  rewrite list_ascii_of_string_of_list_ascii, lengthList_rev.
  set (l := list_ascii_of_string t).
  pose proof (dropSpaces_length Js.whiteSpaceAhead (List.length l) l) as H1.
  set (r := rev (Js.dropSpaces Js.whiteSpaceAhead (List.length l) l)) in *.
  pose proof (dropSpaces_length Js.whiteSpaceBehind (List.length r) r) as H2.
  assert (Hr : Js.lengthList r
               = Js.lengthList
                   (Js.dropSpaces Js.whiteSpaceAhead (List.length l) l))
    by apply lengthList_rev.
  lia.
Qed.

Lemma zString_valid lo m1 hi m2 v t :
  zString lo m1 hi m2 v = Valid t ->
  exists raw, v = Js.Str raw /\ t = Js.trim raw /\
              (lo <= Js.length raw <= hi)%nat.
Proof.
  unfold zString. destruct v as [| |b|n|raw|]; try discriminate.
  destruct (Nat.ltb (Js.length raw) lo) eqn:E1; [discriminate|].
  destruct (Nat.ltb hi (Js.length raw)) eqn:E2; [discriminate|].
  cbn [app]. intros [= <-]. exists raw.
  apply Nat.ltb_ge in E1, E2. auto.
Qed.

Lemma zString_bound lo m1 hi m2 v t :
  zString lo m1 hi m2 v = Valid t -> (Js.length t <= hi)%nat.
Proof.
  intros H. destruct (zString_valid _ _ _ _ _ _ H) as (raw & _ & -> & _ & Hh).
  pose proof (trim_length raw). lia.
Qed.

Lemma optionalNullable_bound lo m1 hi m2 v d t :
  optionalNullable (zString lo m1 hi m2) v = Valid d ->
  d = Some (Some t) -> (Js.length t <= hi)%nat.
Proof.
  unfold optionalNullable. intros H ->.
  destruct v as [| |b|n|raw|];
    try discriminate;
    match type of H with
    | match ?x with _ => _ end = _ => destruct x eqn:E; [|discriminate]
    end;
    injection H as <-; exact (zString_bound _ _ _ _ _ _ E).
Qed.

Section Validated.
Context {env : Env}.

Lemma zStock_valid v z : zStock v = Valid z -> 0 <= z.
Proof.
  unfold zStock. destruct v as [| |b|n|raw|]; try discriminate.
  - intros [= <-]. lia.
  - cbv zeta.
    destruct (negb (zNumberAccepts (Js.asDouble n))); [discriminate|].
    destruct (zInt (Js.asDouble n)); [|discriminate].
    destruct (Js.leb (Js.Fin 0) (Js.asDouble n)) eqn:El; [|discriminate].
    destruct (Js.asDouble n) as [|neg|q]; cbn [app]; try discriminate.
    intros [= <-]. apply leb_Fin in El.
    apply Qfloor_resp_le in El. exact El.
Qed.

Lemma parseFloat_double s q :
  Js.parseFloat s = Js.Fin q -> exists raw, Js.double raw = Js.Fin q.
Proof.
  unfold Js.parseFloat, Js.scanSigned.
  destruct (match Js.dropWhiteSpace (list_ascii_of_string s) with
            | [] => _
            | c :: r' => _
            end) as [neg r].
  destruct (Js.startsWith Js.infinityLit r); [discriminate|].
  destruct (Js.scanDecimal r) as [[x r']|]; [|discriminate].
  eauto.
Qed.

Lemma asDouble_double n q :
  Js.asDouble n = Js.Fin q -> exists raw, Js.double raw = Js.Fin q.
Proof. destruct n as [|neg|x]; try discriminate. cbn. eauto. Qed.

Lemma priceTransform_double v n q :
  priceTransform v = Returned n -> n = Js.Fin q ->
  exists raw, Js.double raw = Js.Fin q.
Proof.
  unfold priceTransform. intros H Hn.
  destruct v as [| |b|x|t|]; cbn in H; try discriminate.
  - destruct (Js.isNaN (Js.asDouble x)); [discriminate|].
    injection H as <-. now apply asDouble_double in Hn.
  - destruct (Js.isNaN (Js.parseFloat t)); [discriminate|].
    injection H as <-. now apply parseFloat_double in Hn.
Qed.

Lemma zPrice_valid v q :
  zPrice v = Returned (Valid q) ->
  (0 < q)%Q /\ (q <= priceLimit)%Q /\
  exists raw, Js.double raw = Js.Fin q.
Proof.
  unfold zPrice. intros H.
  assert (exists n, priceTransform v = Returned n /\ pricePipe n = Valid q)
    as (n & Ht & Hn).
  { destruct v as [| |b|n|raw|]; try discriminate.
    - destruct (zNumberAccepts (Js.asDouble n)); [|discriminate].
      destruct (priceTransform (Js.Num n)) as [n'|]; [|discriminate].
      injection H as H. eauto.
    - destruct (priceTransform (Js.Str raw)) as [n'|]; [|discriminate].
      injection H as H. eauto. }
  apply pricePipe_range in Hn. destruct Hn as (Hn & H0 & H1).
  split; [exact H0|]. split; [exact H1|].
  exact (priceTransform_double v n q Ht Hn).
Qed.

Lemma zUuid_valid m v t : zUuid m v = Valid t -> uuid t = true.
Proof.
  unfold zUuid. destruct v as [| |b|n|raw|]; try discriminate.
  destruct (uuid raw) eqn:E; [now intros [= <-] | discriminate].
Qed.

(** X16.  What passes the create schemas is within the bounds of the data
    model, lengths being counted as the code counts them, in UTF-16 code
    units: a product has a name of at most 200, a description of at most
    1000, a price that is a double above 0 and at most the double of
    99999999.99, a stock of at least 0, a sku of at most 50 and a category
    identifier the schema accepts; a category has a name of at most 100
    and a description of at most 500.  A lower bound on the length of a
    name is not among them: the length is checked before the text is
    trimmed, and a name made of a space is accepted and stored as the
    empty string. *)
Theorem validated_input_within_bounds :
  (forall reqBody d,
     createProductSchema_safeParse reqBody = Returned (ParseSuccess d) ->
     (Js.length (cpi_name d) <= 200)%nat /\
     (forall t, cpi_description d = Some (Some t) ->
                (Js.length t <= 1000)%nat) /\
     (0 < cpi_price d)%Q /\ (cpi_price d <= priceLimit)%Q /\
     (exists raw, Js.double raw = Js.Fin (cpi_price d)) /\
     0 <= cpi_stock d /\
     (Js.length (cpi_sku d) <= 50)%nat /\
     uuid (cpi_categoryId d) = true)
  /\
  (forall reqBody d,
     createCategorySchema_safeParse reqBody = ParseSuccess d ->
     (Js.length (cci_name d) <= 100)%nat /\
     (forall t, cci_description d = Some (Some t) ->
                (Js.length t <= 500)%nat))
  /\
  (exists d,
     createCategorySchema_safeParse
       (Some (mkCategoryBody (Js.Str " ") Js.Undefined)) = ParseSuccess d /\
     cci_name d = ""%string).
Proof.
  split; [|split].
  - intros reqBody d. unfold createProductSchema_safeParse.
    destruct reqBody as [o|]; [|discriminate].
    destruct (zPrice (pb_price o)) as [[q|]|] eqn:Ep; try discriminate.
    + destruct (zString 1 _ 200 _ (pb_name o)) eqn:En;
        destruct (optionalNullable _ (pb_description o)) eqn:Ed;
        destruct (zStock (pb_stock o)) eqn:Es;
        destruct (zString 1 _ 50 _ (pb_sku o)) eqn:Ek;
        destruct (zBooleanDefault true (pb_isActive o));
        destruct (zUuid _ (pb_categoryId o)) eqn:Eu;
        try discriminate.
      intros [= <-]. cbn.
      destruct (zPrice_valid _ _ Ep) as (Hp1 & Hp2 & Hp3).
      repeat split; auto.
      * exact (zString_bound _ _ _ _ _ _ En).
      * intros t Ht. exact (optionalNullable_bound _ _ _ _ _ _ _ Ed Ht).
      * exact (zStock_valid _ _ Es).
      * exact (zString_bound _ _ _ _ _ _ Ek).
      * exact (zUuid_valid _ _ _ Eu).
    + destruct (zString 1 _ 200 _ (pb_name o));
        destruct (optionalNullable _ (pb_description o));
        discriminate.
  - intros reqBody d. unfold createCategorySchema_safeParse.
    destruct reqBody as [o|]; [|discriminate].
    destruct (zString 1 _ 100 _ (cb_name o)) eqn:En;
      destruct (optionalNullable _ (cb_description o)) eqn:Ed;
      try discriminate.
    intros [= <-]. cbn. split.
    + exact (zString_bound _ _ _ _ _ _ En).
    + intros t Ht. exact (optionalNullable_bound _ _ _ _ _ _ _ Ed Ht).
  - eexists. split; reflexivity.
Qed.

End Validated.

(* ================================================================== *)
(** ** The update endpoints *)
(* ================================================================== *)

Section Updating.
Context {env : Env} {lib : Library}.

Lemma own_or_free_not_taken {A} (key field : A -> string) id n rows r :
  NoDup (map field rows) ->
  find (fun x => String.eqb (key x) id) rows = Some r ->
  n = field r \/ find (fun x => String.eqb (field x) n) rows = None ->
  existsb (fun x => (String.eqb (field x) n
                     && negb (String.eqb (key x) id))%bool) rows = false.
Proof.
  intros Hnd Hr Hn.
  destruct (existsb _ rows) eqn:E; [|reflexivity].
  apply existsb_exists in E. destruct E as (x & Hx & Hc).
  apply andb_true_iff in Hc. destruct Hc as [Hf Hk].
  apply String.eqb_eq in Hf. apply negb_true_iff, String.eqb_neq in Hk.
  pose proof (find_some _ _ Hr) as [Hin He]. apply String.eqb_eq in He.
  destruct Hn as [->|Hfree].
  - destruct Hk. rewrite (NoDup_keys_same field rows x r Hnd Hx Hin Hf).
    exact He.
  - destruct (find_none_key field n rows Hfree).
    rewrite <- Hf. now apply in_map.
Qed.

(** X17.  The category update endpoint, for a well-formed identifier and a
    valid body: 404 when the category does not exist; 409, with nothing
    written, when the body renames it to a name another category holds;
    otherwise, the tables being well formed and the new name being its own
    or free, 200 with the row in which exactly the supplied fields have
    changed. *)
Theorem category_update_endpoint (db : Db) (id : string)
    (reqBody : option CategoryBody) (d : UpdateCategoryInput) :
  uuid id = true ->
  updateCategorySchema_safeParse reqBody = ParseSuccess d ->
  (category_findUnique_id id db = None ->
   categoryController.update id reqBody db =
     (mkResponse 404
        (Some {| success := false; message := "Category not found";
                 data := None; error := None; meta := None |}),
      db))
  /\
  (forall c,
     category_findUnique_id id db = Some c ->
     (forall n other,
        uci_name d = Some n -> n <> ""%string -> n <> c_name c ->
        category_findUnique_name n db = Some other ->
        categoryController.update id reqBody db =
          (mkResponse 409
             (Some {| success := false;
                      message := "Category with this name already exists";
                      data := None; error := None; meta := None |}),
           db))
     /\
     (wellFormed db ->
      (forall n, uci_name d = Some n ->
                 n = c_name c \/ category_findUnique_name n db = None) ->
      exists c' db',
        categoryController.update id reqBody db =
          (mkResponse 200
             (Some {| success := true;
                      message := "Category updated successfully";
                      data := Some c'; error := None; meta := None |}),
           db') /\
        categoryPatched d c c' /\
        category_findUnique_id id db' = Some c' /\
        products db' = products db)).
Proof.
  intros Hu Hparse.
  assert (Hid : categoryIdParamSchema_safeParse id = ParseSuccess id).
  { unfold categoryIdParamSchema_safeParse, zUuid. now rewrite Hu. }
  split.
  - intros Hn. unfold categoryController.update.
    rewrite Hid, Hparse. unfold categoryService.findById. now rewrite Hn.
  - intros c Hc. split.
    + intros n other Hname Hne Hdiff Hother.
      unfold categoryController.update.
      rewrite Hid, Hparse. unfold categoryService.findById. rewrite Hc.
      cbn [option_map cwc_category withProductCount].
      unfold categoryController.duplicateName. rewrite Hname.
      apply truthy_iff in Hne. rewrite Hne.
      apply String.eqb_neq in Hdiff. rewrite Hdiff. cbn [negb andb].
      unfold categoryService.findByName. now rewrite Hother.
    + intros W Hfree.
      assert (Hdup : categoryController.duplicateName d c db = None).
      { unfold categoryController.duplicateName.
        destruct (uci_name d) as [n|] eqn:En; [|reflexivity].
        destruct (Hfree n eq_refl) as [->|Hnone].
        - rewrite String.eqb_refl. cbn. now rewrite andb_false_r.
        - unfold categoryService.findByName. rewrite Hnone.
          now destruct (Js.truthy n && negb (String.eqb n (c_name c)))%bool. }
      assert (Hfree' : match uci_name d with
                       | Some n => nameTakenByOther id n db
                       | None => false
                       end = false).
      { destruct (uci_name d) as [n|] eqn:En; [|reflexivity].
        destruct W as (_ & W2 & _).
        exact (own_or_free_not_taken c_id c_name id n _ c W2 Hc
                 (Hfree n eq_refl)). }
      set (w := mkCategoryUpdateData (uci_name d) (uci_description d)).
      exists (applyCategoryUpdate w c). eexists. split.
      * unfold categoryController.update.
        rewrite Hid, Hparse. unfold categoryService.findById. rewrite Hc.
        cbn [option_map cwc_category withProductCount]. rewrite Hdup.
        unfold categoryService.update, category_update. rewrite Hc.
        cbn [cu_name]. rewrite Hfree'. reflexivity.
      * split.
        { unfold categoryPatched, applyCategoryUpdate, w. cbn.
          repeat split; apply written_orElse. }
        split; [|reflexivity].
        unfold category_findUnique_id in *. cbn [categories].
        rewrite (find_patched c_id (applyCategoryUpdate w)
                   (fun r => eq_refl)).
        now rewrite Hc.
Qed.

Lemma updateProductSchema_price_throws (o : ProductBody) t :
  pb_price o = Js.Str t -> Js.parseFloat t = Js.NaN ->
  updateProductSchema_safeParse (Some o)
  = Thrown (plainError "Invalid price format").
Proof.
  intros Hp Hn. unfold updateProductSchema_safeParse, zPriceOptional.
  rewrite Hp. unfold zPrice, priceTransform. now rewrite Hn.
Qed.

(** X18.  The product update endpoint, for a well-formed identifier.  A
    string price with no numeric prefix is answered 500, as on create.
    For a valid body: 404 when the product does not exist; 400, with
    nothing written, when the body names a category that does not exist;
    409, with nothing written, when it changes the sku to one another
    product holds; otherwise, the category existing and the new sku being
    its own or free: 200 with the row in which exactly the fields of the
    validated input have changed when the tables are well formed and the
    integer column can hold the stock, and 500 with nothing written when
    it cannot. *)
Theorem product_update_endpoint (db : Db) (id : string) :
  uuid id = true ->
  (forall o t,
     pb_price o = Js.Str t -> Js.parseFloat t = Js.NaN ->
     statusCode (fst (productController.update id (Some o) db)) = 500 /\
     snd (productController.update id (Some o) db) = db)
  /\
  (forall reqBody d,
     updateProductSchema_safeParse reqBody = Returned (ParseSuccess d) ->
     (product_findUnique_id id db = None ->
      productController.update id reqBody db =
        (mkResponse 404
           (Some {| success := false; message := "Product not found";
                    data := None; error := None; meta := None |}),
         db))
     /\
     (forall p,
        product_findUnique_id id db = Some p ->
        (forall c,
           upi_categoryId d = Some c -> c <> ""%string ->
           category_findUnique_id c db = None ->
           productController.update id reqBody db =
             (mkResponse 400
                (Some {| success := false; message := "Category not found";
                         data := None; error := None; meta := None |}),
              db))
        /\
        (forall s other,
           (forall c, upi_categoryId d = Some c ->
                      isSome (category_findUnique_id c db) = true) ->
           upi_sku d = Some s -> s <> ""%string -> s <> p_sku p ->
           product_findUnique_sku s db = Some other ->
           productController.update id reqBody db =
             (mkResponse 409
                (Some {| success := false;
                         message := "Product with this SKU already exists";
                         data := None; error := None; meta := None |}),
              db))
        /\
        (wellFormed db ->
         (forall c, upi_categoryId d = Some c ->
                    isSome (category_findUnique_id c db) = true) ->
         (forall s, upi_sku d = Some s ->
                    s = p_sku p \/ product_findUnique_sku s db = None) ->
         (forall v, upi_stock d = Some v -> fitsInt v = true) ->
         exists p' db',
           productController.update id reqBody db =
             (mkResponse 200
                (Some {| success := true;
                         message := "Product updated successfully";
                         data := Some (withCategory db' p');
                         error := None; meta := None |}),
              db') /\
           productPatched d p p' /\
           product_findUnique_id id db' = Some p' /\
           categories db' = categories db)
        /\
        ((forall c, upi_categoryId d = Some c ->
                    isSome (category_findUnique_id c db) = true) ->
         (forall s, upi_sku d = Some s ->
                    s = p_sku p \/ product_findUnique_sku s db = None) ->
         forall v, upi_stock d = Some v -> fitsInt v = false ->
         statusCode (fst (productController.update id reqBody db)) = 500 /\
         snd (productController.update id reqBody db) = db))).
Proof.
  intros Hu.
  assert (Hid : productIdParamSchema_safeParse id = ParseSuccess id).
  { unfold productIdParamSchema_safeParse, zUuid. now rewrite Hu. }
  split.
  - intros o t Hp Hn. unfold productController.update.
    rewrite Hid, (updateProductSchema_price_throws o t Hp Hn).
    split; reflexivity.
  - intros reqBody d Hparse. split.
    + intros Hn. unfold productController.update.
      rewrite Hid, Hparse. unfold productService.findById. now rewrite Hn.
    + intros p Hp.
      assert (Hmiss : (forall c, upi_categoryId d = Some c ->
                         isSome (category_findUnique_id c db) = true) ->
                      productController.missingCategory d db = false).
      { intros Hcat. unfold productController.missingCategory.
        destruct (upi_categoryId d) as [c|]; [|reflexivity].
        unfold categoryService.findById.
        specialize (Hcat c eq_refl).
        destruct (category_findUnique_id c db); [|discriminate].
        now destruct (Js.truthy c). }
      assert (Hnodup : (forall s, upi_sku d = Some s ->
                          s = p_sku p \/ product_findUnique_sku s db = None) ->
                       productController.duplicateSku d p db = None).
      { intros Hfree. unfold productController.duplicateSku.
        destruct (upi_sku d) as [s|] eqn:Es; [|reflexivity].
        destruct (Hfree s eq_refl) as [->|Hnone].
        - rewrite String.eqb_refl. cbn. now rewrite andb_false_r.
        - unfold productService.findBySku. rewrite Hnone.
          now destruct (Js.truthy s && negb (String.eqb s (p_sku p)))%bool. }
      split; [|split; [|split]].
      4:{ intros Hcat Hfree v Hv Hfit. unfold productController.update.
          rewrite Hid, Hparse. unfold productService.findById. rewrite Hp.
          cbn [option_map]. rewrite (Hmiss Hcat).
          cbn [pwc_product withCategory]. rewrite (Hnodup Hfree).
          unfold productService.update, product_update. rewrite Hp.
          cbn [pu_stock]. rewrite Hv. cbn [option_map stockRefused].
          rewrite Hfit. split; reflexivity. }
      * intros c Hc Hne Hnone. unfold productController.update.
        rewrite Hid, Hparse. unfold productService.findById. rewrite Hp.
        cbn [option_map].
        unfold productController.missingCategory. rewrite Hc.
        apply truthy_iff in Hne. rewrite Hne.
        unfold categoryService.findById. now rewrite Hnone.
      * intros s other Hcat Hs Hne Hdiff Hother.
        unfold productController.update.
        rewrite Hid, Hparse. unfold productService.findById. rewrite Hp.
        cbn [option_map]. rewrite (Hmiss Hcat).
        cbn [pwc_product withCategory].
        unfold productController.duplicateSku. rewrite Hs.
        apply truthy_iff in Hne. rewrite Hne.
        apply String.eqb_neq in Hdiff. rewrite Hdiff. cbn [negb andb].
        unfold productService.findBySku. now rewrite Hother.
      * intros W Hcat Hfree Hfit.
        pose proof (Hnodup Hfree) as Hdup.
        assert (Hfit' : stockRefused (option_map StockSet (upi_stock d))
                          (p_stock p) = false).
        { rewrite stockRefused_set.
          destruct (upi_stock d) as [v|]; [|reflexivity].
          now rewrite (Hfit v eq_refl). }
        assert (Hfree' : match upi_sku d with
                         | Some s => skuTakenByOther id s db
                         | None => false
                         end = false).
        { destruct (upi_sku d) as [s|] eqn:Es; [|reflexivity].
          destruct W as (_ & _ & _ & W4 & _).
          exact (own_or_free_not_taken p_id p_sku id s _ p W4 Hp
                   (Hfree s eq_refl)). }
        assert (Hcat' : match upi_categoryId d with
                        | Some c =>
                            negb (isSome (category_findUnique_id c db))
                        | None => false
                        end = false).
        { destruct (upi_categoryId d) as [c|] eqn:Ec; [|reflexivity].
          now rewrite (Hcat c eq_refl). }
        set (w := mkProductUpdateData (upi_name d) (upi_description d)
                    (upi_price d) (option_map StockSet (upi_stock d))
                    (upi_sku d) (upi_isActive d) (upi_categoryId d)).
        exists (applyProductUpdate w p). eexists. split.
        -- unfold productController.update.
           rewrite Hid, Hparse. unfold productService.findById. rewrite Hp.
           cbn [option_map]. rewrite (Hmiss Hcat).
           cbn [pwc_product withCategory]. rewrite Hdup.
           unfold productService.update, product_update. rewrite Hp.
           cbn [pu_stock pu_sku pu_categoryId]. rewrite Hfit', Hfree', Hcat'.
           reflexivity.
        -- split.
           { unfold productPatched, applyProductUpdate, w. cbn.
             repeat split; try apply written_orElse.
             destruct (upi_stock d); reflexivity. }
           split; [|reflexivity].
           unfold product_findUnique_id in *. cbn [products].
           rewrite (find_patched p_id (applyProductUpdate w)
                      (fun r => eq_refl)).
           now rewrite Hp.
Qed.

Lemma taken_by_other_true {A} (key field : A -> string) id n rows other :
  In other rows -> field other = n -> key other <> id ->
  existsb (fun x => (String.eqb (field x) n
                     && negb (String.eqb (key x) id))%bool) rows = true.
Proof.
  intros Hin Hf Hk. apply existsb_exists. exists other. split; [exact Hin|].
  apply andb_true_intro. split.
  - now apply String.eqb_eq.
  - now apply negb_true_iff, String.eqb_neq.
Qed.

(** X19.  A new name or sku that is empty once trimmed escapes the
    duplicate check of the update controllers, which test the text for
    truthiness first; when another row holds the empty name or sku, the
    unique column refuses the write, the ORM's error reaches the central
    handler, and the conflict is answered 400, not 409, with nothing
    written and with a message that names no column: the error of this
    client carries no target, and the handler says [field]. *)
Theorem empty_text_conflict_is_400 (db : Db) (id : string) :
  uuid id = true ->
  (forall reqBody d c other,
     updateCategorySchema_safeParse reqBody = ParseSuccess d ->
     uci_name d = Some ""%string ->
     category_findUnique_id id db = Some c ->
     In other (categories db) -> c_name other = ""%string ->
     c_id other <> id ->
     categoryController.update id reqBody db =
       (mkResponse 400
          (Some {| success := false;
                   message := "A record with this field already exists";
                   data := None; error := None; meta := None |}),
        db))
  /\
  (forall reqBody d p other,
     updateProductSchema_safeParse reqBody = Returned (ParseSuccess d) ->
     upi_sku d = Some ""%string ->
     (forall c, upi_categoryId d = Some c ->
                isSome (category_findUnique_id c db) = true) ->
     (forall v, upi_stock d = Some v -> fitsInt v = true) ->
     product_findUnique_id id db = Some p ->
     In other (products db) -> p_sku other = ""%string ->
     p_id other <> id ->
     productController.update id reqBody db =
       (mkResponse 400
          (Some {| success := false;
                   message := "A record with this field already exists";
                   data := None; error := None; meta := None |}),
        db)).
Proof.
  intros Hu. split.
  - intros reqBody d c other Hparse Hname Hc Hin Hempty Hne.
    unfold categoryController.update.
    unfold categoryIdParamSchema_safeParse, zUuid. rewrite Hu, Hparse.
    unfold categoryService.findById. rewrite Hc.
    cbn [option_map cwc_category withProductCount].
    unfold categoryController.duplicateName. rewrite Hname. cbn [Js.truthy andb].
    unfold categoryService.update, category_update. rewrite Hc.
    cbn [cu_name]. rewrite Hname.
    unfold nameTakenByOther.
    rewrite (taken_by_other_true c_id c_name id "" _ other Hin Hempty Hne).
    reflexivity.
  - intros reqBody d p other Hparse Hsku Hcat Hfit Hp Hin Hempty Hne.
    unfold productController.update.
    unfold productIdParamSchema_safeParse, zUuid. rewrite Hu, Hparse.
    unfold productService.findById. rewrite Hp. cbn [option_map].
    assert (Hmiss : productController.missingCategory d db = false).
    { unfold productController.missingCategory.
      destruct (upi_categoryId d) as [c|]; [|reflexivity].
      unfold categoryService.findById.
      specialize (Hcat c eq_refl).
      destruct (category_findUnique_id c db); [|discriminate].
      now destruct (Js.truthy c). }
    rewrite Hmiss. cbn [pwc_product withCategory].
    unfold productController.duplicateSku. rewrite Hsku. cbn [Js.truthy andb].
    unfold productService.update, product_update. rewrite Hp.
    cbn [pu_stock pu_sku]. rewrite stockRefused_set.
    replace (match upi_stock d with
             | Some v => fitsInt v
             | None => true
             end) with true
      by (destruct (upi_stock d) as [v|];
          [now rewrite (Hfit v eq_refl) | reflexivity]).
    cbn [negb]. rewrite Hsku.
    unfold skuTakenByOther.
    rewrite (taken_by_other_true p_id p_sku id "" _ other Hin Hempty Hne).
    reflexivity.
Qed.

End Updating.

(* ================================================================== *)
(** ** One count, three endpoints *)
(* ================================================================== *)

(** X20.  The number of products a category is shown with is the number
    that decides its deletion and the total of the product list filtered
    by that category: the category can be deleted (204) exactly when the
    get-by-id endpoint shows it with no product, is refused (409) exactly
    when it shows at least one, and the product list asked for that
    category alone reports the same number as its total. *)
Theorem product_count_agrees {env : Env} (db : Db) (c : Category) :
  category_findUnique_id (c_id c) db = Some c ->
  uuid (c_id c) = true ->
  c_id c <> ""%string ->
  exists n,
    categoryController.getById (c_id c) db =
      (mkResponse 200
         (Some {| success := true;
                  message := "Category retrieved successfully";
                  data := Some (mkCategoryWithProductCount c n);
                  error := None; meta := None |}),
       db)
    /\ 0 <= n
    /\ (n = 0 <->
        statusCode (fst (categoryController.delete (c_id c) db)) = 204)
    /\ (0 < n <->
        statusCode (fst (categoryController.delete (c_id c) db)) = 409)
    /\ (forall page limit sortBy sortOrder,
          total (snd (productService.findAll
                        (mkProductQuery page limit None (Some (c_id c))
                           None None None sortBy sortOrder) db)) = n).
Proof.
  intros Hc Hu Hne.
  exists (product_count (inCategory (c_id c)) db).
  assert (Hid : categoryIdParamSchema_safeParse (c_id c)
                = ParseSuccess (c_id c)).
  { unfold categoryIdParamSchema_safeParse, zUuid. now rewrite Hu. }
  assert (Hdel : categoryController.delete (c_id c) db =
                 if 0 <? product_count (inCategory (c_id c)) db
                 then (sendConflict
                         "Cannot delete category with associated products",
                       db)
                 else match categoryService.delete (c_id c) db with
                      | (Returned _, db') => (sendNoContent, db')
                      | (Thrown e, db') => next e db'
                      end).
  { unfold categoryController.delete. rewrite Hid.
    unfold categoryService.findById. rewrite Hc. reflexivity. }
  split; [|split; [unfold product_count; lia|]].
  - unfold categoryController.getById. rewrite Hid.
    unfold categoryService.findById. rewrite Hc. reflexivity.
  - split; [|split].
    + rewrite Hdel. split.
      * intros Hz. rewrite Hz. cbn [Z.ltb Z.compare].
        unfold categoryService.delete, category_delete. rewrite Hc.
        assert (Hex : existsb (inCategory (c_id c)) (products db) = false).
        { apply existsb_filter_nil. unfold product_count in Hz. lia. }
        now rewrite Hex.
      * destruct (0 <? product_count (inCategory (c_id c)) db) eqn:E.
        -- cbn. discriminate.
        -- intros _. apply Z.ltb_ge in E. unfold product_count in *. lia.
    + rewrite Hdel. split.
      * intros Hp. apply Z.ltb_lt in Hp. now rewrite Hp.
      * destruct (0 <? product_count (inCategory (c_id c)) db) eqn:E.
        -- intros _. now apply Z.ltb_lt.
        -- apply Z.ltb_ge in E.
           assert (Hz : product_count (inCategory (c_id c)) db = 0)
             by (unfold product_count in *; lia).
           unfold categoryService.delete, category_delete. rewrite Hc.
           assert (Hex : existsb (inCategory (c_id c)) (products db) = false).
           { apply existsb_filter_nil. unfold product_count in Hz. lia. }
           rewrite Hex. cbn. discriminate.
    + intros page limit sortBy sortOrder.
      unfold productService.findAll. cbn [snd total pq_categoryId].
      unfold product_count. do 2 f_equal.
      apply filter_ext. intros p. unfold productWhere, inCategory. cbn.
      apply truthy_iff in Hne. rewrite Hne. now rewrite !andb_true_r.
Qed.


(* ================================================================== *)
(** ** The statements at work on the sample catalog *)
(* ================================================================== *)

#[local] Existing Instance sampleEnv.
#[local] Existing Instance sampleLibrary.

Lemma create_existing_sku_witness :
  (createProductSchema_safeParse
     (Some (productBody (Js.Str "19.5") " X-1 " booksId))
   = Returned (ParseSuccess
       (mkCreateProductInput "Pen" None (39 # 2) 0 "X-1" true booksId))
   /\ product_findUnique_sku "X-1" sampleDb = Some novel)
  /\ snd (productController.create
            (Some (productBody (Js.Str "19.5") " X-1 " booksId)) sampleDb)
     = sampleDb
  /\ statusCode
       (fst (productController.create
               (Some (productBody (Js.Str "19.5") " X-1 " booksId))
               sampleDb))
     = 409.
Proof.
  assert (Hparse :
    createProductSchema_safeParse
      (Some (productBody (Js.Str "19.5") " X-1 " booksId))
    = Returned (ParseSuccess
        (mkCreateProductInput "Pen" None (39 # 2) 0 "X-1" true booksId)))
    by (vm_compute; reflexivity).
  assert (Hsku : product_findUnique_sku "X-1" sampleDb = Some novel)
    by reflexivity.
  split; [split; assumption|].
  destruct (create_existing_sku sampleDb _ _ novel Hparse Hsku)
    as [Hdb [Hconflict _]].
  split; [exact Hdb|].
  rewrite (Hconflict eq_refl). reflexivity.
Defined.

(** C1, as stated, fails here: the product [novel] holds sku [X-1], and a
    valid create request with that sku whose category does not exist is
    answered 400, not 409. *)
Lemma create_existing_sku_missing_category :
  product_findUnique_sku "X-1" sampleDb = Some novel
  /\ createProductSchema_safeParse
       (Some (productBody (Js.Num (Js.Fin 5)) "X-1" ghostId))
     = Returned (ParseSuccess
         (mkCreateProductInput "Pen" None 5 0 "X-1" true ghostId))
  /\ statusCode
       (fst (productController.create
               (Some (productBody (Js.Num (Js.Fin 5)) "X-1" ghostId))
               sampleDb))
     = 400
  /\ statusCode
       (fst (productController.create
               (Some (productBody (Js.Num (Js.Fin 5)) "X-1" ghostId))
               sampleDb))
     <> 409.
Proof.
  repeat split; try reflexivity. vm_compute. discriminate.
Qed.

Lemma category_delete_guarded_witness :
  (category_findUnique_id (c_id books) sampleDb = Some books
   /\ uuid (c_id books) = true
   /\ (exists p, In p (products sampleDb) /\ p_categoryId p = c_id books)
   /\ category_findUnique_id (c_id games) sampleDb = Some games
   /\ uuid (c_id games) = true
   /\ (forall p, In p (products sampleDb) -> p_categoryId p <> c_id games))
  /\ snd (categoryController.delete (c_id books) sampleDb) = sampleDb
  /\ statusCode (fst (categoryController.delete (c_id books) sampleDb)) = 409
  /\ statusCode (fst (categoryController.delete (c_id games) sampleDb)) = 204
  /\ category_findUnique_id (c_id games)
       (snd (categoryController.delete (c_id games) sampleDb)) = None.
Proof.
  assert (Hbooks : category_findUnique_id (c_id books) sampleDb = Some books)
    by reflexivity.
  assert (Hgames : category_findUnique_id (c_id games) sampleDb = Some games)
    by reflexivity.
  assert (Ub : uuid (c_id books) = true) by (vm_compute; reflexivity).
  assert (Ug : uuid (c_id games) = true) by (vm_compute; reflexivity).
  assert (Nb : exists p,
             In p (products sampleDb) /\ p_categoryId p = c_id books)
    by (exists novel; split; [simpl; auto | reflexivity]).
  assert (Ng : forall p,
             In p (products sampleDb) -> p_categoryId p <> c_id games)
    by (intros p [<-|[<-|[]]]; discriminate).
  split; [repeat split; assumption|].
  pose proof (proj1 (category_delete_guarded sampleDb books Hbooks Ub) Nb)
    as Hb.
  destruct (proj2 (category_delete_guarded sampleDb games Hgames Ug) Ng)
    as [db' [Hg [Hgone _]]].
  rewrite Hb, Hg. repeat split; try reflexivity. exact Hgone.
Defined.

Lemma findAll_pagination_witness :
  (1 <= 3 /\ 1 <= 1)
  /\ fst (productService.findAll
            (mkProductQuery 3 1 None None None None None ByCreatedAt Desc)
            sampleDb) = []
  /\ snd (productService.findAll
            (mkProductQuery 3 1 None None None None None ByCreatedAt Desc)
            sampleDb) = mkMeta 3 1 2 2.
Proof.
  split; [lia|].
  destruct (proj1 (findAll_pagination sampleDb)
              (mkProductQuery 3 1 None None None None None ByCreatedAt Desc)
              ltac:(simpl; lia) ltac:(simpl; lia))
    as (_ & _ & _ & _ & _ & Hbeyond).
  split; [apply Hbeyond; vm_compute; reflexivity | reflexivity].
Defined.

Lemma update_writes_present_fields_witness :
  (product_findUnique_id novelId sampleDb = Some novel
   /\ productAdmits novelId
        (mkUpdateProductInput None (Some None) None None (Some "X-7"%string)
           None (Some gamesId))
        sampleDb = true
   /\ productAdmits novelId
        (mkUpdateProductInput None None None None None None (Some ghostId))
        sampleDb = false)
  /\ (exists p' db',
        productService.update novelId
          (mkUpdateProductInput None (Some None) None None
             (Some "X-7"%string) None (Some gamesId))
          sampleDb
        = (Returned (withCategory db' p'), db')
        /\ p_name p' = "Novel"%string
        /\ p_description p' = None
        /\ p_sku p' = "X-7"%string
        /\ p_categoryId p' = gamesId
        /\ p_updatedAt p' = 1700000500000)
  /\ (exists e,
        productService.update novelId
          (mkUpdateProductInput None None None None None None (Some ghostId))
          sampleDb
        = (Thrown e, sampleDb)).
Proof.
  assert (Hnovel : product_findUnique_id novelId sampleDb = Some novel)
    by reflexivity.
  assert (Hok : productAdmits novelId
                  (mkUpdateProductInput None (Some None) None None
                     (Some "X-7"%string) None (Some gamesId))
                  sampleDb = true)
    by (vm_compute; reflexivity).
  assert (Hno : productAdmits novelId
                  (mkUpdateProductInput None None None None None None
                     (Some ghostId))
                  sampleDb = false)
    by (vm_compute; reflexivity).
  split; [repeat split; assumption|].
  split.
  - destruct (proj1 (proj1 (update_writes_present_fields sampleDb novelId)
                       _ novel Hnovel) Hok)
      as (p' & db' & Hrun & Hpatched & Hstamp & Hnull & _).
    exists p', db'. split; [exact Hrun|].
    destruct Hpatched as (_ & Hname & _ & _ & _ & Hsku & _ & Hcid & _).
    repeat split;
      [exact Hname | exact (Hnull eq_refl) | exact Hsku | exact Hcid
      | exact Hstamp].
  - exact (proj2 (proj1 (update_writes_present_fields sampleDb novelId)
                    _ novel Hnovel) Hno).
Defined.

(** C4, as stated, fails here.  The body [{ "sku": "X-2" }] passes the
    update schema, and [X-2] is the sku of [atlas]: [update] on [novel]
    throws and the field present in the input is not written.  And a
    field absent from the input does not keep its value: [update] on
    [novel] with a new name alone moves [updatedAt]. *)
Lemma update_taken_sku_is_not_written :
  updateProductSchema_safeParse (Some (skuOnly "X-2"))
    = Returned (ParseSuccess
        (mkUpdateProductInput None None None (Some 0) (Some "X-2"%string)
           (Some true) None))
  /\ product_findUnique_id novelId sampleDb = Some novel
  /\ productService.update novelId
       (mkUpdateProductInput None None None (Some 0) (Some "X-2"%string)
          (Some true) None)
       sampleDb
     = (Thrown (knownRequestError "P2002" None), sampleDb)
  /\ option_map p_sku
       (product_findUnique_id novelId
          (snd (productService.update novelId
                  (mkUpdateProductInput None None None (Some 0)
                     (Some "X-2"%string) (Some true) None)
                  sampleDb)))
     = Some "X-1"%string
  /\ p_updatedAt novel = 1700000200000
  /\ option_map (fun r => p_updatedAt (pwc_product r))
       (match fst (productService.update novelId
                     (mkUpdateProductInput (Some "Tale"%string) None None
                        None None None None)
                     sampleDb) with
        | Returned r => Some r
        | Thrown _ => None
        end)
     = Some 1700000500000.
Proof.
  repeat split; vm_compute; reflexivity.
Qed.

(** C5, where the code departs from it.  A price that is a non-numeric
    string, on an otherwise valid create request, is answered 500: the
    error the transform throws is not a validation failure for the
    controller, although the schema words it as one. *)
Theorem create_price_abc_answers_500 :
  productController.create
    (Some (productBody (Js.Str "abc") "X-9" booksId)) sampleDb
  = (mkResponse 500
       (Some {| success := false; message := "Internal server error";
                data := None; error := None; meta := None |}),
     sampleDb).
Proof. reflexivity. Qed.

(** C6, as stated, fails here: [limit=101] on either list endpoint is
    answered 400, not served with a smaller page. *)
Lemma limit_101_is_rejected :
  Js.toNumber "101" = Js.Fin 101
  /\ statusCode
       (fst (categoryController.getAll [("limit", "101")]%string sampleDb))
     = 400
  /\ statusCode
       (fst (categoryController.getAll [("limit", "101")]%string sampleDb))
     <> 200
  /\ statusCode
       (fst (productController.getAll [("limit", "101")]%string sampleDb))
     = 400
  /\ statusCode
       (fst (productController.getAll [("limit", "101")]%string sampleDb))
     <> 200.
Proof.
  repeat split; try reflexivity; vm_compute; discriminate.
Qed.

Lemma limit_bounded_by_rejection_witness :
  (param "limit" [("limit", "250")]%string = Some "250"%string
   /\ Js.gtb (Js.toNumber "250") (Js.Fin 100) = true
   /\ statusCode
        (fst (categoryController.getAll [("limit", "100")]%string sampleDb))
      = 200)
  /\ statusCode
       (fst (productController.getAll [("limit", "250")]%string sampleDb))
     = 400
  /\ exists rows m,
       dataOf (fst (categoryController.getAll [("limit", "100")]%string
                      sampleDb)) = Some rows
       /\ metaOf (fst (categoryController.getAll [("limit", "100")]%string
                         sampleDb)) = Some m
       /\ limit m <= 100.
Proof.
  assert (Hparam : param "limit" [("limit", "250")]%string
                   = Some "250"%string) by reflexivity.
  assert (Hover : Js.gtb (Js.toNumber "250") (Js.Fin 100) = true)
    by (vm_compute; reflexivity).
  assert (Hok : statusCode
                  (fst (categoryController.getAll [("limit", "100")]%string
                          sampleDb)) = 200)
    by (vm_compute; reflexivity).
  split; [repeat split; assumption|].
  split.
  - exact (proj1 (proj2 (proj2
             (proj1 (limit_bounded_by_rejection sampleDb
                       [("limit", "250")]%string)
                    "250"%string Hparam Hover)))).
  - destruct (proj1 (proj2 (limit_bounded_by_rejection sampleDb
                              [("limit", "100")]%string)) Hok)
      as (rows & m & Hd & Hm & Hl & _).
    exists rows, m. repeat split; [exact Hd | exact Hm | lia].
Defined.

Lemma toggleActive_negates_witness :
  (uuid novelId = true
   /\ product_findUnique_id novelId sampleDb = Some novel
   /\ uuid ghostId = true
   /\ product_findUnique_id ghostId sampleDb = None
   /\ uuid "novel" = false)
  /\ productController.toggleActive ghostId sampleDb =
       (mkResponse 404
          (Some {| success := false; message := "Product not found";
                   data := None; error := None; meta := None |}),
        sampleDb)
  /\ statusCode (fst (productController.toggleActive "novel" sampleDb)) = 400
  /\ exists db',
       productController.toggleActive novelId sampleDb =
         (mkResponse 200
            (Some {| success := true;
                     message := "Product deactivated successfully";
                     data := Some
                       (mkProduct novelId "Novel" None (1999 # 100) 5 "X-1"
                          false booksId 1700000200000 1700000500000);
                     error := None; meta := None |}),
          db')
       /\ product_findUnique_id atlasId db' = Some atlas.
Proof.
  assert (Hu : uuid novelId = true) by (vm_compute; reflexivity).
  assert (Hnovel : product_findUnique_id novelId sampleDb = Some novel)
    by reflexivity.
  assert (Hg : uuid ghostId = true) by (vm_compute; reflexivity).
  assert (Hghost : product_findUnique_id ghostId sampleDb = None)
    by reflexivity.
  assert (Hbad : uuid "novel" = false) by (vm_compute; reflexivity).
  split; [repeat split; assumption|].
  split; [|split].
  - exact (proj2 (proj1 (proj2 (toggleActive_negates sampleDb ghostId))
                    Hghost) Hg).
  - exact (proj1 (proj1 (toggleActive_negates sampleDb "novel") Hbad)).
  - destruct (proj2 (proj2 (toggleActive_negates sampleDb novelId))
                novel Hnovel)
      as (db' & _ & Hrun & _ & Hothers & _).
    exists db'. split; [exact (Hrun Hu)|].
    rewrite (Hothers atlasId ltac:(discriminate)). reflexivity.
Defined.

(** C7, as stated, fails here.  Toggling [novel] changes a field besides
    [isActive]: [updatedAt] moves to the time of the request.  And the
    identifier [novel], which no product has, is answered 400, not 404:
    the parameter schema refuses it. *)
Lemma toggleActive_moves_updatedAt :
  product_findUnique_id novelId sampleDb = Some novel
  /\ p_updatedAt novel = 1700000200000
  /\ option_map p_updatedAt
       (dataOf (fst (productController.toggleActive novelId sampleDb)))
     = Some 1700000500000
  /\ product_findUnique_id "novel" sampleDb = None
  /\ statusCode (fst (productController.toggleActive "novel" sampleDb)) = 400
  /\ statusCode (fst (productController.toggleActive "novel" sampleDb))
     <> 404.
Proof.
  repeat split; try reflexivity. vm_compute. discriminate.
Qed.

(** C8, where the code departs from it.  [PUT] with the body [{}] on the
    product [novel], whose stock is 5, is answered 200 with a stock of 0
    and another [updatedAt]; on [atlas], which is inactive, it is answered
    with [isActive] true.  Under [.partial()] the validation library, in
    the version that fills in defaults there, puts the defaults of [stock]
    and [isActive] into the validated input, and the service writes them.
    The same request on a category changes nothing. *)
Theorem update_empty_body_resets_stock :
  updateProductSchema_safeParse (Some noProductFields)
    = Returned (ParseSuccess
        (mkUpdateProductInput None None None (Some 0) None (Some true) None))
  /\ product_findUnique_id novelId sampleDb = Some novel
  /\ p_stock novel = 5
  /\ p_updatedAt novel = 1700000200000
  /\ productController.update novelId (Some noProductFields) sampleDb
     = (mkResponse 200
          (Some {| success := true;
                   message := "Product updated successfully";
                   data := Some
                     (mkProductWithCategory
                        (mkProduct novelId "Novel" None (1999 # 100) 0 "X-1"
                           true booksId 1700000200000 1700000500000)
                        (Some (mkCategoryRef booksId "Books")));
                   error := None; meta := None |}),
        mkDb [books; games]
             [mkProduct novelId "Novel" None (1999 # 100) 0 "X-1"
                true booksId 1700000200000 1700000500000;
              atlas])
  /\ p_isActive atlas = false
  /\ option_map (fun r => p_isActive (pwc_product r))
       (dataOf (fst (productController.update atlasId (Some noProductFields)
                       sampleDb)))
     = Some true
  /\ categoryController.update booksId (Some noCategoryFields) sampleDb
     = (mkResponse 200
          (Some {| success := true;
                   message := "Category updated successfully";
                   data := Some books; error := None; meta := None |}),
        sampleDb).
Proof.
  repeat split; vm_compute; reflexivity.
Qed.

Lemma errorHandler_database_errors_witness :
  (isZodError (knownRequestError "P2002" None) = false
   /\ e_name (knownRequestError "P2002" None)
      = "PrismaClientKnownRequestError"%string
   /\ e_code (knownRequestError "P2002" None) = Some "P2002"%string
   /\ e_metaTarget (knownRequestError "P2002" None) = None
   /\ e_metaTarget (knownRequestError "P2002" (Some ["sku"%string]))
      = Some ["sku"%string])
  /\ @errorHandler sampleEnv unit (knownRequestError "P2002" None)
     = mkResponse 400
         (Some {| success := false;
                  message := "A record with this field already exists";
                  data := None; error := None; meta := None |})
  /\ @errorHandler sampleEnv unit
       (knownRequestError "P2002" (Some ["sku"%string]))
     = mkResponse 400
         (Some {| success := false;
                  message := "A record with this sku already exists";
                  data := None; error := None; meta := None |})
  /\ @errorHandler sampleEnv unit (knownRequestError "P2034" None)
     = mkResponse 500
         (Some {| success := false; message := "Internal server error";
                  data := None;
                  error := Some (Text "Database error occurred");
                  meta := None |}).
Proof.
  split; [repeat split; reflexivity|].
  split; [|split].
  - destruct (proj1 (proj1 (errorHandler_database_errors unit
                              (knownRequestError "P2002" None) eq_refl)
                       eq_refl) eq_refl)
      as (Hanswer & _ & Hfield & _).
    rewrite Hanswer, (Hfield eq_refl). reflexivity.
  - destruct (proj1 (proj1 (errorHandler_database_errors unit
                              (knownRequestError "P2002"
                                 (Some ["sku"%string])) eq_refl)
                       eq_refl) eq_refl)
      as (Hanswer & Hnamed & _).
    rewrite Hanswer, (Hnamed "sku"%string [] eq_refl ltac:(discriminate)).
    reflexivity.
  - exact (proj2 (proj2 (proj2
             (proj1 (errorHandler_database_errors unit
                       (knownRequestError "P2034" None) eq_refl) eq_refl)))
             ltac:(discriminate) ltac:(discriminate) ltac:(discriminate)).
Defined.

(** C9, as stated, fails here.  Creating a second category named [Books]
    breaks the unique constraint; the error the client throws carries no
    target, and the answer of the central handler names no field. *)
Lemma unique_error_names_no_field :
  fst (categoryService.create (mkCreateCategoryInput "Books" None) sampleDb)
    = Thrown (knownRequestError "P2002" None)
  /\ e_metaTarget (knownRequestError "P2002" None) = None
  /\ @errorHandler sampleEnv unit (knownRequestError "P2002" None)
     = mkResponse 400
         (Some {| success := false;
                  message := "A record with this field already exists";
                  data := None; error := None; meta := None |}).
Proof.
  repeat split.
Qed.

Lemma category_list_newest_first_witness :
  (param "page" [("sortBy", "name"); ("sortOrder", "asc")]%string
   = param "page" []
   /\ param "limit" [("sortBy", "name"); ("sortOrder", "asc")]%string
      = param "limit" []
   /\ param "search" [("sortBy", "name"); ("sortOrder", "asc")]%string
      = param "search" [])
  /\ categoryController.getAll
       [("sortBy", "name"); ("sortOrder", "asc")]%string sampleDb
     = categoryController.getAll [] sampleDb
  /\ dataOf (fst (categoryController.getAll [] sampleDb))
     = Some [withProductCount sampleDb games; withProductCount sampleDb books]
  /\ StronglySorted newerFirst
       [withProductCount sampleDb games; withProductCount sampleDb books].
Proof.
  split; [repeat split; reflexivity|].
  split.
  - exact (proj1 (proj2 (proj2 (category_list_newest_first sampleDb)))
             [] [("sortBy", "name"); ("sortOrder", "asc")]%string
             eq_refl eq_refl eq_refl).
  - split; [reflexivity|].
    exact (proj1 (proj2 (category_list_newest_first sampleDb))
             [] _ eq_refl).
Defined.

Example parseFloat_half : Js.parseFloat "19.5" = Js.Fin (39 # 2).
Proof. reflexivity. Qed.
Example parseFloat_1999 :
  Js.parseFloat "19.99" = Js.Fin (5626684784446013 # 281474976710656)
  /\ Js.toDecimal (5626684784446013 # 281474976710656) = (1999 # 100).
Proof. split; vm_compute; reflexivity. Qed.
Example parseFloat_overflow : Js.parseFloat "1e400" = Js.Inf false.
Proof. vm_compute. reflexivity. Qed.
Example price_rounds_into_range :
  @zPrice sampleEnv (Js.Str "99999999.990000001")
  = Returned (Valid priceLimit).
Proof. vm_compute. reflexivity. Qed.
Example length_in_code_units :
  Js.length (String (ascii_of_nat 195) (String (ascii_of_nat 169) "t"))
  = 2%nat.
Proof. reflexivity. Qed.
Example trim_no_break_space :
  Js.trim (String (ascii_of_nat 194) (String (ascii_of_nat 160) "X-1"))
  = "X-1"%string.
Proof. reflexivity. Qed.
Example parseFloat_abc : Js.parseFloat "abc" = Js.NaN.
Proof. reflexivity. Qed.
Example parseFloat_prefix : Js.parseFloat "  12abc" = Js.Fin 12.
Proof. reflexivity. Qed.
Example price_prefix_is_accepted :
  @zPrice sampleEnv (Js.Str "12abc") = Returned (Valid 12%Q).
Proof. reflexivity. Qed.
Example price_out_of_range :
  @zPrice sampleEnv (Js.Str "100000000")
  = Returned (Invalid ["Price is too large"%string]).
Proof. reflexivity. Qed.
Example price_not_positive :
  @zPrice sampleEnv (Js.Num (Js.Fin 0))
  = Returned (Invalid ["Price must be a positive number"%string]).
Proof. reflexivity. Qed.
Example parseFloat_exp : Js.parseFloat "-1.5e2x" = Js.Fin (-150).
Proof. reflexivity. Qed.
Example parseFloat_dangling : Js.parseFloat "7e+" = Js.Fin 7.
Proof. reflexivity. Qed.
Example toNumber_101 : Js.toNumber " 101 " = Js.Fin 101.
Proof. reflexivity. Qed.
Example toNumber_empty : Js.toNumber "" = Js.Fin 0.
Proof. reflexivity. Qed.
Example toNumber_hex : Js.toNumber "0x1f" = Js.Fin 31.
Proof. reflexivity. Qed.
Example toNumber_bad : Js.toNumber "12abc" = Js.NaN.
Proof. reflexivity. Qed.
Example toNumber_frac : Js.toNumber ".5e1" = Js.Fin 5.
Proof. reflexivity. Qed.
Example trim_ex : Js.trim "  X-1 " = "X-1"%string.
Proof. reflexivity. Qed.

(* ================================================================== *)
(** ** More statements at work on the sample catalogs *)
(* ================================================================== *)

Lemma category_create_then_found_witness :
  (createCategorySchema_safeParse (Some (categoryBody "  Toys "))
   = ParseSuccess (mkCreateCategoryInput "Toys" None)
   /\ category_findUnique_name "Toys" sampleDb = None
   /\ category_findUnique_id newId sampleDb = None)
  /\ statusCode
       (fst (categoryController.create (Some (categoryBody "  Toys "))
               sampleDb)) = 201
  /\ categoryService.findByName "Toys"
       (snd (categoryController.create (Some (categoryBody "  Toys "))
               sampleDb))
     = Some (mkCategory newId "Toys" None now now).
Proof.
  assert (Hparse : createCategorySchema_safeParse
                     (Some (categoryBody "  Toys "))
                   = ParseSuccess (mkCreateCategoryInput "Toys" None))
    by (vm_compute; reflexivity).
  assert (Hname : category_findUnique_name "Toys" sampleDb = None)
    by reflexivity.
  assert (Hid : category_findUnique_id newId sampleDb = None)
    by (vm_compute; reflexivity).
  split; [repeat split; assumption|].
  destruct (category_create_then_found sampleDb _ _ Hparse Hname Hid)
    as (Hrun & Hfound & _).
  rewrite Hrun. split; [reflexivity | exact Hfound].
Defined.

Lemma product_create_then_found_witness :
  (createProductSchema_safeParse
     (Some (productBody (Js.Str "19.5") "X-9" booksId))
   = Returned (ParseSuccess
       (mkCreateProductInput "Pen" None (39 # 2) 0 "X-9" true booksId))
   /\ fitsInt 0 = true
   /\ category_findUnique_id booksId sampleDb = Some books
   /\ product_findUnique_sku "X-9" sampleDb = None
   /\ product_findUnique_id newId sampleDb = None)
  /\ statusCode
       (fst (productController.create
               (Some (productBody (Js.Str "19.5") "X-9" booksId))
               sampleDb)) = 201
  /\ productService.findBySku "X-9"
       (snd (productController.create
               (Some (productBody (Js.Str "19.5") "X-9" booksId))
               sampleDb))
     = Some (mkProduct newId "Pen" None (39 # 2) 0 "X-9" true booksId
               now now).
Proof.
  assert (Hparse : createProductSchema_safeParse
                     (Some (productBody (Js.Str "19.5") "X-9" booksId))
                   = Returned (ParseSuccess
                       (mkCreateProductInput "Pen" None (39 # 2) 0
                          "X-9" true booksId)))
    by (vm_compute; reflexivity).
  assert (Hcat : category_findUnique_id booksId sampleDb = Some books)
    by reflexivity.
  assert (Hsku : product_findUnique_sku "X-9" sampleDb = None)
    by reflexivity.
  assert (Hid : product_findUnique_id newId sampleDb = None)
    by (vm_compute; reflexivity).
  assert (Hfit : fitsInt 0 = true) by reflexivity.
  split; [repeat split; assumption|].
  destruct (product_create_then_found sampleDb _ _ books
              Hparse Hfit Hcat Hsku Hid) as (Hrun & Hfound & _).
  rewrite Hrun. split; [reflexivity | exact Hfound].
Defined.

Lemma create_twice_conflicts_witness :
  (createCategorySchema_safeParse (Some (categoryBody "Toys"))
   = ParseSuccess (mkCreateCategoryInput "Toys" None)
   /\ category_findUnique_name "Toys" sampleDb = None
   /\ category_findUnique_id (@newId sampleEnv) sampleDb = None
   /\ @createProductSchema_safeParse sampleEnv
        (Some (productBody (Js.Str "19.5") "X-9" booksId))
      = Returned (ParseSuccess
          (mkCreateProductInput "Pen" None (39 # 2) 0 "X-9" true booksId))
   /\ @createProductSchema_safeParse laterEnv
        (Some (productBody (Js.Str "19.5") "X-9" booksId))
      = Returned (ParseSuccess
          (mkCreateProductInput "Pen" None (39 # 2) 0 "X-9" true booksId))
   /\ category_findUnique_id booksId sampleDb = Some books
   /\ product_findUnique_sku "X-9" sampleDb = None
   /\ product_findUnique_id (@newId sampleEnv) sampleDb = None
   /\ fitsInt 0 = true)
  /\ statusCode
       (fst (@categoryController.create laterEnv
               (Some (categoryBody "Toys"))
               (snd (@categoryController.create sampleEnv
                       (Some (categoryBody "Toys")) sampleDb)))) = 409
  /\ statusCode
       (fst (@productController.create laterEnv
               (Some (productBody (Js.Str "19.5") "X-9" booksId))
               (snd (@productController.create sampleEnv
                       (Some (productBody (Js.Str "19.5") "X-9" booksId))
                       sampleDb)))) = 409.
Proof.
  assert (Hparse : createCategorySchema_safeParse (Some (categoryBody "Toys"))
                   = ParseSuccess (mkCreateCategoryInput "Toys" None))
    by (vm_compute; reflexivity).
  assert (Hname : category_findUnique_name "Toys" sampleDb = None)
    by reflexivity.
  assert (Hid : category_findUnique_id (@newId sampleEnv) sampleDb = None)
    by (vm_compute; reflexivity).
  assert (Hp1 : @createProductSchema_safeParse sampleEnv
                  (Some (productBody (Js.Str "19.5") "X-9" booksId))
                = Returned (ParseSuccess
                    (mkCreateProductInput "Pen" None (39 # 2) 0 "X-9" true
                       booksId)))
    by (vm_compute; reflexivity).
  assert (Hp2 : @createProductSchema_safeParse laterEnv
                  (Some (productBody (Js.Str "19.5") "X-9" booksId))
                = Returned (ParseSuccess
                    (mkCreateProductInput "Pen" None (39 # 2) 0 "X-9" true
                       booksId)))
    by (vm_compute; reflexivity).
  assert (Hcat : category_findUnique_id booksId sampleDb = Some books)
    by reflexivity.
  assert (Hsku : product_findUnique_sku "X-9" sampleDb = None)
    by reflexivity.
  assert (Hpid : product_findUnique_id (@newId sampleEnv) sampleDb = None)
    by (vm_compute; reflexivity).
  assert (Hfit : fitsInt 0 = true) by reflexivity.
  split; [repeat split; assumption|].
  split.
  - destruct (proj1 (create_twice_conflicts sampleEnv laterEnv sampleDb)
                _ _ Hparse Hname Hid) as [_ Hsecond].
    rewrite Hsecond. reflexivity.
  - destruct (proj1 (proj2 (create_twice_conflicts sampleEnv laterEnv
                              sampleDb)
                       _ _ books Hp1 Hp2 Hcat Hsku Hpid) Hfit)
      as [_ Hsecond].
    rewrite Hsecond. reflexivity.
Defined.

Lemma product_delete_then_gone_witness :
  (uuid novelId = true
   /\ product_findUnique_id novelId sampleDb = Some novel)
  /\ exists db',
       productController.delete novelId sampleDb = (mkResponse 204 None, db')
       /\ product_findUnique_id novelId db' = None
       /\ product_findUnique_id atlasId db' = Some atlas
       /\ statusCode (fst (productController.delete novelId db')) = 404.
Proof.
  assert (Hu : uuid novelId = true) by (vm_compute; reflexivity).
  assert (Hp : product_findUnique_id novelId sampleDb = Some novel)
    by reflexivity.
  split; [split; assumption|].
  destruct (proj2 (product_delete_then_gone sampleDb novelId Hu) novel Hp)
    as (db' & Hrun & Hgone & Hothers & _ & Hagain).
  exists db'. split; [exact Hrun|]. split; [exact Hgone|]. split.
  - rewrite (Hothers atlasId ltac:(discriminate)). reflexivity.
  - rewrite Hagain. reflexivity.
Defined.

Lemma last_product_then_category_witness :
  (category_findUnique_id (c_id books) smallDb = Some books
   /\ product_findUnique_id (p_id novel) smallDb = Some novel
   /\ p_categoryId novel = c_id books
   /\ (forall q, In q (products smallDb) -> p_categoryId q = c_id books ->
                 p_id q = p_id novel)
   /\ @uuid sampleEnv (p_id novel) = true
   /\ @uuid sampleEnv (c_id books) = true
   /\ @uuid laterEnv (c_id books) = true)
  /\ statusCode (fst (@categoryController.delete sampleEnv (c_id books)
                        smallDb)) = 409
  /\ statusCode
       (fst (@categoryController.delete laterEnv (c_id books)
               (snd (@productController.delete sampleEnv (p_id novel)
                       smallDb)))) = 204.
Proof.
  assert (Hc : category_findUnique_id (c_id books) smallDb = Some books)
    by reflexivity.
  assert (Hp : product_findUnique_id (p_id novel) smallDb = Some novel)
    by reflexivity.
  assert (Href : p_categoryId novel = c_id books) by reflexivity.
  assert (Honly : forall q, In q (products smallDb) ->
                            p_categoryId q = c_id books -> p_id q = p_id novel)
    by (intros q [<-|[]] _; reflexivity).
  assert (U1 : @uuid sampleEnv (p_id novel) = true)
    by (vm_compute; reflexivity).
  assert (U2 : @uuid sampleEnv (c_id books) = true)
    by (vm_compute; reflexivity).
  assert (U3 : @uuid laterEnv (c_id books) = true)
    by (vm_compute; reflexivity).
  split; [repeat split; assumption|].
  destruct (last_product_then_category sampleEnv laterEnv smallDb books novel
              Hc Hp Href Honly U1 U2 U3) as [Hblocked (db2 & Hfreed & _)].
  split; [exact Hblocked|]. rewrite Hfreed. reflexivity.
Defined.

Lemma updateStock_adds_witness :
  (product_findUnique_id novelId sampleDb = Some novel
   /\ fitsInt (-3) = true /\ fitsInt (p_stock novel + -3) = true
   /\ fitsInt (-4) = true /\ fitsInt (p_stock novel + (-3 + -4)) = true
   /\ fitsInt (p_stock novel + 2147483647) = false)
  /\ (exists db1 db2 p2,
        fst (productService.updateStock novelId (-3) sampleDb)
          = Returned (stamped (mkProduct novelId "Novel" None (1999 # 100) 2
                                 "X-1" true booksId 1700000200000 0)
                        1700000500000)
        /\ productService.updateStock novelId (-3) sampleDb
           = (fst (productService.updateStock novelId (-3) sampleDb), db1)
        /\ productService.updateStock novelId (-4) db1 = (Returned p2, db2)
        /\ p_stock p2 = -2)
  /\ (exists e,
        productService.updateStock novelId 2147483647 sampleDb
        = (Thrown e, sampleDb)).
Proof.
  assert (Hp : product_findUnique_id novelId sampleDb = Some novel)
    by reflexivity.
  assert (F1 : fitsInt (-3) = true) by reflexivity.
  assert (F2 : fitsInt (p_stock novel + -3) = true) by reflexivity.
  assert (F3 : fitsInt (-4) = true) by reflexivity.
  assert (F4 : fitsInt (p_stock novel + (-3 + -4)) = true) by reflexivity.
  assert (F5 : fitsInt (p_stock novel + 2147483647) = false) by reflexivity.
  split; [repeat split; assumption|].
  split.
  - destruct (proj1 (proj2 (updateStock_adds sampleDb novelId))
                novel (-3) (-4) Hp F1 F2 F3 F4)
      as (db1 & db2 & H1 & H2 & _).
    exists db1, db2. eexists. rewrite H1. cbn [fst].
    split; [reflexivity|]. split; [reflexivity|]. split; [exact H2|].
    reflexivity.
  - exact (proj2 (proj2 (updateStock_adds sampleDb novelId))
             novel 2147483647 Hp (or_intror F5)).
Defined.

Lemma toggleActive_twice_witness :
  product_findUnique_id novelId sampleDb = Some novel
  /\ product_findUnique_id novelId
       (snd (@productService.toggleActive laterEnv novelId
               (snd (@productService.toggleActive sampleEnv novelId
                       sampleDb))))
     = Some (stamped novel 1700000900000).
Proof.
  assert (Hp : product_findUnique_id novelId sampleDb = Some novel)
    by reflexivity.
  split; [exact Hp|].
  exact (proj1 (toggleActive_twice sampleEnv laterEnv sampleDb novelId novel
                  Hp)).
Defined.

Lemma only_successful_writes_change_tables_witness :
  400 <= sent_status (fst (route (DELETE_category booksId) sampleDb))
  /\ snd (route (DELETE_category booksId) sampleDb) = sampleDb
  /\ snd (route (GET_products []) sampleDb) = sampleDb.
Proof.
  assert (H : 400 <= sent_status (fst (route (DELETE_category booksId)
                                         sampleDb)))
    by (vm_compute; discriminate).
  split; [exact H|]. split.
  - exact (proj1 (proj2 (only_successful_writes_change_tables
                           (DELETE_category booksId) sampleDb)) H).
  - exact (proj1 (only_successful_writes_change_tables
                    (GET_products []) sampleDb) eq_refl).
Defined.

Lemma sampleDb_well_formed : wellFormed sampleDb.
Proof.
  unfold wellFormed. cbn.
  repeat split;
    try (repeat constructor; cbn; intuition discriminate).
  intros p [<-|[<-|[]]]; cbn; auto.
Qed.

Lemma served_requests_keep_tables_well_formed_witness :
  wellFormed sampleDb
  /\ wellFormed
       (serve [(sampleEnv,
                POST_product
                  (Some (productBody (Js.Str "19.5") "X-9" booksId)));
               (laterEnv, DELETE_category gamesId);
               (laterEnv, PUT_product novelId (Some (skuOnly "X-2")))]
              sampleDb).
Proof.
  split; [exact sampleDb_well_formed|].
  apply served_requests_keep_tables_well_formed.
  exact sampleDb_well_formed.
Defined.

Lemma product_list_passes_filters_witness :
  In (withCategory sampleDb atlas)
     (fst (productService.findAll
             (mkProductQuery 1 10 None (Some booksId) (Some false)
                (Some (Js.Fin 20)) (Some (Js.Fin 45)) ByCreatedAt Desc)
             sampleDb))
  /\ p_categoryId atlas = booksId
  /\ p_isActive atlas = false
  /\ (Js.toDecimal 20 <= p_price atlas)%Q
  /\ (p_price atlas <= Js.toDecimal 45)%Q.
Proof.
  assert (Hin : In (withCategory sampleDb atlas)
                   (fst (productService.findAll
                           (mkProductQuery 1 10 None (Some booksId)
                              (Some false) (Some (Js.Fin 20))
                              (Some (Js.Fin 45)) ByCreatedAt Desc)
                           sampleDb)))
    by (vm_compute; left; reflexivity).
  split; [exact Hin|].
  destruct (product_list_passes_filters sampleDb _ _ Hin)
    as (_ & _ & Hcat & Hact & Hlo & Hhi).
  split; [exact (Hcat booksId eq_refl ltac:(discriminate))|].
  split; [exact (Hact false eq_refl)|].
  split; [exact (Hlo 20%Q eq_refl) | exact (Hhi 45%Q eq_refl)].
Defined.

Lemma product_pages_cover_the_list_witness :
  (1 <= 1
   /\ (forall e, In e [sampleEnv; laterEnv] -> sameDatabase e sampleEnv)
   /\ distinctKeys ByCreatedAt Desc (products sampleDb)
   /\ List.length [sampleEnv; laterEnv]
      = Z.to_nat
          (totalPages
             (snd (productService.findAll
                     (mkProductQuery 1 1 None None None None None
                        ByCreatedAt Desc) sampleDb))))
  /\ walk (mkProductQuery 1 1 None None None None None ByCreatedAt Desc)
          1 [sampleEnv; laterEnv] sampleDb
     = [withCategory sampleDb atlas; withCategory sampleDb novel].
Proof.
  assert (Hsame : forall e, In e [sampleEnv; laterEnv] ->
                            sameDatabase e sampleEnv)
    by (intros e [<-|[<-|[]]]; split; reflexivity).
  assert (Hkeys : distinctKeys ByCreatedAt Desc (products sampleDb)).
  { unfold distinctKeys. repeat constructor.
    intros [H _]. vm_compute in H. discriminate H. }
  assert (Hpages : List.length [sampleEnv; laterEnv]
                   = Z.to_nat
                       (totalPages
                          (snd (productService.findAll
                                  (mkProductQuery 1 1 None None None None
                                     None ByCreatedAt Desc) sampleDb))))
    by reflexivity.
  split;
    [split; [lia | split; [exact Hsame | split; [exact Hkeys | exact Hpages]]]
    |].
  exact (proj1 (product_pages_cover_the_list sampleDb
                  (mkProductQuery 1 1 None None None None None
                     ByCreatedAt Desc)
                  [sampleEnv; laterEnv] ltac:(simpl; lia) Hsame Hkeys
                  Hpages)).
Defined.

(** With equal keys the pages need not fit together: [novel] and
    [reprint] were created at the same instant, the database orders them
    one way for the first page and the other way for the second, and the
    client sees [novel] twice and [reprint] never. *)
Example pages_with_equal_keys :
  walk (mkProductQuery 1 1 None None None None None ByCreatedAt Desc)
       1 [sampleEnv; laterEnv] tiedDb
  = [withCategory tiedDb novel; withCategory tiedDb novel].
Proof. vm_compute. reflexivity. Qed.

Lemma validated_input_within_bounds_witness :
  createProductSchema_safeParse
    (Some (productBody (Js.Str "19.5") " X-9 " booksId))
  = Returned (ParseSuccess
      (mkCreateProductInput "Pen" None (39 # 2) 0 "X-9" true booksId))
  /\ (Js.length "X-9" <= 50)%nat
  /\ (39 # 2 <= priceLimit)%Q.
Proof.
  assert (Hparse : createProductSchema_safeParse
                     (Some (productBody (Js.Str "19.5") " X-9 " booksId))
                   = Returned (ParseSuccess
                       (mkCreateProductInput "Pen" None (39 # 2) 0
                          "X-9" true booksId)))
    by (vm_compute; reflexivity).
  split; [exact Hparse|].
  destruct (proj1 (@validated_input_within_bounds sampleEnv) _ _ Hparse)
    as (_ & _ & _ & Hprice & _ & _ & Hsku & _).
  split; [exact Hsku | exact Hprice].
Defined.

Lemma category_update_endpoint_witness :
  (uuid booksId = true
   /\ updateCategorySchema_safeParse (Some (categoryBody "Games"))
      = ParseSuccess (mkUpdateCategoryInput (Some "Games"%string) None)
   /\ category_findUnique_id booksId sampleDb = Some books
   /\ category_findUnique_name "Games" sampleDb = Some games)
  /\ categoryController.update booksId (Some (categoryBody "Games")) sampleDb
     = (mkResponse 409
          (Some {| success := false;
                   message := "Category with this name already exists";
                   data := None; error := None; meta := None |}),
        sampleDb).
Proof.
  assert (Hu : uuid booksId = true) by (vm_compute; reflexivity).
  assert (Hparse : updateCategorySchema_safeParse (Some (categoryBody "Games"))
                   = ParseSuccess
                       (mkUpdateCategoryInput (Some "Games"%string) None))
    by (vm_compute; reflexivity).
  assert (Hc : category_findUnique_id booksId sampleDb = Some books)
    by reflexivity.
  assert (Ho : category_findUnique_name "Games" sampleDb = Some games)
    by reflexivity.
  split; [repeat split; assumption|].
  exact (proj1 (proj2 (category_update_endpoint sampleDb booksId _ _
                         Hu Hparse) books Hc)
           "Games"%string games eq_refl ltac:(discriminate)
           ltac:(discriminate) Ho).
Defined.

Lemma product_update_endpoint_witness :
  (uuid novelId = true
   /\ updateProductSchema_safeParse (Some (skuOnly "X-2"))
      = Returned (ParseSuccess
          (mkUpdateProductInput None None None (Some 0) (Some "X-2"%string)
             (Some true) None))
   /\ product_findUnique_id novelId sampleDb = Some novel
   /\ product_findUnique_sku "X-2" sampleDb = Some atlas)
  /\ productController.update novelId (Some (skuOnly "X-2")) sampleDb
     = (mkResponse 409
          (Some {| success := false;
                   message := "Product with this SKU already exists";
                   data := None; error := None; meta := None |}),
        sampleDb).
Proof.
  assert (Hu : uuid novelId = true) by (vm_compute; reflexivity).
  assert (Hparse : updateProductSchema_safeParse (Some (skuOnly "X-2"))
                   = Returned (ParseSuccess
                       (mkUpdateProductInput None None None (Some 0)
                          (Some "X-2"%string) (Some true) None)))
    by (vm_compute; reflexivity).
  assert (Hp : product_findUnique_id novelId sampleDb = Some novel)
    by reflexivity.
  assert (Ho : product_findUnique_sku "X-2" sampleDb = Some atlas)
    by reflexivity.
  split; [repeat split; assumption|].
  exact (proj1 (proj2 (proj2 (proj2 (product_update_endpoint sampleDb novelId
                                       Hu) _ _ Hparse) novel Hp))
           "X-2"%string atlas ltac:(discriminate) eq_refl
           ltac:(discriminate) ltac:(discriminate) Ho).
Defined.

Lemma empty_text_conflict_is_400_witness :
  (uuid booksId = true
   /\ updateCategorySchema_safeParse (Some (categoryBody " "))
      = ParseSuccess (mkUpdateCategoryInput (Some ""%string) None)
   /\ category_findUnique_id booksId blankDb = Some books
   /\ In nameless (categories blankDb)
   /\ c_name nameless = ""%string
   /\ c_id nameless <> booksId)
  /\ categoryController.update booksId (Some (categoryBody " ")) blankDb
     = (mkResponse 400
          (Some {| success := false;
                   message := "A record with this field already exists";
                   data := None; error := None; meta := None |}),
        blankDb).
Proof.
  assert (Hu : uuid booksId = true) by (vm_compute; reflexivity).
  assert (Hparse : updateCategorySchema_safeParse (Some (categoryBody " "))
                   = ParseSuccess
                       (mkUpdateCategoryInput (Some ""%string) None))
    by (vm_compute; reflexivity).
  assert (Hc : category_findUnique_id booksId blankDb = Some books)
    by reflexivity.
  assert (Hin : In nameless (categories blankDb)) by (simpl; auto).
  assert (Hn : c_name nameless = ""%string) by reflexivity.
  assert (Hd : c_id nameless <> booksId) by discriminate.
  split; [repeat split; assumption|].
  exact (proj1 (empty_text_conflict_is_400 blankDb booksId Hu)
           _ _ books nameless Hparse eq_refl Hc Hin Hn Hd).
Defined.

Lemma product_count_agrees_witness :
  (category_findUnique_id (c_id books) sampleDb = Some books
   /\ uuid (c_id books) = true
   /\ c_id books <> ""%string)
  /\ exists n,
       dataOf (fst (categoryController.getById (c_id books) sampleDb))
       = Some (mkCategoryWithProductCount books n)
       /\ total (snd (productService.findAll
                        (mkProductQuery 1 10 None (Some (c_id books))
                           None None None ByName Asc) sampleDb)) = n.
Proof.
  assert (Hc : category_findUnique_id (c_id books) sampleDb = Some books)
    by reflexivity.
  assert (Hu : uuid (c_id books) = true) by (vm_compute; reflexivity).
  assert (Hne : c_id books <> ""%string) by discriminate.
  split; [repeat split; assumption|].
  destruct (product_count_agrees sampleDb books Hc Hu Hne)
    as (n & Hget & _ & _ & _ & Htotal).
  exists n. rewrite Hget. split; [reflexivity | apply Htotal].
Defined.

Lemma product_create_outcomes_witness :
  ((exists e,
      createProductSchema_safeParse
        (Some (productBody (Js.Str "abc") "X-9" booksId)) = Thrown e)
   /\ (exists d,
         createProductSchema_safeParse (Some bulkBody)
           = Returned (ParseSuccess d)
         /\ isSome (category_findUnique_id (cpi_categoryId d) sampleDb) = true
         /\ product_findUnique_sku (cpi_sku d) sampleDb = None
         /\ fitsInt (cpi_stock d) = false))
  /\ statusCode
       (fst (productController.create
               (Some (productBody (Js.Str "abc") "X-9" booksId)) sampleDb))
     = 500
  /\ statusCode (fst (productController.create (Some bulkBody) sampleDb))
     = 500.
Proof.
  assert (He : exists e,
             createProductSchema_safeParse
               (Some (productBody (Js.Str "abc") "X-9" booksId)) = Thrown e)
    by (eexists; vm_compute; reflexivity).
  assert (Hb : exists d,
             createProductSchema_safeParse (Some bulkBody)
               = Returned (ParseSuccess d)
             /\ isSome (category_findUnique_id (cpi_categoryId d) sampleDb)
                = true
             /\ product_findUnique_sku (cpi_sku d) sampleDb = None
             /\ fitsInt (cpi_stock d) = false).
  { exists (mkCreateProductInput "Pen" None (39 # 2) 2147483648 "X-9" true
              booksId).
    repeat split; vm_compute; reflexivity. }
  split; [split; assumption|]. split.
  - exact (proj2 (proj1 (proj2 (product_create_outcomes sampleDb
             (Some (productBody (Js.Str "abc") "X-9" booksId)))))
             (or_introl He)).
  - exact (proj2 (proj1 (proj2 (product_create_outcomes sampleDb
             (Some bulkBody)))) (or_intror Hb)).
Defined.

Lemma route_follows_envelope_witness :
  (~ failure (fst (route (GET_products []) sampleDb))
   /\ ~ failure (fst (route (DELETE_product novelId) sampleDb)))
  /\ fst (route (GET_products []) sampleDb)
     = mkSent 200 (Some true) true false true
  /\ fst (route (DELETE_product novelId) sampleDb)
     = mkSent 204 None false false false.
Proof.
  assert (H1 : ~ failure (fst (route (GET_products []) sampleDb)))
    by (intros (H & _); vm_compute in H; discriminate H).
  assert (H2 : ~ failure (fst (route (DELETE_product novelId) sampleDb)))
    by (intros (H & _); vm_compute in H; discriminate H).
  split; [split; assumption|].
  split.
  - destruct (route_follows_envelope (GET_products []) sampleDb)
      as [H|H]; [exact H | destruct (H1 H)].
  - destruct (route_follows_envelope (DELETE_product novelId) sampleDb)
      as [H|H]; [exact H | destruct (H2 H)].
Defined.
